(** * SAITRAPP backend: the FXIFY risk engine and the MT5 bridge client

    A shallow embedding of
      - electron/fxify/drawdown-monitor.js      (module [DrawdownMonitor])
      - electron/fxify/fxify-rules-engine.js    (module [RulesEngine])
      - electron/fxify/fxify-mode-manager.js    (module [ModeManager])
      - electron/fxify/pre-execution-validator.js (module [Validator])
      - electron/brokers/mt5.js                 (module [MT5])
      - electron/brokers/fxify-mt5.js           (module [FxifyMT5])
      - electron/fxify/trading-calendar.js      (module [TradingCalendar])
    followed by the properties of the specification that concern them.
    The modules [MT5Lifecycle], [PositionModification], [Account] and
    [ProfileStore] hold further functions of mt5.js,
    pre-execution-validator.js, fxify-rules-engine.js and
    fxify-mode-manager.js, with the state that they need.

    Conventions of the embedding.
      - A JavaScript number is a [Js.num]: an exact rational, the two
        infinities, or NaN.  Arithmetic follows the IEEE special-value
        rules (x/0, Infinity - Infinity, comparisons with NaN ...);
        rounding and the sign of zero are not modelled.
      - [undefined]/[null] are [None]; truthiness is written out.
        Where a value that may be absent reaches arithmetic, [None] is
        [undefined], which ToNumber turns into NaN ([Js.to_num]); a
        [null] there, which ToNumber turns into 0, is outside the
        model, as are a negative zero and sums or products that
        rounding moves across a threshold.
      - The wall clock is an argument [now], in milliseconds since the
        epoch; a synchronous method reads it at one instant.
      - A call that may throw returns a [Js.Result]; [try { } catch] is
        [Js.try_catch].  An [await] is the sequential composition.  *)

From Stdlib Require Import ZArith QArith Qabs List Ascii String Bool Lia.
From stdpp Require Import gmap.
Import ListNotations.

Local Open Scope Z_scope.

(* ================================================================== *)
(** * JavaScript values *)
(* ================================================================== *)

Module Js.

(** ** Numbers *)

Inductive num : Type :=
| NaN
| NInf
| Fin (q : Q)
| PInf.

(** A numeric literal, in lowest terms.  Every arithmetic operation
    below returns its rational in lowest terms too, so that a number
    has one representation. *)
Definition lit (q : Q) : num := Fin (Qred q).

Definition neg (a : num) : num :=
  match a with
  | NaN => NaN
  | NInf => PInf
  | PInf => NInf
  | Fin q => Fin (Qred (- q))
  end.

Definition add (a b : num) : num :=
  match a, b with
  | NaN, _ | _, NaN => NaN
  | Fin x, Fin y => Fin (Qred (x + y))
  | PInf, NInf | NInf, PInf => NaN
  | PInf, _ | _, PInf => PInf
  | NInf, _ | _, NInf => NInf
  end.

Definition sub (a b : num) : num :=
  match a, b with
  | NaN, _ | _, NaN => NaN
  | Fin x, Fin y => Fin (Qred (x - y))
  | PInf, PInf | NInf, NInf => NaN
  | PInf, _ | _, NInf => PInf
  | NInf, _ | _, PInf => NInf
  end.

(** The infinity [inf] scaled by a finite factor [x]. *)
Definition scale_inf (inf : num) (x : Q) : num :=
  match (x ?= 0)%Q with
  | Eq => NaN
  | Gt => inf
  | Lt => neg inf
  end.

Definition mul (a b : num) : num :=
  match a, b with
  | NaN, _ | _, NaN => NaN
  | Fin x, Fin y => Fin (Qred (x * y))
  | Fin x, inf => scale_inf inf x
  | inf, Fin y => scale_inf inf y
  | PInf, PInf | NInf, NInf => PInf
  | PInf, NInf | NInf, PInf => NInf
  end.

Definition div (a b : num) : num :=
  match a, b with
  | NaN, _ | _, NaN => NaN
  | Fin x, Fin y =>
      match (y ?= 0)%Q with
      | Eq => match (x ?= 0)%Q with
              | Eq => NaN
              | Gt => PInf
              | Lt => NInf
              end
      | _ => Fin (Qred (x / y))
      end
  | Fin _, _ => Fin 0
  | inf, Fin y =>
      match (y ?= 0)%Q with
      | Lt => neg inf
      | _ => inf
      end
  | _, _ => NaN
  end.

(** [Math.abs] *)
Definition abs (a : num) : num :=
  match a with
  | NaN => NaN
  | NInf | PInf => PInf
  | Fin q => Fin (Qred (Qabs q))
  end.

(** Comparison; [None] when an operand is NaN. *)
Definition cmp (a b : num) : option comparison :=
  match a, b with
  | NaN, _ | _, NaN => None
  | Fin x, Fin y => Some (x ?= y)%Q
  | NInf, NInf | PInf, PInf => Some Eq
  | NInf, _ | _, PInf => Some Lt
  | PInf, _ | _, NInf => Some Gt
  end.

(** [a > b] *)
Definition gt (a b : num) : bool :=
  match cmp a b with Some Gt => true | _ => false end.

(** [a >= b] *)
Definition ge (a b : num) : bool :=
  match cmp a b with Some Gt | Some Eq => true | _ => false end.

(** [Math.max(a, b)] *)
Definition max (a b : num) : num :=
  match cmp a b with
  | None => NaN
  | Some Lt => b
  | Some _ => a
  end.

(** ToBoolean on a number. *)
Definition truthy (a : num) : bool :=
  match a with
  | NaN => false
  | Fin q => negb (Qeq_bool q 0)
  | _ => true
  end.

(** [a || b] on numbers. *)
Definition or_else (a b : num) : num := if truthy a then a else b.

(** ** Optional properties: [None] is [undefined] (or [null]) *)

(** ToNumber of a property that may be [undefined]. *)
Definition to_num (o : option num) : num :=
  match o with Some a => a | None => NaN end.

Definition truthy_opt (o : option num) : bool :=
  match o with Some a => truthy a | None => false end.

(** [o || d] where [o] may be [undefined]. *)
Definition opt_or (o : option num) (d : num) : num :=
  match o with Some a => or_else a d | None => d end.

(** ToBoolean on a string that may be [undefined]: the empty string
    is falsy. *)
Definition truthy_str (o : option string) : bool :=
  match o with
  | Some EmptyString | None => false
  | Some _ => true
  end.

Definition str_or (o : option string) (d : string) : string :=
  match o with
  | Some EmptyString | None => d
  | Some s => s
  end.

(** ** Strings (ASCII) *)

Definition is_upper (c : Ascii.ascii) : bool :=
  let n := Ascii.nat_of_ascii c in ((65 <=? n) && (n <=? 90))%nat.

Definition upper_ascii (c : Ascii.ascii) : Ascii.ascii :=
  let n := Ascii.nat_of_ascii c in
  if ((97 <=? n) && (n <=? 122))%nat then Ascii.ascii_of_nat (n - 32) else c.

(** [s.toUpperCase()] *)
Fixpoint toUpperCase (s : string) : string :=
  match s with
  | EmptyString => EmptyString
  | String c rest => String (upper_ascii c) (toUpperCase rest)
  end.

(** [s.replace(c, '')] for a one-character pattern [c]: the first
    occurrence goes. *)
Fixpoint remove_first (c : Ascii.ascii) (s : string) : string :=
  match s with
  | EmptyString => EmptyString
  | String c' rest =>
      if Ascii.eqb c' c then rest else String c' (remove_first c rest)
  end.

(** [s.includes(t)] *)
Fixpoint includes (t s : string) : bool :=
  String.prefix t s
  || match s with
     | EmptyString => false
     | String _ rest => includes t rest
     end.

(** Every character of [s] is one of A-Z. *)
Fixpoint all_upper (s : string) : bool :=
  match s with
  | EmptyString => true
  | String c rest => is_upper c && all_upper rest
  end.

(** ** Exceptions *)

(** The outcome of a call: a value, or a thrown [Error] with its
    [message]. *)
Inductive Result (A : Type) : Type :=
| Ok (a : A)
| Throw (message : string).
Arguments Ok {A} a.
Arguments Throw {A} message.

Definition bind {A B} (r : Result A) (k : A -> Result B) : Result B :=
  match r with
  | Ok a => k a
  | Throw e => Throw e
  end.

(** [try { body } catch (error) { handler(error.message) }] *)
Definition try_catch {A} (body : Result A) (handler : string -> Result A)
  : Result A :=
  match body with
  | Ok a => Ok a
  | Throw e => handler e
  end.

Definition is_throw {A} (r : Result A) : bool :=
  match r with Throw _ => true | Ok _ => false end.

(** ** The clock: [new Date()] is [now], milliseconds since the epoch *)

Definition ms_per_day : Z := 86400000.

(** [date.toISOString().split('T')[0]]: the UTC calendar date, as the
    number of the day since 1970-01-01 (the ISO date string is a
    one-to-one rendering of this number). *)
Definition utc_date (t : Z) : Z := t / ms_per_day.

(** [date.getUTCDay()]: 0 is Sunday; 1970-01-01 was a Thursday. *)
Definition getUTCDay (t : Z) : Z := (utc_date t + 4) mod 7.

Definition getUTCHours (t : Z) : Z := (t mod ms_per_day) / 3600000.

Definition getUTCMinutes (t : Z) : Z := (t mod 3600000) / 60000.

End Js.

Notation "'let?' x ':=' c 'in' k" := (Js.bind c (fun x => k))
  (at level 10, x name, c at level 100, k at level 200).

(* ================================================================== *)
(** * electron/fxify/drawdown-monitor.js *)
(* ================================================================== *)

Module DrawdownMonitor.
Import Js.

Inductive WarningLevel : Type := safe | warning | critical.

(** An entry of [drawdownHistory]. *)
Record HistoryItem : Type := {
  h_date : Z;
  h_dailyDrawdown : num;
  h_totalDrawdown : num;
  h_balance : num;
  h_equity : num
}.

(** The fields of a [DrawdownMonitor]; [dailyDrawdowns] is the [Map]
    from UTC calendar dates to the drawdown of that day. *)
Record t : Type := {
  dailyDrawdowns : gmap Z num;
  maxDailyDrawdown : num;
  totalDrawdown : num;
  maxTotalDrawdown : num;
  initialBalance : num;
  startOfDayBalance : num;
  currentBalance : num;
  currentEquity : num;
  peakBalance : num;
  drawdownHistory : list HistoryItem;
  lastUpdate : Z
}.

(** Assignments to single fields. *)
Definition set_dailyDrawdowns (v : gmap Z num) (m : t) : t :=
  {| dailyDrawdowns := v; maxDailyDrawdown := maxDailyDrawdown m;
     totalDrawdown := totalDrawdown m; maxTotalDrawdown := maxTotalDrawdown m;
     initialBalance := initialBalance m; startOfDayBalance := startOfDayBalance m;
     currentBalance := currentBalance m; currentEquity := currentEquity m;
     peakBalance := peakBalance m; drawdownHistory := drawdownHistory m;
     lastUpdate := lastUpdate m |}.

Definition set_totalDrawdown (v : num) (m : t) : t :=
  {| dailyDrawdowns := dailyDrawdowns m; maxDailyDrawdown := maxDailyDrawdown m;
     totalDrawdown := v; maxTotalDrawdown := maxTotalDrawdown m;
     initialBalance := initialBalance m; startOfDayBalance := startOfDayBalance m;
     currentBalance := currentBalance m; currentEquity := currentEquity m;
     peakBalance := peakBalance m; drawdownHistory := drawdownHistory m;
     lastUpdate := lastUpdate m |}.

Definition set_startOfDayBalance (v : num) (m : t) : t :=
  {| dailyDrawdowns := dailyDrawdowns m; maxDailyDrawdown := maxDailyDrawdown m;
     totalDrawdown := totalDrawdown m; maxTotalDrawdown := maxTotalDrawdown m;
     initialBalance := initialBalance m; startOfDayBalance := v;
     currentBalance := currentBalance m; currentEquity := currentEquity m;
     peakBalance := peakBalance m; drawdownHistory := drawdownHistory m;
     lastUpdate := lastUpdate m |}.

Definition set_balance_equity (b e : num) (m : t) : t :=
  {| dailyDrawdowns := dailyDrawdowns m; maxDailyDrawdown := maxDailyDrawdown m;
     totalDrawdown := totalDrawdown m; maxTotalDrawdown := maxTotalDrawdown m;
     initialBalance := initialBalance m; startOfDayBalance := startOfDayBalance m;
     currentBalance := b; currentEquity := e;
     peakBalance := peakBalance m; drawdownHistory := drawdownHistory m;
     lastUpdate := lastUpdate m |}.

Definition set_peakBalance (v : num) (m : t) : t :=
  {| dailyDrawdowns := dailyDrawdowns m; maxDailyDrawdown := maxDailyDrawdown m;
     totalDrawdown := totalDrawdown m; maxTotalDrawdown := maxTotalDrawdown m;
     initialBalance := initialBalance m; startOfDayBalance := startOfDayBalance m;
     currentBalance := currentBalance m; currentEquity := currentEquity m;
     peakBalance := v; drawdownHistory := drawdownHistory m;
     lastUpdate := lastUpdate m |}.

Definition set_drawdownHistory (v : list HistoryItem) (m : t) : t :=
  {| dailyDrawdowns := dailyDrawdowns m; maxDailyDrawdown := maxDailyDrawdown m;
     totalDrawdown := totalDrawdown m; maxTotalDrawdown := maxTotalDrawdown m;
     initialBalance := initialBalance m; startOfDayBalance := startOfDayBalance m;
     currentBalance := currentBalance m; currentEquity := currentEquity m;
     peakBalance := peakBalance m; drawdownHistory := v;
     lastUpdate := lastUpdate m |}.

Definition set_lastUpdate (v : Z) (m : t) : t :=
  {| dailyDrawdowns := dailyDrawdowns m; maxDailyDrawdown := maxDailyDrawdown m;
     totalDrawdown := totalDrawdown m; maxTotalDrawdown := maxTotalDrawdown m;
     initialBalance := initialBalance m; startOfDayBalance := startOfDayBalance m;
     currentBalance := currentBalance m; currentEquity := currentEquity m;
     peakBalance := peakBalance m; drawdownHistory := drawdownHistory m;
     lastUpdate := v |}.

(** [constructor()] *)
Definition create (now : Z) : t :=
  {| dailyDrawdowns := ∅;
     maxDailyDrawdown := lit 0.03;
     totalDrawdown := Fin 0;
     maxTotalDrawdown := lit 0.06;
     initialBalance := Fin 0;
     startOfDayBalance := Fin 0;
     currentBalance := Fin 0;
     currentEquity := Fin 0;
     peakBalance := Fin 0;
     drawdownHistory := [];
     lastUpdate := now |}.

(** [registerDayStart()] *)
Definition registerDayStart (now : Z) (m : t) : t :=
  let today := utc_date now in
  let m := set_startOfDayBalance (currentBalance m) m in
  set_dailyDrawdowns (<[today := Fin 0]> (dailyDrawdowns m)) m.

(** [initialize(initialBalance, maxDaily = 0.03, maxTotal = 0.06)] *)
Definition initialize (now : Z) (initial : num)
    (maxDaily maxTotal : option num) (m : t) : t :=
  registerDayStart now
    {| dailyDrawdowns := ∅;
       maxDailyDrawdown := default (lit 0.03) maxDaily;
       totalDrawdown := totalDrawdown m;
       maxTotalDrawdown := default (lit 0.06) maxTotal;
       initialBalance := initial;
       startOfDayBalance := initial;
       currentBalance := initial;
       currentEquity := initial;
       peakBalance := initial;
       drawdownHistory := [];
       lastUpdate := lastUpdate m |}.

(** [_calculateDrawdowns()] *)
Definition _calculateDrawdowns (now : Z) (m : t) : t :=
  let today := utc_date now in
  let dailyDrawdown :=
    if gt (startOfDayBalance m) (Fin 0)
    then max (Fin 0) (div (sub (startOfDayBalance m) (currentEquity m))
                          (startOfDayBalance m))
    else Fin 0 in
  let m := set_dailyDrawdowns (<[today := dailyDrawdown]> (dailyDrawdowns m)) m in
  if gt (peakBalance m) (Fin 0)
  then set_totalDrawdown
         (max (Fin 0) (div (sub (peakBalance m) (currentEquity m))
                           (peakBalance m))) m
  else if gt (initialBalance m) (Fin 0)
  then set_totalDrawdown
         (max (Fin 0) (div (sub (initialBalance m) (currentEquity m))
                           (initialBalance m))) m
  else m.

(** [getCurrentDailyDrawdown()]: [this.dailyDrawdowns.get(today) || 0] *)
Definition getCurrentDailyDrawdown (now : Z) (m : t) : num :=
  opt_or (dailyDrawdowns m !! utc_date now) (Fin 0).

(** [getCurrentTotalDrawdown()] *)
Definition getCurrentTotalDrawdown (m : t) : num := totalDrawdown m.

(** [isDailyLimitExceeded()] *)
Definition isDailyLimitExceeded (now : Z) (m : t) : bool :=
  gt (getCurrentDailyDrawdown now m) (maxDailyDrawdown m).

(** [isTotalLimitExceeded()] *)
Definition isTotalLimitExceeded (m : t) : bool :=
  gt (totalDrawdown m) (maxTotalDrawdown m).

(** [getWarningLevel()] *)
Definition getWarningLevel (now : Z) (m : t) : WarningLevel :=
  let dailyDrawdownPercentage :=
    div (getCurrentDailyDrawdown now m) (maxDailyDrawdown m) in
  let totalDrawdownPercentage :=
    div (totalDrawdown m) (maxTotalDrawdown m) in
  if ge dailyDrawdownPercentage (Fin 1) || ge totalDrawdownPercentage (Fin 1)
  then critical
  else if ge dailyDrawdownPercentage (lit 0.8)
          || ge totalDrawdownPercentage (lit 0.8)
  then warning
  else safe.

(** [resetMonitor()] *)
Definition resetMonitor (now : Z) (m : t) : t :=
  {| dailyDrawdowns := ∅;
     maxDailyDrawdown := maxDailyDrawdown m;
     totalDrawdown := Fin 0;
     maxTotalDrawdown := maxTotalDrawdown m;
     initialBalance := Fin 0;
     startOfDayBalance := Fin 0;
     currentBalance := Fin 0;
     currentEquity := Fin 0;
     peakBalance := Fin 0;
     drawdownHistory := [];
     lastUpdate := now |}.

(** [_updateDrawdownHistory()]: at most the last 1000 entries are kept. *)
Definition _updateDrawdownHistory (now : Z) (m : t) : t :=
  let item := {| h_date := now;
                 h_dailyDrawdown := getCurrentDailyDrawdown now m;
                 h_totalDrawdown := totalDrawdown m;
                 h_balance := currentBalance m;
                 h_equity := currentEquity m |} in
  let history := drawdownHistory m ++ [item] in
  if (1000 <? length history)%nat
  then set_drawdownHistory (skipn (length history - 1000) history) m
  else set_drawdownHistory history m.

(** [updateBalance(newBalance, equity = null)] *)
Definition updateBalance (now : Z) (newBalance : num) (equity : option num)
    (m : t) : t :=
  let m := set_balance_equity newBalance (default newBalance equity) m in
  let m := if gt newBalance (peakBalance m)
           then set_peakBalance newBalance m else m in
  let today := utc_date now in
  let lastUpdateDay := utc_date (lastUpdate m) in
  let m := if negb (today =? lastUpdateDay)
           then registerDayStart now m else m in
  let m := _calculateDrawdowns now m in
  let m := _updateDrawdownHistory now m in
  set_lastUpdate now m.

(** The object returned by [getStatus()]. *)
Record Status : Type := {
  s_dailyDrawdown : num;
  s_totalDrawdown : num;
  s_dailyLimitExceeded : bool;
  s_totalLimitExceeded : bool;
  s_warningLevel : WarningLevel;
  s_currentBalance : num;
  s_currentEquity : num;
  s_initialBalance : num;
  s_startOfDayBalance : num;
  s_peakBalance : num;
  s_maxDailyLimit : num;
  s_maxTotalLimit : num
}.

(** [getStatus()] *)
Definition getStatus (now : Z) (m : t) : Status :=
  {| s_dailyDrawdown := getCurrentDailyDrawdown now m;
     s_totalDrawdown := totalDrawdown m;
     s_dailyLimitExceeded := isDailyLimitExceeded now m;
     s_totalLimitExceeded := isTotalLimitExceeded m;
     s_warningLevel := getWarningLevel now m;
     s_currentBalance := currentBalance m;
     s_currentEquity := currentEquity m;
     s_initialBalance := initialBalance m;
     s_startOfDayBalance := startOfDayBalance m;
     s_peakBalance := peakBalance m;
     s_maxDailyLimit := maxDailyDrawdown m;
     s_maxTotalLimit := maxTotalDrawdown m |}.

End DrawdownMonitor.

(* ================================================================== *)
(** * The data model shared by the risk engine *)
(* ================================================================== *)

(** An FXIFY profile, as [createProfile] builds it. *)
Module Profile.
Record t : Type := {
  id : string;
  name : string;
  accountType : string;
  profitTarget : Js.num;
  maxDailyDrawdown : Js.num;
  maxTotalDrawdown : Js.num;
  minTradingDays : Js.num;
  tradeSizeLimit : option Js.num;      (* [null] when there is no limit *)
  allowNewsTrading : bool
}.
End Profile.

(** The order parameters handed to the adapters and to the validator;
    every property may be missing. *)
Module Order.
Record t : Type := {
  symbol : option string;
  volume : option Js.num;
  direction : option string;
  price : option Js.num;
  stopLoss : option Js.num;
  takeProfit : option Js.num;
  comment : option string;
  pipValue : option Js.num;
  pipSize : option Js.num;
  potentialLoss : option Js.num
}.

(** [{ ...order, potentialLoss }] *)
Definition with_potentialLoss (v : Js.num) (o : t) : t :=
  {| symbol := symbol o; volume := volume o; direction := direction o;
     price := price o; stopLoss := stopLoss o; takeProfit := takeProfit o;
     comment := comment o; pipValue := pipValue o; pipSize := pipSize o;
     potentialLoss := Some v |}.

(** [order.volume = v] *)
Definition with_volume (v : option Js.num) (o : t) : t :=
  {| symbol := symbol o; volume := v; direction := direction o;
     price := price o; stopLoss := stopLoss o; takeProfit := takeProfit o;
     comment := comment o; pipValue := pipValue o; pipSize := pipSize o;
     potentialLoss := potentialLoss o |}.

(** [order.comment = c] *)
Definition with_comment (c : string) (o : t) : t :=
  {| symbol := symbol o; volume := volume o; direction := direction o;
     price := price o; stopLoss := stopLoss o; takeProfit := takeProfit o;
     comment := Some c; pipValue := pipValue o; pipSize := pipSize o;
     potentialLoss := potentialLoss o |}.
End Order.

Module Rules.
Import Js.

Inductive Severity : Type := sev_info | sev_warning | sev_error.

(** A template string: literal text and interpolated values. *)
Inductive Piece : Type :=
| Txt (s : string)
| Num (x : num)            (* [${x}] *)
| Fixed2 (x : num)         (* [${x.toFixed(2)}] *)
| Undefined.               (* an interpolated [undefined] *)

Definition Message : Type := list Piece.

(** [${s}] for a string that may be [undefined]. *)
Definition interp_str (s : option string) : Piece :=
  match s with Some s => Txt s | None => Undefined end.

(** [${m}] for a message that may be [undefined]. *)
Definition interp_msg (m : option Message) : Message :=
  match m with Some m => m | None => [Undefined] end.

(** The [details] objects that the rules attach to a violation. *)
Inductive Details : Type :=
| DetailsDrawdown (type : string) (current : num) (limit : num)
| DetailsPotential (type : string) (current potential limit : num)
| DetailsWarningLevel (level : DrawdownMonitor.WarningLevel)
| DetailsTradeSize (requested limit : option num)
| DetailsSymbol (symbol : option string)
| DetailsNews (symbol : option string) (events : list string)
| DetailsHours (dayOfWeek hours minutes : Z).

(** A [RuleViolation]. *)
Record Violation : Type := {
  rule : string;
  severity : Severity;
  message : option Message;
  details : option Details
}.

(** A [ValidationResult]; several producers leave [rules] out. *)
Record ValidationResult : Type := {
  valid : bool;
  rules : option (list Violation)
}.

(** [{ valid: true, rules: [] }] *)
Definition approved : ValidationResult :=
  {| valid := true; rules := Some [] |}.

(** [{ valid: true }] *)
Definition bare_valid : ValidationResult :=
  {| valid := true; rules := None |}.


Definition has_rule (name : string) (r : ValidationResult) : Prop :=
  exists v vs, rules r = Some vs /\ In v vs /\ rule v = name.

(** The economic calendar held in [rulesEngine.tradingCalendar]:
    [isHighImpactEventActive(symbol)] at the time [now]. *)
Record Calendar : Type := {
  isHighImpactEventActive : Z -> string -> Result bool
}.

End Rules.

(* ================================================================== *)
(** * electron/fxify/fxify-rules-engine.js *)
(* ================================================================== *)

Module RulesEngine.
Import Js Rules.

(** What a rule evaluator returns. *)
Record EvalResult : Type := {
  e_valid : bool;
  e_rule : option string;
  e_severity : option Severity;
  e_message : option Message;
  e_details : option Details
}.

(** [{ valid: true }] *)
Definition pass : EvalResult :=
  {| e_valid := true; e_rule := None; e_severity := None;
     e_message := None; e_details := None |}.

(** The part of the engine ([this]) that the evaluators read. *)
Record Core : Type := {
  drawdownMonitor : DrawdownMonitor.t;
  tradingCalendar : option Calendar
}.

(** An entry of [ruleEvaluators]: [evaluate(request, profile)], run
    at time [now] on the engine [this]. *)
Definition Evaluator : Type :=
  Z -> Core -> Order.t -> Profile.t -> Result EvalResult.

Record t : Type := {
  core : Core;
  ruleEvaluators : list (string * Evaluator);   (* a [Map], in insertion order *)
  activeProfile : option Profile.t;
  initialBalance : num;
  currentBalance : num;
  currentEquity : option num;
  emitted : list (string * DrawdownMonitor.Status)   (* events of [eventEmitter] *)
}.

Definition hundred : num := Fin 100.

(** The [drawdown_limit] evaluator. *)
Definition drawdown_limit : Evaluator := fun now this request profile =>
  let monitor := drawdownMonitor this in
  let drawdownStatus := DrawdownMonitor.getStatus now monitor in
  let daily := DrawdownMonitor.s_dailyDrawdown drawdownStatus in
  let total := DrawdownMonitor.s_totalDrawdown drawdownStatus in
  let maxDaily := Profile.maxDailyDrawdown profile in
  let maxTotal := Profile.maxTotalDrawdown profile in
  if DrawdownMonitor.s_dailyLimitExceeded drawdownStatus then
    Ok {| e_valid := false; e_rule := Some "drawdown_limit"%string;
          e_severity := Some sev_error;
          e_message := Some [Txt "Daily drawdown limit of ";
                             Num (mul maxDaily hundred);
                             Txt "% has been exceeded (current: ";
                             Fixed2 (mul daily hundred); Txt "%)"];
          e_details := Some (DetailsDrawdown "daily" daily maxDaily) |}
  else if DrawdownMonitor.s_totalLimitExceeded drawdownStatus then
    Ok {| e_valid := false; e_rule := Some "drawdown_limit"%string;
          e_severity := Some sev_error;
          e_message := Some [Txt "Total drawdown limit of ";
                             Num (mul maxTotal hundred);
                             Txt "% has been exceeded (current: ";
                             Fixed2 (mul total hundred); Txt "%)"];
          e_details := Some (DetailsDrawdown "total" total maxTotal) |}
  else
    let potentialDailyDrawdown :=
      add daily (div (to_num (Order.potentialLoss request))
                     (DrawdownMonitor.startOfDayBalance monitor)) in
    let potentialTotalDrawdown :=
      add total (div (to_num (Order.potentialLoss request))
                     (DrawdownMonitor.initialBalance monitor)) in
    if truthy_opt (Order.potentialLoss request)
       && gt potentialDailyDrawdown maxDaily then
      Ok {| e_valid := false; e_rule := Some "drawdown_limit"%string;
            e_severity := Some sev_error;
            e_message := Some [Txt "This trade could exceed daily drawdown limit of ";
                               Num (mul maxDaily hundred);
                               Txt "% (potential: ";
                               Fixed2 (mul potentialDailyDrawdown hundred);
                               Txt "%)"];
            e_details := Some (DetailsPotential "daily_potential" daily
                                 potentialDailyDrawdown maxDaily) |}
    else if truthy_opt (Order.potentialLoss request)
            && gt potentialTotalDrawdown maxTotal then
      Ok {| e_valid := false; e_rule := Some "drawdown_limit"%string;
            e_severity := Some sev_error;
            e_message := Some [Txt "This trade could exceed total drawdown limit of ";
                               Num (mul maxTotal hundred);
                               Txt "% (potential: ";
                               Fixed2 (mul potentialTotalDrawdown hundred);
                               Txt "%)"];
            e_details := Some (DetailsPotential "total_potential" total
                                 potentialTotalDrawdown maxTotal) |}
    else
      match DrawdownMonitor.s_warningLevel drawdownStatus with
      | DrawdownMonitor.critical =>
          Ok {| e_valid := true; e_rule := Some "drawdown_limit"%string;
                e_severity := Some sev_warning;
                e_message := Some [Txt "Approaching drawdown limits: daily ";
                                   Fixed2 (mul daily hundred); Txt "% of ";
                                   Num (mul maxDaily hundred); Txt "%, total ";
                                   Fixed2 (mul total hundred); Txt "% of ";
                                   Num (mul maxTotal hundred); Txt "%"];
                e_details := Some (DetailsWarningLevel DrawdownMonitor.critical) |}
      | _ => Ok pass
      end.

(** The [trade_size_limit] evaluator. *)
Definition trade_size_limit : Evaluator := fun now this request profile =>
  if negb (truthy_opt (Profile.tradeSizeLimit profile))
     || negb (truthy_opt (Order.volume request))
  then Ok pass
  else if gt (to_num (Order.volume request))
             (to_num (Profile.tradeSizeLimit profile))
  then Ok {| e_valid := false; e_rule := Some "trade_size_limit"%string;
             e_severity := Some sev_error;
             e_message := Some [Txt "Trade size exceeds limit of ";
                                Num (to_num (Profile.tradeSizeLimit profile));
                                Txt " lots (requested: ";
                                Num (to_num (Order.volume request)); Txt ")"];
             e_details := Some (DetailsTradeSize (Order.volume request)
                                  (Profile.tradeSizeLimit profile)) |}
  else Ok pass.

(** The [news_trading] evaluator. *)
Definition news_trading : Evaluator := fun now this request profile =>
  if Profile.allowNewsTrading profile then Ok pass
  else
    match tradingCalendar this, Order.symbol request with
    | Some calendar, Some symbol =>
        if truthy_str (Some symbol) then
          let? isHighImpactActive :=
            isHighImpactEventActive calendar now symbol in
          if (isHighImpactActive : bool) then
            Ok {| e_valid := false; e_rule := Some "news_trading"%string;
                  e_severity := Some sev_error;
                  e_message := Some [Txt "Trading during high-impact news events is not allowed for ";
                                     Txt symbol];
                  e_details := Some (DetailsSymbol (Some symbol)) |}
          else Ok pass
        else Ok pass
    | _, _ => Ok pass
    end.

(** The [trading_days] evaluator. *)
Definition trading_days : Evaluator := fun now this request profile =>
  Ok pass.

(** [_initializeRuleEvaluators()] *)
Definition builtin_evaluators : list (string * Evaluator) :=
  [ ("drawdown_limit"%string, drawdown_limit);
    ("trade_size_limit"%string, trade_size_limit);
    ("news_trading"%string, news_trading);
    ("trading_days"%string, trading_days) ].

(** [constructor()] *)
Definition create (now : Z) : t :=
  {| core := {| drawdownMonitor := DrawdownMonitor.create now;
                tradingCalendar := None |};
     ruleEvaluators := builtin_evaluators;
     activeProfile := None;
     initialBalance := Fin 0;
     currentBalance := Fin 0;
     currentEquity := Some (Fin 0);
     emitted := [] |}.

(** The loop of [evaluateTradeRequest] over [this.ruleEvaluators]: the
    two arrays [ruleViolations] and [warnings] as they grow.  An
    evaluator that throws ends the loop. *)
Fixpoint run_evaluators (now : Z) (this : Core) (request : Order.t)
    (profile : Profile.t) (evaluators : list (string * Evaluator))
    (ruleViolations warnings : list Violation)
  : Result (list Violation * list Violation) :=
  match evaluators with
  | [] => Ok (ruleViolations, warnings)
  | (ruleName, evaluator) :: rest =>
      let? result := evaluator now this request profile in
      if negb (e_valid result) then
        run_evaluators now this request profile rest
          (ruleViolations ++
             [{| rule := ruleName;
                 severity := default sev_error (e_severity result);
                 message := e_message result;
                 details := e_details result |}])
          warnings
      else
        match e_severity result with
        | Some sev_warning =>
            run_evaluators now this request profile rest ruleViolations
              (warnings ++
                 [{| rule := ruleName; severity := sev_warning;
                     message := e_message result;
                     details := e_details result |}])
        | _ => run_evaluators now this request profile rest ruleViolations warnings
        end
  end.


(** No evaluator of the list throws on the request. *)
Definition no_evaluator_throws (now : Z) (this : Core) (request : Order.t)
    (profile : Profile.t) (evaluators : list (string * Evaluator)) : Prop :=
  forall name evaluator,
    In (name, evaluator) evaluators ->
    is_throw (evaluator now this request profile) = false.

(** What the [catch] of [evaluateTradeRequest] returns. *)
Definition system_error (error_message : string) : ValidationResult :=
  {| valid := false;
     rules := Some [{| rule := "system_error";
                       severity := sev_error;
                       message := Some [Txt "Error evaluating trade rules: ";
                                        Txt error_message];
                       details := None |}] |}.

(** [profile || this.activeProfile] *)
Definition effective_profile (e : t) (profile : option Profile.t)
  : option Profile.t :=
  match profile with Some p => Some p | None => activeProfile e end.

(** [evaluateTradeRequest(request, profile = null)] *)
Definition evaluateTradeRequest (now : Z) (e : t) (request : Order.t)
    (profile : option Profile.t) : ValidationResult :=
  let body : Result ValidationResult :=
    match effective_profile e profile with
    | None => Ok approved
    | Some activeProfile =>
        let? issues := run_evaluators now (core e) request activeProfile
                         (ruleEvaluators e) [] [] in
        let '(ruleViolations, warnings) := issues in
        let allIssues := ruleViolations ++ warnings in
        Ok {| valid := (length ruleViolations =? 0)%nat;
              rules := Some allIssues |}
    end in
  match body with
  | Ok r => r
  | Throw error_message => system_error error_message
  end.

(** [getDrawdownStatus()] *)
Definition getDrawdownStatus (now : Z) (e : t) : DrawdownMonitor.Status :=
  DrawdownMonitor.getStatus now (drawdownMonitor (core e)).

(** [_checkDrawdownStatus()]: the events emitted, in order. *)
Definition _checkDrawdownStatus (now : Z) (e : t)
  : list (string * DrawdownMonitor.Status) :=
  let drawdownStatus := DrawdownMonitor.getStatus now (drawdownMonitor (core e)) in
  (match DrawdownMonitor.s_warningLevel drawdownStatus with
   | DrawdownMonitor.safe => []
   | _ => [("drawdown_warning"%string, drawdownStatus)]
   end)
  ++
  (if DrawdownMonitor.s_dailyLimitExceeded drawdownStatus
      || DrawdownMonitor.s_totalLimitExceeded drawdownStatus
   then [("drawdown_exceeded"%string, drawdownStatus)] else []).

(** [updateBalance(balance, equity)] *)
Definition updateBalance (now : Z) (balance : num) (equity : option num)
    (e : t) : t :=
  let monitor := DrawdownMonitor.updateBalance now balance equity
                   (drawdownMonitor (core e)) in
  let e := {| core := {| drawdownMonitor := monitor;
                         tradingCalendar := tradingCalendar (core e) |};
              ruleEvaluators := ruleEvaluators e;
              activeProfile := activeProfile e;
              initialBalance := initialBalance e;
              currentBalance := balance;
              currentEquity := equity;
              emitted := emitted e |} in
  {| core := core e;
     ruleEvaluators := ruleEvaluators e;
     activeProfile := activeProfile e;
     initialBalance := initialBalance e;
     currentBalance := currentBalance e;
     currentEquity := currentEquity e;
     emitted := emitted e ++ _checkDrawdownStatus now e |}.

End RulesEngine.

(* ================================================================== *)
(** * electron/fxify/fxify-mode-manager.js *)
(* ================================================================== *)

Module ModeManager.
Import Js Rules.

Record t : Type := {
  isActive : bool;
  activeProfile : option Profile.t;
  rulesEngine : RulesEngine.t;
  emitted : list (string * DrawdownMonitor.Status)   (* events of [eventEmitter] *)
}.

(** [isFXIFYModeActive()] *)
Definition isFXIFYModeActive (m : t) : bool := isActive m.

(** [getActiveProfile()] *)
Definition getActiveProfile (m : t) : option Profile.t := activeProfile m.

(** [validateTradeAgainstRules(tradeRequest)] *)
Definition validateTradeAgainstRules (now : Z) (m : t) (tradeRequest : Order.t)
  : ValidationResult :=
  match isActive m, activeProfile m with
  | true, Some profile =>
      RulesEngine.evaluateTradeRequest now (rulesEngine m) tradeRequest
        (Some profile)
  | _, _ => approved
  end.

(** [checkForDrawdownViolations()]: the event emitted, if any. *)
Definition checkForDrawdownViolations (now : Z) (m : t)
  : list (string * DrawdownMonitor.Status) :=
  if negb (isActive m) then []
  else
    let drawdownStatus := RulesEngine.getDrawdownStatus now (rulesEngine m) in
    if DrawdownMonitor.s_dailyLimitExceeded drawdownStatus
    then [("daily_drawdown_exceeded"%string, drawdownStatus)]
    else if DrawdownMonitor.s_totalLimitExceeded drawdownStatus
    then [("total_drawdown_exceeded"%string, drawdownStatus)]
    else match DrawdownMonitor.s_warningLevel drawdownStatus with
         | DrawdownMonitor.critical => [("drawdown_critical"%string, drawdownStatus)]
         | DrawdownMonitor.warning => [("drawdown_warning"%string, drawdownStatus)]
         | DrawdownMonitor.safe => []
         end.

(** [updateBalance(balance, equity)]; the status listeners are
    notified inside their own [try/catch] and do not touch the manager. *)
Definition updateBalance (now : Z) (balance : num) (equity : option num)
    (m : t) : t :=
  if isActive m then
    let m := {| isActive := isActive m;
                activeProfile := activeProfile m;
                rulesEngine := RulesEngine.updateBalance now balance equity
                                 (rulesEngine m);
                emitted := emitted m |} in
    {| isActive := isActive m;
       activeProfile := activeProfile m;
       rulesEngine := rulesEngine m;
       emitted := emitted m ++ checkForDrawdownViolations now m |}
  else m.

End ModeManager.

(* ================================================================== *)
(** * electron/fxify/pre-execution-validator.js *)
(* ================================================================== *)

Module Validator.
Import Js Rules.

(** The validator is constructed over a mode manager it is handed
    ([constructor(fxifyModeManager)]).  [Api] lists what it uses of
    that object; a method call may throw.  [isFXIFYModeActive] reads a
    flag. *)
Record Api : Type := {
  isFXIFYModeActive : bool;
  getActiveProfile : Result (option Profile.t);
  rulesEngine_getDrawdownStatus : Z -> Result DrawdownMonitor.Status;
  rulesEngine_currentBalance : Result num;
  rulesEngine_tradingCalendar : option Calendar;
  validateTradeAgainstRules : Z -> Order.t -> Result ValidationResult
}.

(** The [FXIFYModeManager] of this repository behind that interface. *)
Definition api_of (m : ModeManager.t) : Api :=
  {| isFXIFYModeActive := ModeManager.isFXIFYModeActive m;
     getActiveProfile := Ok (ModeManager.getActiveProfile m);
     rulesEngine_getDrawdownStatus := fun now =>
       Ok (RulesEngine.getDrawdownStatus now (ModeManager.rulesEngine m));
     rulesEngine_currentBalance :=
       Ok (RulesEngine.currentBalance (ModeManager.rulesEngine m));
     rulesEngine_tradingCalendar :=
       RulesEngine.tradingCalendar (RulesEngine.core (ModeManager.rulesEngine m));
     validateTradeAgainstRules := fun now request =>
       Ok (ModeManager.validateTradeAgainstRules now m request) |}.

(** What [checkNewsEvents] returns. *)
Record NewsStatus : Type := {
  safeToTrade : bool;
  upcomingEvents : list string;
  activeEvents : list string;
  recommendedAction : string
}.

Definition proceed : NewsStatus :=
  {| safeToTrade := true; upcomingEvents := []; activeEvents := [];
     recommendedAction := "proceed" |}.

(** [_getAccountSize()] *)
Definition _getAccountSize (api : Api) : Result num :=
  try_catch
    (let? currentBalance := rulesEngine_currentBalance api in
     Ok (or_else currentBalance (Fin 10000)))
    (fun _ => Ok (Fin 10000)).

(** [checkDrawdownLimits(potentialLoss)] *)
Definition checkDrawdownLimits (api : Api) (now : Z) (potentialLoss : num)
  : Result ValidationResult :=
  if negb (isFXIFYModeActive api) then Ok bare_valid
  else
    try_catch
      (let? profile := getActiveProfile api in
       match profile with
       | None => Ok bare_valid
       | Some profile =>
           let? drawdownStatus := rulesEngine_getDrawdownStatus api now in
           let? accountSize := _getAccountSize api in
           let daily := DrawdownMonitor.s_dailyDrawdown drawdownStatus in
           let total := DrawdownMonitor.s_totalDrawdown drawdownStatus in
           let maxDaily := Profile.maxDailyDrawdown profile in
           let maxTotal := Profile.maxTotalDrawdown profile in
           let potentialDailyDrawdownPercentage :=
             add daily (div potentialLoss accountSize) in
           let potentialTotalDrawdownPercentage :=
             add total (div potentialLoss accountSize) in
           if gt potentialDailyDrawdownPercentage maxDaily then
             Ok {| valid := false;
                   rules := Some [{|
                     rule := "drawdown_limit";
                     severity := sev_error;
                     message := Some [Txt "This trade could exceed daily drawdown limit of ";
                                      Fixed2 (mul maxDaily (Fin 100));
                                      Txt "% (potential: ";
                                      Fixed2 (mul potentialDailyDrawdownPercentage (Fin 100));
                                      Txt "%)"];
                     details := Some (DetailsPotential "daily_potential" daily
                                        potentialDailyDrawdownPercentage maxDaily) |}] |}
           else if gt potentialTotalDrawdownPercentage maxTotal then
             Ok {| valid := false;
                   rules := Some [{|
                     rule := "drawdown_limit";
                     severity := sev_error;
                     message := Some [Txt "This trade could exceed total drawdown limit of ";
                                      Fixed2 (mul maxTotal (Fin 100));
                                      Txt "% (potential: ";
                                      Fixed2 (mul potentialTotalDrawdownPercentage (Fin 100));
                                      Txt "%)"];
                     details := Some (DetailsPotential "total_potential" total
                                        potentialTotalDrawdownPercentage maxTotal) |}] |}
           else
             match DrawdownMonitor.s_warningLevel drawdownStatus with
             | DrawdownMonitor.critical =>
                 Ok {| valid := true;
                       rules := Some [{|
                         rule := "drawdown_warning";
                         severity := sev_warning;
                         message := Some [Txt "You are approaching drawdown limits (daily: ";
                                          Fixed2 (mul daily (Fin 100));
                                          Txt "%, total: ";
                                          Fixed2 (mul total (Fin 100));
                                          Txt "%)"];
                         details := Some (DetailsWarningLevel DrawdownMonitor.critical) |}] |}
             | _ => Ok bare_valid
             end
       end)
      (fun _ => Ok bare_valid).      (* Default to allowing trade on error *)

(** [symbol.replace('/', '').replace('_', '').replace('-', '')] *)
Definition clean_symbol (symbol : string) : string :=
  remove_first "-"%char (remove_first "_"%char (remove_first "/"%char symbol)).

(** [_isForexPair(symbol)]: the cleaned symbol matches [/^[A-Z]{6}$/]. *)
Definition _isForexPair (symbol : string) : bool :=
  let cleanSymbol := clean_symbol symbol in
  (String.length cleanSymbol =? 6)%nat && all_upper cleanSymbol.

(** [_extractCurrenciesFromSymbol(symbol)] *)
Definition _extractCurrenciesFromSymbol (symbol : string) : list string :=
  let cleanSymbol := toUpperCase (clean_symbol symbol) in
  if (String.length cleanSymbol =? 6)%nat
  then [String.substring 0 3 cleanSymbol; String.substring 3 3 cleanSymbol]
  else
    let currencies :=
      ["USD"; "EUR"; "GBP"; "JPY"; "AUD"; "CAD"; "CHF"; "NZD"]%string in
    filter (fun currency => includes currency cleanSymbol) currencies.

(** [checkTradingHours(symbol)] *)
Definition checkTradingHours (api : Api) (now : Z) (symbol : option string)
  : Result ValidationResult :=
  if negb (isFXIFYModeActive api) then Ok bare_valid
  else
    try_catch
      (let? profile := getActiveProfile api in
       match profile with
       | None => Ok bare_valid
       | Some _ =>
           let dayOfWeek := getUTCDay now in
           let hours := getUTCHours now in
           let minutes := getUTCMinutes now in
           if (dayOfWeek =? 0) || (dayOfWeek =? 6) then
             Ok {| valid := false;
                   rules := Some [{|
                     rule := "trading_hours";
                     severity := sev_error;
                     message := Some [Txt "Trading is not allowed during weekends"];
                     details := Some (DetailsHours dayOfWeek hours minutes) |}] |}
           else
             match symbol with
             | Some (String c s) =>
                 if _isForexPair (String c s)
                 then Ok bare_valid      (* Allow forex trading 24/5 *)
                 else Ok bare_valid
             | _ => Ok bare_valid
             end
       end)
      (fun _ => Ok bare_valid).      (* Default to allowing trade on error *)

(** [checkNewsEvents(symbol)].  With a calendar present the source
    extracts the currency codes of the symbol and stops there ("this
    is a placeholder"): the calendar is not queried, the two lists of
    events stay empty and the answer is safe to trade. *)
Definition checkNewsEvents (api : Api) (symbol : option string)
  : Result NewsStatus :=
  if negb (isFXIFYModeActive api)
     || negb (bool_decide (is_Some (rulesEngine_tradingCalendar api)))
  then Ok proceed
  else
    try_catch
      (let? profile := getActiveProfile api in
       match profile, symbol with
       | Some profile, Some (String c s) =>
           if Profile.allowNewsTrading profile then Ok proceed
           else
             match rulesEngine_tradingCalendar api with
             | Some calendar =>
                 let currencyCodes := _extractCurrenciesFromSymbol (String c s) in
                 let activeEvents : list string := [] in
                 let upcomingEvents : list string := [] in
                 Ok {| safeToTrade := true; upcomingEvents := [];
                       activeEvents := []; recommendedAction := "proceed" |}
             | None => Ok proceed
             end
       | _, _ => Ok proceed
       end)
      (fun _ => Ok proceed).         (* Default to allowing trade on error *)

(** The potential loss that [validateOrder] estimates for an order. *)
Definition estimate_potentialLoss (api : Api) (order : Order.t) : Result num :=
  if truthy_opt (Order.volume order) && truthy_opt (Order.stopLoss order) then
    let pipValue := opt_or (Order.pipValue order) (Fin 10) in
    let stopLossPips :=
      div (abs (sub (to_num (Order.price order)) (to_num (Order.stopLoss order))))
          (opt_or (Order.pipSize order) (lit 0.0001)) in
    Ok (mul (mul (to_num (Order.volume order)) stopLossPips) pipValue)
  else
    let? accountSize := _getAccountSize api in
    Ok (mul accountSize (lit 0.01)).

(** What the [catch] of [validateOrder] returns. *)
Definition validation_error (error_message : string) : ValidationResult :=
  {| valid := false;
     rules := Some [{| rule := "validation_error";
                       severity := sev_error;
                       message := Some [Txt "Order validation error: ";
                                        Txt error_message];
                       details := None |}] |}.

(** [validateOrder(order)] *)
Definition validateOrder (api : Api) (now : Z) (order : Order.t)
  : Result ValidationResult :=
  if negb (isFXIFYModeActive api) then Ok approved
  else
    try_catch
      (let? profile := getActiveProfile api in
       match profile with
       | None => Ok approved
       | Some profile =>
           let? potentialLoss := estimate_potentialLoss api order in
           let orderWithRisk := Order.with_potentialLoss potentialLoss order in
           let? drawdownCheck := checkDrawdownLimits api now potentialLoss in
           if negb (valid drawdownCheck) then Ok drawdownCheck
           else
             let? tradingHoursCheck :=
               checkTradingHours api now (Order.symbol order) in
             if negb (valid tradingHoursCheck) then Ok tradingHoursCheck
             else
               let? newsEventsCheck := checkNewsEvents api (Order.symbol order) in
               if negb (safeToTrade newsEventsCheck) then
                 Ok {| valid := false;
                       rules := Some [{|
                         rule := "news_trading";
                         severity := sev_error;
                         message := Some [Txt "Trading during high-impact news events is not allowed for ";
                                          interp_str (Order.symbol order)];
                         details := Some (DetailsNews (Order.symbol order)
                                            (activeEvents newsEventsCheck)) |}] |}
               else validateTradeAgainstRules api now orderWithRisk
       end)
      (fun error_message => Ok (validation_error error_message)).

End Validator.

(* ================================================================== *)
(** * electron/brokers/mt5.js *)
(* ================================================================== *)

Module MT5.
Import Js Rules.

(** An open position, as the bridge lists it. *)
Record Position : Type := {
  pos_id : Z;
  pos_symbol : string;
  pos_volume : num
}.

(** The values that travel as [response.data] and that the adapters
    return: the properties the adapters read of them. *)
Inductive Data : Type :=
| Undefined
| Object (success : option bool) (balance equity : option num)
| Positions (items : list Position)
| Rejection (message : Message) (violations : list Violation).
    (* [{ success: false, message, violations }] *)

(** [data.success]; reading a property of [undefined] throws. *)
Definition get_success (d : Data) : Result (option bool) :=
  match d with
  | Undefined => Throw "Cannot read properties of undefined (reading 'success')"
  | Object success _ _ => Ok success
  | Positions _ => Ok None
  | Rejection _ _ => Ok (Some false)
  end.

(** [data.balance] and [data.equity] *)
Definition get_balance_equity (d : Data) : Result (option num * option num) :=
  match d with
  | Undefined => Throw "Cannot read properties of undefined (reading 'balance')"
  | Object _ balance equity => Ok (balance, equity)
  | _ => Ok (None, None)
  end.

Definition is_true (b : option bool) : bool := default false b.

(** The [params] of a command. *)
Inductive Params : Type :=
| NoParams
| OrderParams (type : string) (symbol : option string) (volume : option num)
    (direction : string) (stopLoss takeProfit : option num) (comment : string)
| CloseParams (positionId : Z) (volume : option num).

Record Command : Type := {
  command : string;
  params : Params
}.

(** A response frame [{ requestId, error?, data? }]. *)
Record Response : Type := {
  r_error : option string;
  r_data : Data
}.

(** Request ids count up from 1.

    What becomes of the request [requestId]: the bridge answers with
    a frame, or no answer arrives within the 30 s of the request, or
    [socket.write] throws. *)
Inductive Reply : Type :=
| Answer (response : Response)
| NoAnswer
| WriteFails (message : string).

Definition Bridge : Type := positive -> Command -> Reply.

(** What a socket handler does to the outside. *)
Inductive Effect : Type :=
| Resolved (requestId : positive) (response : Response)
| Rejected (requestId : positive) (message : string)
| Emitted (event : string)
| ReconnectIn (delay : Z).

Record t : Type := {
  socket : bool;                        (* [this.socket !== null] *)
  connected : bool;
  callbacks : list (positive * string);        (* a [Map] from request id to the
                                           pending resolver, in insertion
                                           order, with the command it awaits *)
  nextRequestId : positive;
  reconnectAttempts : Z;
  maxReconnectAttempts : Z;
  reconnectDelay : Z;
  accountInfo : option Data;
  positions : Data
}.

(** [constructor()] *)
Definition create : t :=
  {| socket := false; connected := false; callbacks := [];
     nextRequestId := 1; reconnectAttempts := 0; maxReconnectAttempts := 5;
     reconnectDelay := 2000; accountInfo := None; positions := Positions [] |}.

Definition set_callbacks (v : list (positive * string)) (b : t) : t :=
  {| socket := socket b; connected := connected b; callbacks := v;
     nextRequestId := nextRequestId b; reconnectAttempts := reconnectAttempts b;
     maxReconnectAttempts := maxReconnectAttempts b;
     reconnectDelay := reconnectDelay b; accountInfo := accountInfo b;
     positions := positions b |}.

Definition set_nextRequestId (v : positive) (b : t) : t :=
  {| socket := socket b; connected := connected b; callbacks := callbacks b;
     nextRequestId := v; reconnectAttempts := reconnectAttempts b;
     maxReconnectAttempts := maxReconnectAttempts b;
     reconnectDelay := reconnectDelay b; accountInfo := accountInfo b;
     positions := positions b |}.

Definition set_accountInfo (v : option Data) (b : t) : t :=
  {| socket := socket b; connected := connected b; callbacks := callbacks b;
     nextRequestId := nextRequestId b; reconnectAttempts := reconnectAttempts b;
     maxReconnectAttempts := maxReconnectAttempts b;
     reconnectDelay := reconnectDelay b; accountInfo := v;
     positions := positions b |}.


(** ** The [callbacks] map *)

(** [callbacks.has(id)] *)
Definition has (id : positive) (cbs : list (positive * string)) : bool :=
  existsb (fun cb => (fst cb =? id)%positive) cbs.

(** [callbacks.delete(id)] *)
Definition delete (id : positive) (cbs : list (positive * string)) : list (positive * string) :=
  filter (fun cb => negb (fst cb =? id)%positive) cbs.

(** [callbacks.set(id, cb)]: a present key keeps its place. *)
Fixpoint set (id : positive) (cb : string) (cbs : list (positive * string))
  : list (positive * string) :=
  match cbs with
  | [] => [(id, cb)]
  | (id', cb') :: rest =>
      if (id' =? id)%positive then (id, cb) :: rest else (id', cb') :: set id cb rest
  end.

(** ** The socket handlers *)

(** [_sendCommand], up to the point where the promise is pending:
    the request id is taken, the resolver is stored.  *)
Definition send (cmd : Command) (b : t) : positive * t :=
  let requestId := nextRequestId b in
  let b := set_nextRequestId (Pos.succ requestId) b in
  (requestId, set_callbacks (set requestId (command cmd) (callbacks b)) b).

(** [response.error], when it is truthy. *)
Definition error_of (response : Response) : option string :=
  match r_error response with
  | Some (String c s) => Some (String c s)
  | _ => None
  end.

(** The ['data'] handler on a frame that carries [requestId]. *)
Definition on_response (requestId : positive) (response : Response) (b : t)
  : t * list Effect :=
  if has requestId (callbacks b) then
    let b := set_callbacks (delete requestId (callbacks b)) b in
    match error_of response with
    | Some message => (b, [Rejected requestId message])
    | None => (b, [Resolved requestId response])
    end
  else (b, []).

(** The timer of a request, 30 s after [send]. *)
Definition on_timeout (requestId : positive) (cmd : string) (b : t) : t * list Effect :=
  if has requestId (callbacks b) then
    (set_callbacks (delete requestId (callbacks b)) b,
     [Rejected requestId ("MT5 request timeout: " ++ cmd)])
  else (b, []).

(** The ['close'] handler of the socket. *)
Definition on_close (b : t) : t * list Effect :=
  let wasConnected := connected b in
  let rejections :=
    map (fun cb => Rejected (fst cb) "Connection closed") (callbacks b) in
  let b1 := {| socket := socket b; connected := false; callbacks := [];
               nextRequestId := nextRequestId b;
               reconnectAttempts := reconnectAttempts b;
               maxReconnectAttempts := maxReconnectAttempts b;
               reconnectDelay := reconnectDelay b;
               accountInfo := accountInfo b; positions := positions b |} in
  if wasConnected then
    if reconnectAttempts b1 <? maxReconnectAttempts b1 then
      let attempts := reconnectAttempts b1 + 1 in
      ({| socket := socket b1; connected := connected b1;
          callbacks := callbacks b1; nextRequestId := nextRequestId b1;
          reconnectAttempts := attempts;
          maxReconnectAttempts := maxReconnectAttempts b1;
          reconnectDelay := reconnectDelay b1;
          accountInfo := accountInfo b1; positions := positions b1 |},
       rejections ++ [Emitted "disconnected";
                      ReconnectIn (reconnectDelay b1 * attempts)])
    else (b1, rejections ++ [Emitted "disconnected"])
  else (b1, rejections).

(** The request ids that a list of effects rejects with [message]. *)
Definition rejected_with (message : string) (effects : list Effect) : list positive :=
  flat_map (fun e => match e with
                     | Rejected id m => if String.eqb m message then [id] else []
                     | _ => []
                     end) effects.

(** The request ids that a list of effects resolves. *)
Definition resolved (effects : list Effect) : list positive :=
  flat_map (fun e => match e with Resolved id _ => [id] | _ => [] end) effects.

(** ** Requests, awaited *)

(** [await this._sendCommand(command, params)]: the request is sent
    and the caller resumes with what becomes of it. *)
Definition _sendCommand (bridge : Bridge) (cmd : Command) (b : t)
  : Result Response * t :=
  if negb (connected b) || negb (socket b)
  then (Throw "Not connected to MT5", b)
  else
    let '(requestId, b) := send cmd b in
    match bridge requestId cmd with
    | WriteFails message =>
        (Throw message, set_callbacks (delete requestId (callbacks b)) b)
    | NoAnswer =>
        (Throw ("MT5 request timeout: " ++ command cmd),
         fst (on_timeout requestId (command cmd) b))
    | Answer response =>
        let b := fst (on_response requestId response b) in
        match error_of response with
        | Some message => (Throw message, b)
        | None => (Ok response, b)
        end
    end.

Definition not_connected {A} (b : t) : Result A * t :=
  (Throw "Not connected to MT5", b).

(** [getAccountInfo()] *)
Definition getAccountInfo (bridge : Bridge) (b : t) : Result Data * t :=
  if negb (connected b) then not_connected b
  else
    match _sendCommand bridge {| command := "GET_ACCOUNT_INFO"; params := NoParams |} b with
    | (Ok response, b) =>
        (Ok (r_data response), set_accountInfo (Some (r_data response)) b)
    | (Throw e, b) => (Throw e, b)
    end.


(** The [params] that [placeMarketOrder] builds; [direction] must be
    a string. *)
Definition market_order_params (orderParams : Order.t) : Result Params :=
  match Order.direction orderParams with
  | None => Throw "Cannot read properties of undefined (reading 'toUpperCase')"
  | Some direction =>
      Ok (OrderParams "MARKET" (Order.symbol orderParams)
            (Order.volume orderParams) (toUpperCase direction)
            (Order.stopLoss orderParams) (Order.takeProfit orderParams)
            (str_or (Order.comment orderParams) "SAITRAPP"))
  end.

(** [placeMarketOrder(orderParams)] *)
Definition placeMarketOrder (bridge : Bridge) (orderParams : Order.t) (b : t)
  : Result Data * t :=
  if negb (connected b) then not_connected b
  else
    match market_order_params orderParams with
    | Throw e => (Throw e, b)
    | Ok params =>
        match _sendCommand bridge {| command := "PLACE_ORDER"; params := params |} b with
        | (Ok response, b) => (Ok (r_data response), b)
        | (Throw e, b) => (Throw e, b)
        end
    end.

(** [closePosition(positionId, volume = null)] *)
Definition closePosition (bridge : Bridge) (positionId : Z)
    (volume : option num) (b : t) : Result Data * t :=
  if negb (connected b) then not_connected b
  else
    match _sendCommand bridge
            {| command := "CLOSE_POSITION"; params := CloseParams positionId volume |} b with
    | (Ok response, b) => (Ok (r_data response), b)
    | (Throw e, b) => (Throw e, b)
    end.

End MT5.

(* ================================================================== *)
(** * electron/brokers/fxify-mt5.js *)
(* ================================================================== *)

Module FxifyMT5.
Import Js Rules.

(** An [MT5FXIFYAdapter]: the [MT5BrokerAdapter] it extends, its mode
    manager (the validator is built over it), and what its
    [eventEmitter] has emitted under ['fxify:rule_violation']. *)
Record t : Type := {
  base : MT5.t;
  fxifyModeManager : ModeManager.t;
  emitted : list (string * list Violation)
}.

Definition set_base (b : MT5.t) (s : t) : t :=
  {| base := b; fxifyModeManager := fxifyModeManager s; emitted := emitted s |}.

Definition set_fxifyModeManager (m : ModeManager.t) (s : t) : t :=
  {| base := base s; fxifyModeManager := m; emitted := emitted s |}.

(** A call of a method of the parent class. *)
Definition super {A} (call : MT5.t -> Result A * MT5.t) (s : t) : Result A * t :=
  let '(r, b) := call (base s) in (r, set_base b s).

(** [isFXIFYModeActive()] *)
Definition isFXIFYModeActive (s : t) : bool :=
  ModeManager.isFXIFYModeActive (fxifyModeManager s).

(** What the [catch] of [validateAgainstFXIFYRules] returns. *)
Definition system_error (error_message : string) : ValidationResult :=
  {| valid := false;
     rules := Some [{| rule := "system_error";
                       severity := sev_error;
                       message := Some [Txt "Validation error: ";
                                        Txt error_message];
                       details := None |}] |}.

(** [validateAgainstFXIFYRules(order)] *)
Definition validateAgainstFXIFYRules (now : Z) (order : Order.t) (s : t)
  : ValidationResult :=
  let body :=
    if negb (isFXIFYModeActive s) then Ok approved
    else Validator.validateOrder (Validator.api_of (fxifyModeManager s)) now order in
  match body with
  | Ok r => r
  | Throw error_message => system_error error_message
  end.

(** [applyFXIFYConstraints(order)] *)
Definition applyFXIFYConstraints (order : Order.t) (s : t) : Order.t :=
  if negb (isFXIFYModeActive s) then order
  else
    let adjustedOrder := order in
    match ModeManager.getActiveProfile (fxifyModeManager s) with
    | None => adjustedOrder
    | Some activeProfile =>
        let adjustedOrder :=
          if truthy_opt (Profile.tradeSizeLimit activeProfile)
             && gt (to_num (Order.volume adjustedOrder))
                   (to_num (Profile.tradeSizeLimit activeProfile))
          then Order.with_volume (Profile.tradeSizeLimit activeProfile) adjustedOrder
          else adjustedOrder in
        Order.with_comment
          ("FXIFY: " ++ str_or (Order.comment adjustedOrder) "SAITRAPP")
          adjustedOrder
    end.

(** [handleRuleViolation(violations)] *)
Definition handleRuleViolation (violations : option (list Violation)) (s : t)
  : Result unit * t :=
  match violations with
  | None => (Throw "Cannot read properties of undefined (reading 'forEach')", s)
  | Some violations =>
      (Ok tt,
       {| base := base s; fxifyModeManager := fxifyModeManager s;
          emitted := emitted s ++ [("fxify:rule_violation"%string, violations)] |})
  end.

(** The refresh that follows a successful order or close:
<<
    try {
      const accountInfo = await super.getAccountInfo();
      await this.fxifyModeManager.updateBalance(accountInfo.balance, accountInfo.equity);
    } catch (error) { console.error(...) }
>>  *)
Definition refresh_drawdown (bridge : MT5.Bridge) (now : Z) (s : t) : t :=
  match super (MT5.getAccountInfo bridge) s with
  | (Ok accountInfo, s) =>
      match MT5.get_balance_equity accountInfo with
      | Ok (balance, equity) =>
          set_fxifyModeManager
            (ModeManager.updateBalance now (to_num balance) equity
               (fxifyModeManager s)) s
      | Throw _ => s
      end
  | (Throw _, s) => s
  end.

(** [validationResult.rules[0].message] *)
Definition first_message (rules : option (list Violation))
  : Result (option Message) :=
  match rules with
  | Some (v :: _) => Ok (message v)
  | Some [] => Throw "Cannot read properties of undefined (reading 'message')"
  | None => Throw "Cannot read properties of undefined (reading '0')"
  end.

(** What [placeMarketOrder] does with the outcome of the parent's
    [placeMarketOrder]: after a successful order the drawdown monitor
    is fed the fresh account snapshot. *)
Definition after_order (bridge : MT5.Bridge) (now : Z)
    (outcome : Result MT5.Data * t) : Result MT5.Data * t :=
  match outcome with
  | (Throw e, s) => (Throw e, s)
  | (Ok orderResult, s) =>
      match MT5.get_success orderResult with
      | Throw e => (Throw e, s)
      | Ok success =>
          if MT5.is_true success
          then (Ok orderResult, refresh_drawdown bridge now s)
          else (Ok orderResult, s)
      end
  end.

(** [placeMarketOrder(orderParams)].  The [catch] of its [try] logs
    the error and throws it again. *)
Definition placeMarketOrder (bridge : MT5.Bridge) (now : Z)
    (orderParams : Order.t) (s : t) : Result MT5.Data * t :=
  if negb (isFXIFYModeActive s) then
    super (MT5.placeMarketOrder bridge orderParams) s
  else
    let validationResult := validateAgainstFXIFYRules now orderParams s in
    if negb (valid validationResult) then
      match handleRuleViolation (rules validationResult) s with
      | (Throw e, s) => (Throw e, s)
      | (Ok _, s) =>
          match first_message (rules validationResult) with
          | Throw e => (Throw e, s)
          | Ok first =>
              (Ok (MT5.Rejection
                     (Txt "FXIFY rule violation: " :: interp_msg first)
                     (default [] (rules validationResult))), s)
          end
      end
    else
      let adjustedOrder := applyFXIFYConstraints orderParams s in
      after_order bridge now
        (super (MT5.placeMarketOrder bridge adjustedOrder) s).

(** [closePosition(positionId, volume = null)] *)
Definition closePosition (bridge : MT5.Bridge) (now : Z) (positionId : Z)
    (volume : option num) (s : t) : Result MT5.Data * t :=
  match super (MT5.closePosition bridge positionId volume) s with
  | (Throw e, s) => (Throw e, s)
  | (Ok closeResult, s) =>
      if isFXIFYModeActive s then
        match MT5.get_success closeResult with
        | Throw e => (Throw e, s)
        | Ok success =>
            if MT5.is_true success
            then (Ok closeResult, refresh_drawdown bridge now s)
            else (Ok closeResult, s)
        end
      else (Ok closeResult, s)
  end.










End FxifyMT5.

(* ================================================================== *)
(** * electron/brokers/mt5.js: the life of a connection *)
(* ================================================================== *)

Module MT5Lifecycle.
Import Js MT5.

(** The ['connect'] handler of the socket, before the authorisation
    request that follows it when credentials are configured. *)
Definition on_connect (b : t) : t :=
  {| socket := socket b; connected := true; callbacks := callbacks b;
     nextRequestId := nextRequestId b; reconnectAttempts := 0;
     maxReconnectAttempts := maxReconnectAttempts b;
     reconnectDelay := reconnectDelay b; accountInfo := accountInfo b;
     positions := positions b |}.

(** [await disconnect()]: the message of the result, and what the
    ['close'] event that [socket.end()] brings about does.  The
    reconnection counter is put at its maximum before the socket is
    ended. *)
Definition disconnect (b : t) : string * (t * list Effect) :=
  if negb (connected b) || negb (socket b)
  then ("Not connected"%string, (b, []))
  else
    let b := {| socket := socket b; connected := connected b;
                callbacks := callbacks b; nextRequestId := nextRequestId b;
                reconnectAttempts := maxReconnectAttempts b;
                maxReconnectAttempts := maxReconnectAttempts b;
                reconnectDelay := reconnectDelay b;
                accountInfo := accountInfo b; positions := positions b |} in
    ("Disconnected"%string, on_close b).

(** The reconnections that a list of effects schedules. *)
Definition reconnections (effects : list Effect) : list Z :=
  flat_map (fun e => match e with ReconnectIn delay => [delay] | _ => [] end)
    effects.

(** Every pending request carries an id that has been handed out. *)
Definition ids_handed_out (b : t) : Prop :=
  Forall (fun cb => (fst cb < nextRequestId b)%positive) (callbacks b).

End MT5Lifecycle.

(* ================================================================== *)
(** * electron/fxify/pre-execution-validator.js: modifications *)
(* ================================================================== *)

Module PositionModification.
Import Js Rules Validator.

(** The [modifications] object, as far as the validator reads it; the
    three flags are read for their truthiness only. *)
Record t : Type := {
  symbol : option string;
  volume : option num;
  direction : option string;
  stopLoss : option num;
  takeProfit : option num;
  type : option string;
  stopLossOnly : bool;
  takeProfitOnly : bool;
  increasingVolume : bool;
  volumeIncrease : option num
}.

(** [modifications.type === name] *)
Definition type_is (name : string) (modifications : t) : bool :=
  match type modifications with
  | Some s => String.eqb s name
  | None => false
  end.

(** The order that stands for an increase of volume. *)
Definition simulatedOrder (modifications : t) : Order.t :=
  {| Order.symbol := symbol modifications;
     Order.volume := Some (opt_or (volumeIncrease modifications) (lit 0.01));
     Order.direction := direction modifications;
     Order.price := None;
     Order.stopLoss := stopLoss modifications;
     Order.takeProfit := takeProfit modifications;
     Order.comment := None;
     Order.pipValue := None;
     Order.pipSize := None;
     Order.potentialLoss := None |}.

(** What the [catch] of [validatePositionModification] returns. *)
Definition modification_error (error_message : string) : ValidationResult :=
  {| valid := false;
     rules := Some [{| rule := "validation_error";
                       severity := sev_error;
                       message := Some [Txt "Position modification validation error: ";
                                        Txt error_message];
                       details := None |}] |}.

(** [validatePositionModification(positionId, modifications)] *)
Definition validatePositionModification (api : Api) (now : Z)
    (positionId : Z) (modifications : t) : Result ValidationResult :=
  if negb (isFXIFYModeActive api) then Ok approved
  else
    try_catch
      (let? profile := getActiveProfile api in
       match profile with
       | None => Ok approved
       | Some _ =>
           if truthy_opt (stopLoss modifications)
              && (type_is "MODIFY_SL" modifications
                  || stopLossOnly modifications)
           then Ok approved
           else if truthy_opt (takeProfit modifications)
                   && (type_is "MODIFY_TP" modifications
                       || takeProfitOnly modifications)
           then Ok approved
           else if truthy_opt (volume modifications)
                   && increasingVolume modifications
           then validateOrder api now (simulatedOrder modifications)
           else Ok approved
       end)
      (fun error_message => Ok (modification_error error_message)).

End PositionModification.

(* ================================================================== *)
(** * electron/fxify/trading-calendar.js *)
(* ================================================================== *)

Module TradingCalendar.
Import Js Rules.

(** An economic event.  [date] is the time value of
    [new Date(event.date)], in milliseconds since the epoch; it is
    [None] for an invalid date, which compares false with everything.
    [currency] and [impact] may be [undefined]. *)
Record Event : Type := {
  id : string;
  title : string;
  date : option Z;
  currency : option string;
  impact : option string;
  forecast : string;
  previous : string;
  description : string
}.

Record t : Type := {
  economicEvents : list Event;
  currencyMap : list (string * list string);   (* an object, keys in order *)
  lastUpdate : Z
}.

(** [_initializeCurrencyMap()] *)
Definition _initializeCurrencyMap : list (string * list string) :=
  [ ("USD", ["dollar"; "usd"; "us"]);
    ("EUR", ["euro"; "eur"]);
    ("GBP", ["pound"; "sterling"; "gbp"; "uk"]);
    ("JPY", ["yen"; "jpy"; "japan"; "japanese"]);
    ("AUD", ["aussie"; "australian"; "aud"]);
    ("CAD", ["loonie"; "canadian"; "cad"]);
    ("CHF", ["franc"; "swiss"; "chf"]);
    ("NZD", ["kiwi"; "new zealand"; "nzd"]);
    ("CNY", ["yuan"; "renminbi"; "cny"; "china"; "chinese"]);
    ("MXN", ["peso"; "mexican"; "mxn"]);
    ("EURUSD", ["EUR"; "USD"]);
    ("GBPUSD", ["GBP"; "USD"]);
    ("USDJPY", ["USD"; "JPY"]);
    ("USDCHF", ["USD"; "CHF"]);
    ("AUDUSD", ["AUD"; "USD"]);
    ("USDCAD", ["USD"; "CAD"]);
    ("NZDUSD", ["NZD"; "USD"]) ]%string.

(** [constructor()] *)
Definition create (now : Z) : t :=
  {| economicEvents := []; currencyMap := _initializeCurrencyMap;
     lastUpdate := now |}.

Definition lower_ascii (c : Ascii.ascii) : Ascii.ascii :=
  let n := Ascii.nat_of_ascii c in
  if ((65 <=? n) && (n <=? 90))%nat then Ascii.ascii_of_nat (n + 32) else c.

(** [s.toLowerCase()] *)
Fixpoint toLowerCase (s : string) : string :=
  match s with
  | EmptyString => EmptyString
  | String c rest => String (lower_ascii c) (toLowerCase rest)
  end.

(** [array.includes(s)] on an array of strings. *)
Definition array_includes (s : string) (array : list string) : bool :=
  existsb (String.eqb s) array.

(** One of the characters of the class [[/\-_]]. *)
Definition is_separator (c : Ascii.ascii) : bool :=
  Ascii.eqb c "/" || Ascii.eqb c "-" || Ascii.eqb c "_".

(** [symbol.replace(/[/\-_]/, '')]: the first separator goes. *)
Fixpoint remove_first_separator (s : string) : string :=
  match s with
  | EmptyString => EmptyString
  | String c rest =>
      if is_separator c then rest else String c (remove_first_separator rest)
  end.

(** [object[key]] on the own properties of [currencyMap].  (The keys
    looked up are in upper case; no inherited property is.) *)
Fixpoint property (key : string) (object : list (string * list string))
  : option (list string) :=
  match object with
  | [] => None
  | (k, v) :: rest => if String.eqb k key then Some v else property key rest
  end.

(** [_getCurrenciesForSymbol(symbol)] *)
Definition _getCurrenciesForSymbol (c : t) (symbol : string) : list string :=
  match symbol with
  | EmptyString => []
  | _ =>
      let normalizedSymbol := toUpperCase (remove_first_separator symbol) in
      match property normalizedSymbol (currencyMap c) with
      | Some currencies => currencies
      | None =>
          if (String.length normalizedSymbol =? 6)%nat
          then [String.substring 0 3 normalizedSymbol;
                String.substring 3 3 normalizedSymbol]
          else
            let currencies :=
              ["USD"; "EUR"; "GBP"; "JPY"; "AUD"; "CAD"; "CHF"; "NZD"]%string in
            List.filter (fun currency => includes currency normalizedSymbol)
              currencies
      end
  end.

(** [array.filter(callback)] for a callback that may throw. *)
Fixpoint filter_events (callback : Event -> Result bool)
    (events : list Event) : Result (list Event) :=
  match events with
  | [] => Ok []
  | event :: rest =>
      let? keep := callback event in
      let? kept := filter_events callback rest in
      Ok (if (keep : bool) then event :: kept else kept)
  end.

(** The callback of the filter of [isHighImpactEventActive]: the event
    is for one of [currencies], of high impact, and due between [now]
    and [eventWindow]. *)
Definition is_relevant (now eventWindow : Z) (currencies : list string)
    (event : Event) : Result bool :=
  let isRelevantCurrency :=
    match currency event with
    | Some code => array_includes code currencies
    | None => false
    end in
  if negb isRelevantCurrency then Ok false
  else
    match impact event with
    | None =>
        Throw "Cannot read properties of undefined (reading 'toLowerCase')"
    | Some level =>
        let isHighImpact := String.eqb (toLowerCase level) "high" in
        if negb isHighImpact then Ok false
        else
          match date event with
          | Some eventTime =>
              Ok ((now <=? eventTime) && (eventTime <=? eventWindow))
          | None => Ok false
          end
    end.

(** [isHighImpactEventActive(symbol)] at the time [now].  The end of
    the window is [now] with 60 added to its minutes, an hour later
    (in a time zone whose clock does not change within that hour). *)
Definition isHighImpactEventActive (now : Z) (c : t) (symbol : string)
  : Result bool :=
  match symbol with
  | EmptyString => Ok false
  | _ =>
      match _getCurrenciesForSymbol c symbol with
      | [] => Ok false
      | currencies =>
          let eventWindow := now + 3600000 in
          let? relevantEvents :=
            filter_events (is_relevant now eventWindow currencies)
              (economicEvents c) in
          Ok (0 <? length relevantEvents)%nat
      end
  end.

(** An event that the filter of [isHighImpactEventActive] keeps: it is
    for one of [currencies], its impact reads 'high' in any case of
    letters, and it is due at [now] or within the hour after. *)
Definition due (now : Z) (currencies : list string) (event : Event) : Prop :=
  exists code level eventTime,
    currency event = Some code /\ In code currencies /\
    impact event = Some level /\ toLowerCase level = "high"%string /\
    date event = Some eventTime /\
    now <= eventTime <= now + 3600000.

(** The calendar as the rules engine holds it in [tradingCalendar]. *)
Definition as_calendar (c : t) : Calendar :=
  {| Rules.isHighImpactEventActive := fun now symbol =>
       isHighImpactEventActive now c symbol |}.

End TradingCalendar.

(* ================================================================== *)
(** * electron/fxify/fxify-rules-engine.js: the account *)
(* ================================================================== *)

Module Account.
Import Js Rules.

(** The counters of trading activity of the engine, its list of the
    days on which a trade was made (UTC calendar dates) and its list of
    warnings. *)
Record Counters : Type := {
  tradingDaysHistory : list Z;
  dailyTradeCount : Z;
  weeklyTradeCount : Z;
  tradingDaysCompleted : Z;
  warnings : list Message
}.

(** An [FXIFYRulesEngine]: the part that evaluates trade requests, and
    its counters. *)
Record t : Type := {
  engine : RulesEngine.t;
  counters : Counters
}.

(** [constructor()] *)
Definition create (now : Z) : t :=
  {| engine := RulesEngine.create now;
     counters := {| tradingDaysHistory := []; dailyTradeCount := 0;
                    weeklyTradeCount := 0; tradingDaysCompleted := 0;
                    warnings := [] |} |}.

Definition set_activeProfile (profile : option Profile.t) (e : RulesEngine.t)
  : RulesEngine.t :=
  {| RulesEngine.core := RulesEngine.core e;
     RulesEngine.ruleEvaluators := RulesEngine.ruleEvaluators e;
     RulesEngine.activeProfile := profile;
     RulesEngine.initialBalance := RulesEngine.initialBalance e;
     RulesEngine.currentBalance := RulesEngine.currentBalance e;
     RulesEngine.currentEquity := RulesEngine.currentEquity e;
     RulesEngine.emitted := RulesEngine.emitted e |}.

Definition set_drawdownMonitor (monitor : DrawdownMonitor.t)
    (e : RulesEngine.t) : RulesEngine.t :=
  {| RulesEngine.core :=
       {| RulesEngine.drawdownMonitor := monitor;
          RulesEngine.tradingCalendar :=
            RulesEngine.tradingCalendar (RulesEngine.core e) |};
     RulesEngine.ruleEvaluators := RulesEngine.ruleEvaluators e;
     RulesEngine.activeProfile := RulesEngine.activeProfile e;
     RulesEngine.initialBalance := RulesEngine.initialBalance e;
     RulesEngine.currentBalance := RulesEngine.currentBalance e;
     RulesEngine.currentEquity := RulesEngine.currentEquity e;
     RulesEngine.emitted := RulesEngine.emitted e |}.

(** [this.warnings = []; this.dailyTradeCount = 0;
    this.weeklyTradeCount = 0] *)
Definition reset_counts (c : Counters) : Counters :=
  {| tradingDaysHistory := tradingDaysHistory c; dailyTradeCount := 0;
     weeklyTradeCount := 0; tradingDaysCompleted := tradingDaysCompleted c;
     warnings := [] |}.

(** [initializeForProfile(profile)] *)
Definition initializeForProfile (profile : option Profile.t) (s : t) : t :=
  {| engine := set_activeProfile profile (engine s);
     counters := reset_counts (counters s) |}.

(** [initializeDrawdownMonitor(initialBalance, maxDailyDrawdown = null,
    maxTotalDrawdown = null)] *)
Definition initializeDrawdownMonitor (now : Z) (initialBalance : num)
    (maxDailyDrawdown maxTotalDrawdown : option num) (s : t)
  : Result unit * t :=
  match RulesEngine.activeProfile (engine s) with
  | None => (Throw "No active FXIFY profile set", s)
  | Some activeProfile =>
      let dailyLimit :=
        default (Profile.maxDailyDrawdown activeProfile) maxDailyDrawdown in
      let totalLimit :=
        default (Profile.maxTotalDrawdown activeProfile) maxTotalDrawdown in
      let e := engine s in
      let e :=
        {| RulesEngine.core := RulesEngine.core e;
           RulesEngine.ruleEvaluators := RulesEngine.ruleEvaluators e;
           RulesEngine.activeProfile := RulesEngine.activeProfile e;
           RulesEngine.initialBalance := initialBalance;
           RulesEngine.currentBalance := initialBalance;
           RulesEngine.currentEquity := Some initialBalance;
           RulesEngine.emitted := RulesEngine.emitted e |} in
      let monitor :=
        DrawdownMonitor.initialize now initialBalance (Some dailyLimit)
          (Some totalLimit) (RulesEngine.drawdownMonitor (RulesEngine.core e)) in
      (Ok tt, {| engine := set_drawdownMonitor monitor e;
                 counters := counters s |})
  end.

(** [resetRules()] *)
Definition resetRules (now : Z) (s : t) : t :=
  let e := set_activeProfile None (engine s) in
  let monitor :=
    DrawdownMonitor.resetMonitor now
      (RulesEngine.drawdownMonitor (RulesEngine.core e)) in
  {| engine := set_drawdownMonitor monitor e;
     counters := reset_counts (counters s) |}.

(** [x === 0] *)
Definition is_zero (x : num) : bool :=
  match x with
  | Fin q => Qeq_bool q 0
  | _ => false
  end.

(** [getCurrentProfit()] *)
Definition getCurrentProfit (s : t) : num :=
  let initialBalance := RulesEngine.initialBalance (engine s) in
  if is_zero initialBalance then Fin 0
  else max (Fin 0)
         (div (sub (RulesEngine.currentBalance (engine s)) initialBalance)
              initialBalance).

(** A counter as a number. *)
Definition of_count (n : Z) : num := Fin (inject_Z n).

(** [getMinRemainingTradingDays(profile = null)] *)
Definition getMinRemainingTradingDays (profile : option Profile.t) (s : t)
  : num :=
  match RulesEngine.effective_profile (engine s) profile with
  | None => Fin 0
  | Some activeProfile =>
      let minDays := or_else (Profile.minTradingDays activeProfile) (Fin 0) in
      max (Fin 0) (sub minDays (of_count (tradingDaysCompleted (counters s))))
  end.

(** What [shouldClosePositionsForRuleCompliance()] returns. *)
Record CloseAdvice : Type := {
  shouldClose : bool;
  reason : option string;
  advice_details : option DrawdownMonitor.Status
}.

(** [shouldClosePositionsForRuleCompliance()] *)
Definition shouldClosePositionsForRuleCompliance (now : Z) (s : t)
  : CloseAdvice :=
  match RulesEngine.activeProfile (engine s) with
  | None => {| shouldClose := false; reason := None; advice_details := None |}
  | Some _ =>
      let drawdownStatus := RulesEngine.getDrawdownStatus now (engine s) in
      if DrawdownMonitor.s_dailyLimitExceeded drawdownStatus then
        {| shouldClose := true;
           reason := Some "Daily drawdown limit exceeded"%string;
           advice_details := Some drawdownStatus |}
      else if DrawdownMonitor.s_totalLimitExceeded drawdownStatus then
        {| shouldClose := true;
           reason := Some "Total drawdown limit exceeded"%string;
           advice_details := Some drawdownStatus |}
      else {| shouldClose := false; reason := None; advice_details := None |}
  end.

(** The [details] of the issues of [evaluateAccount]. *)
Inductive IssueDetails : Type :=
| OfStatus (drawdownStatus : DrawdownMonitor.Status)
| OfProfit (target current : num)
| OfTradingDays (completed : Z) (required remaining : num).

Record Issue : Type := {
  issue_rule : string;
  issue_severity : Severity;
  issue_message : Message;
  issue_details : IssueDetails
}.

Record AccountResult : Type := {
  account_valid : bool;
  account_rules : list Issue
}.

Definition is_error (issue : Issue) : bool :=
  match issue_severity issue with
  | sev_error => true
  | _ => false
  end.

(** [evaluateAccount(account, profile = null)].  [account] is not
    read.  Nothing in the [try] block can throw, the drawdown monitor
    being the engine's own. *)
Definition evaluateAccount (now : Z) (profile : option Profile.t) (s : t)
  : AccountResult :=
  match RulesEngine.effective_profile (engine s) profile with
  | None => {| account_valid := true; account_rules := [] |}
  | Some activeProfile =>
      let drawdownStatus := RulesEngine.getDrawdownStatus now (engine s) in
      let hundred := Fin 100 in
      let issues : list Issue := [] in
      let issues :=
        if DrawdownMonitor.s_dailyLimitExceeded drawdownStatus then
          issues ++
          [{| issue_rule := "daily_drawdown_exceeded";
              issue_severity := sev_error;
              issue_message :=
                [Txt "Daily drawdown limit of ";
                 Num (mul (Profile.maxDailyDrawdown activeProfile) hundred);
                 Txt "% has been exceeded (current: ";
                 Fixed2 (mul (DrawdownMonitor.s_dailyDrawdown drawdownStatus)
                             hundred);
                 Txt "%)"];
              issue_details := OfStatus drawdownStatus |}]
        else issues in
      let issues :=
        if DrawdownMonitor.s_totalLimitExceeded drawdownStatus then
          issues ++
          [{| issue_rule := "total_drawdown_exceeded";
              issue_severity := sev_error;
              issue_message :=
                [Txt "Total drawdown limit of ";
                 Num (mul (Profile.maxTotalDrawdown activeProfile) hundred);
                 Txt "% has been exceeded (current: ";
                 Fixed2 (mul (DrawdownMonitor.s_totalDrawdown drawdownStatus)
                             hundred);
                 Txt "%)"];
              issue_details := OfStatus drawdownStatus |}]
        else issues in
      let currentProfit := getCurrentProfit s in
      let profitTarget := Profile.profitTarget activeProfile in
      let issues :=
        if ge currentProfit profitTarget then
          issues ++
          [{| issue_rule := "profit_target_reached";
              issue_severity := sev_info;
              issue_message :=
                [Txt "Profit target of "; Num (mul profitTarget hundred);
                 Txt "% has been reached (current: ";
                 Fixed2 (mul currentProfit hundred); Txt "%)"];
              issue_details := OfProfit profitTarget currentProfit |}]
        else issues in
      let remainingDays := getMinRemainingTradingDays (Some activeProfile) s in
      let issues :=
        if gt remainingDays (Fin 0) then
          issues ++
          [{| issue_rule := "min_trading_days";
              issue_severity := sev_info;
              issue_message :=
                [Txt "Minimum trading days requirement not yet met (";
                 Num (of_count (tradingDaysCompleted (counters s)));
                 Txt " of "; Num (Profile.minTradingDays activeProfile);
                 Txt " days)"];
              issue_details :=
                OfTradingDays (tradingDaysCompleted (counters s))
                  (Profile.minTradingDays activeProfile) remainingDays |}]
        else issues in
      {| account_valid := negb (existsb is_error issues);
         account_rules := issues |}
  end.

(** The three recommendations of the compliance report, with the
    numbers that their texts carry. *)
Inductive Recommendation : Type :=
| CloseAllPositions
    (* 'Close all positions to prevent further drawdown violations' *)
| ContinueTrading (percent : num)
    (* [`Continue trading to reach profit target of ${percent.toFixed(0)}%`] *)
| CompleteTradingDays (remaining : num).
    (* [`Complete at least ${remaining} more trading days to meet minimum requirement`] *)

Record Report : Type := {
  timestamp : Z;
  profileName : string;
  profileType : string;
  compliant : bool;
  drawdown_compliant : bool;
  drawdown_dailyDrawdown : num;
  drawdown_totalDrawdown : num;
  drawdown_dailyLimit : num;
  drawdown_totalLimit : num;
  profit_compliant : bool;
  profit_current : num;
  profit_target : num;
  tradingDays_compliant : bool;
  tradingDays_completed : Z;
  tradingDays_required : num;
  tradingDays_remaining : num;
  report_warnings : list Message;
  recommendations : list Recommendation
}.

(** What [generateRuleComplianceReport()] returns. *)
Inductive ComplianceReport : Type :=
| NoActiveProfile     (* [{ compliant: false, message: 'No active FXIFY profile' }] *)
| Compliance (report : Report).

(** [generateRuleComplianceReport()] *)
Definition generateRuleComplianceReport (now : Z) (s : t) : ComplianceReport :=
  match RulesEngine.activeProfile (engine s) with
  | None => NoActiveProfile
  | Some activeProfile =>
      let drawdownStatus := RulesEngine.getDrawdownStatus now (engine s) in
      let profit := getCurrentProfit s in
      let remainingDays := getMinRemainingTradingDays None s in
      let drawdownCompliant :=
        negb (DrawdownMonitor.s_dailyLimitExceeded drawdownStatus)
        && negb (DrawdownMonitor.s_totalLimitExceeded drawdownStatus) in
      let profitCompliant := ge profit (Profile.profitTarget activeProfile) in
      let daysCompliant := is_zero remainingDays in
      let recommendations : list Recommendation := [] in
      let recommendations :=
        if negb drawdownCompliant
        then recommendations ++ [CloseAllPositions] else recommendations in
      let recommendations :=
        if negb profitCompliant
        then recommendations
             ++ [ContinueTrading
                   (mul (Profile.profitTarget activeProfile) (Fin 100))]
        else recommendations in
      let recommendations :=
        if negb daysCompliant
        then recommendations ++ [CompleteTradingDays remainingDays]
        else recommendations in
      Compliance
        {| timestamp := now;
           profileName := Profile.name activeProfile;
           profileType := Profile.accountType activeProfile;
           compliant := drawdownCompliant && (profitCompliant && daysCompliant);
           drawdown_compliant := drawdownCompliant;
           drawdown_dailyDrawdown :=
             DrawdownMonitor.s_dailyDrawdown drawdownStatus;
           drawdown_totalDrawdown :=
             DrawdownMonitor.s_totalDrawdown drawdownStatus;
           drawdown_dailyLimit := Profile.maxDailyDrawdown activeProfile;
           drawdown_totalLimit := Profile.maxTotalDrawdown activeProfile;
           profit_compliant := profitCompliant;
           profit_current := profit;
           profit_target := Profile.profitTarget activeProfile;
           tradingDays_compliant := daysCompliant;
           tradingDays_completed := tradingDaysCompleted (counters s);
           tradingDays_required := Profile.minTradingDays activeProfile;
           tradingDays_remaining := remainingDays;
           report_warnings := warnings (counters s);
           recommendations := recommendations |}
  end.

(** [registerTradingDay()] *)
Definition registerTradingDay (now : Z) (s : t) : t :=
  let today := utc_date now in
  let c := counters s in
  if negb (existsb (Z.eqb today) (tradingDaysHistory c)) then
    {| engine := engine s;
       counters :=
         {| tradingDaysHistory := tradingDaysHistory c ++ [today];
            dailyTradeCount := 0;
            weeklyTradeCount := weeklyTradeCount c;
            tradingDaysCompleted := tradingDaysCompleted c + 1;
            warnings := warnings c |} |}
  else s.

(** [incrementTradeCount()] *)
Definition incrementTradeCount (now : Z) (s : t) : t :=
  let c := counters s in
  let s :=
    {| engine := engine s;
       counters :=
         {| tradingDaysHistory := tradingDaysHistory c;
            dailyTradeCount := dailyTradeCount c + 1;
            weeklyTradeCount := weeklyTradeCount c + 1;
            tradingDaysCompleted := tradingDaysCompleted c;
            warnings := warnings c |} |} in
  if dailyTradeCount (counters s) =? 1 then registerTradingDay now s else s.

(** A trade at each of [times], one after the other. *)
Definition trades (times : list Z) (s : t) : t :=
  fold_left (fun s now => incrementTradeCount now s) times s.

End Account.

(* ================================================================== *)
(** * electron/fxify/fxify-mode-manager.js: profiles and the mode *)
(* ================================================================== *)

Module ProfileStore.
Import Js Rules.

(** A profile as the manager keeps it: the fields that the rules read,
    the custom settings (an object that nothing here reads) and the
    two time stamps. *)
Record Stored : Type := {
  profile : Profile.t;
  customSettings : string;
  createdAt : Z;
  updatedAt : Z
}.

(** The profile data handed to [createProfile] and [updateProfile]:
    every property may be [undefined]; [tradeSizeLimit] may be [null]
    as well ([Some None]). *)
Record Input : Type := {
  id : option string;
  name : option string;
  accountType : option string;
  profitTarget : option num;
  maxDailyDrawdown : option num;
  maxTotalDrawdown : option num;
  minTradingDays : option num;
  tradeSizeLimit : option (option num);
  allowNewsTrading : option bool;
  settings : option string
}.

(** What the manager emits about profiles and the mode. *)
Inductive Event : Type :=
| mode_activated (profile : option Profile.t)
| mode_deactivated
| profile_created (stored : Stored)
| profile_updated (stored : Stored)
| profile_deleted (id name : string).

(** An [FXIFYModeManager]: the part that the validator uses, the
    counters of its rules engine, the [Map] of its profiles in
    insertion order, and the events above in the order of emission. *)
Record t : Type := {
  manager : ModeManager.t;
  counters : Account.Counters;
  userProfiles : list (string * Stored);
  events : list Event
}.

(** [constructor()] *)
Definition create (now : Z) : t :=
  {| manager := {| ModeManager.isActive := false;
                   ModeManager.activeProfile := None;
                   ModeManager.rulesEngine := RulesEngine.create now;
                   ModeManager.emitted := [] |};
     counters := Account.counters (Account.create now);
     userProfiles := [];
     events := [] |}.

(** ** The [userProfiles] map *)

Fixpoint get (key : string) (profiles : list (string * Stored))
  : option Stored :=
  match profiles with
  | [] => None
  | (k, v) :: rest => if String.eqb k key then Some v else get key rest
  end.

(** [userProfiles.set(key, value)]: a present key keeps its place. *)
Fixpoint set (key : string) (value : Stored)
    (profiles : list (string * Stored)) : list (string * Stored) :=
  match profiles with
  | [] => [(key, value)]
  | (k, v) :: rest =>
      if String.eqb k key then (key, value) :: rest
      else (k, v) :: set key value rest
  end.

Fixpoint delete (key : string) (profiles : list (string * Stored))
  : list (string * Stored) :=
  match profiles with
  | [] => []
  | (k, v) :: rest =>
      if String.eqb k key then delete key rest else (k, v) :: delete key rest
  end.

(** [getAllProfiles()] *)
Definition getAllProfiles (s : t) : list Stored := map snd (userProfiles s).

(** [saveProfiles()] writes the profiles to disk; the write may fail. *)
Definition Disk : Type := list Stored -> Result unit.

(** ** Single assignments *)

Definition set_userProfiles (v : list (string * Stored)) (s : t) : t :=
  {| manager := manager s; counters := counters s; userProfiles := v;
     events := events s |}.

Definition emit (event : Event) (s : t) : t :=
  {| manager := manager s; counters := counters s;
     userProfiles := userProfiles s; events := events s ++ [event] |}.

Definition set_activeProfile (v : option Profile.t) (s : t) : t :=
  let m := manager s in
  {| manager := {| ModeManager.isActive := ModeManager.isActive m;
                   ModeManager.activeProfile := v;
                   ModeManager.rulesEngine := ModeManager.rulesEngine m;
                   ModeManager.emitted := ModeManager.emitted m |};
     counters := counters s; userProfiles := userProfiles s;
     events := events s |}.

Definition set_isActive (v : bool) (s : t) : t :=
  let m := manager s in
  {| manager := {| ModeManager.isActive := v;
                   ModeManager.activeProfile := ModeManager.activeProfile m;
                   ModeManager.rulesEngine := ModeManager.rulesEngine m;
                   ModeManager.emitted := ModeManager.emitted m |};
     counters := counters s; userProfiles := userProfiles s;
     events := events s |}.

(** The rules engine of the manager, whole, and its replacement. *)
Definition rulesEngine (s : t) : Account.t :=
  {| Account.engine := ModeManager.rulesEngine (manager s);
     Account.counters := counters s |}.

Definition set_rulesEngine (e : Account.t) (s : t) : t :=
  let m := manager s in
  {| manager := {| ModeManager.isActive := ModeManager.isActive m;
                   ModeManager.activeProfile := ModeManager.activeProfile m;
                   ModeManager.rulesEngine := Account.engine e;
                   ModeManager.emitted := ModeManager.emitted m |};
     counters := Account.counters e; userProfiles := userProfiles s;
     events := events s |}.

(** ** Profiles *)

(** [createProfile(profile)]; [random] is the hexadecimal rendering of
    [crypto.randomBytes(4)]. *)
Definition createProfile (disk : Disk) (now : Z) (random : string)
    (input : Input) (s : t) : Result string * t :=
  let profileId := str_or (id input) ("profile_" ++ random) in
  let newProfile :=
    {| profile :=
         {| Profile.id := profileId;
            Profile.name := str_or (name input) "New FXIFY Profile";
            Profile.accountType := str_or (accountType input) "Evaluation";
            Profile.profitTarget := opt_or (profitTarget input) (lit 0.10);
            Profile.maxDailyDrawdown :=
              opt_or (maxDailyDrawdown input) (lit 0.03);
            Profile.maxTotalDrawdown :=
              opt_or (maxTotalDrawdown input) (lit 0.06);
            Profile.minTradingDays := opt_or (minTradingDays input) (Fin 5);
            Profile.tradeSizeLimit :=
              match tradeSizeLimit input with
              | Some (Some limit) => if truthy limit then Some limit else None
              | _ => None
              end;
            Profile.allowNewsTrading := default false (allowNewsTrading input) |};
       customSettings := str_or (settings input) "{}";
       createdAt := now;
       updatedAt := now |} in
  let s := set_userProfiles (set profileId newProfile (userProfiles s)) s in
  match disk (getAllProfiles s) with
  | Throw e => (Throw e, s)
  | Ok _ => (Ok profileId, emit (profile_created newProfile) s)
  end.

(** The data of the default profile. *)
Definition default_input : Input :=
  {| id := None;
     name := Some "Default FXIFY Profile"%string;
     accountType := Some "Evaluation"%string;
     profitTarget := Some (lit 0.10);
     maxDailyDrawdown := Some (lit 0.03);
     maxTotalDrawdown := Some (lit 0.06);
     minTradingDays := Some (Fin 5);
     tradeSizeLimit := Some None;
     allowNewsTrading := Some false;
     settings := None |}.

(** [createDefaultProfile()] *)
Definition createDefaultProfile (disk : Disk) (now : Z) (random : string)
    (s : t) : Result string * t :=
  createProfile disk now random default_input s.

(** [deactivateFXIFYMode()]; nothing in its [try] block throws. *)
Definition deactivateFXIFYMode (now : Z) (s : t) : bool * t :=
  if negb (ModeManager.isActive (manager s)) then (true, s)
  else
    let s := set_rulesEngine (Account.resetRules now (rulesEngine s)) s in
    let s := set_isActive false s in
    (true, emit mode_deactivated s).

(** The second half of [activateFXIFYMode], with the profile chosen:
    the rules engine is initialised for it, the mode is switched on
    and ['mode_activated'] is emitted.  (The status listeners are
    notified inside their own [try/catch].) *)
Definition switch_on (s : t) : bool * t :=
  let s :=
    set_rulesEngine
      (Account.initializeForProfile
         (ModeManager.activeProfile (manager s)) (rulesEngine s)) s in
  let s := set_isActive true s in
  let s := emit (mode_activated (ModeManager.activeProfile (manager s))) s in
  match ModeManager.activeProfile (manager s) with
  | Some _ => (true, s)
  | None => (false, s)      (* reading [activeProfile.name] throws *)
  end.

(** [activateFXIFYMode(profileId)].  The profile is chosen first,
    which ends the call when a named profile is missing or when the
    default profile cannot be saved. *)
Definition activateFXIFYMode (disk : Disk) (now : Z) (random : string)
    (profileId : option string) (s : t) : bool * t :=
  match profileId with
  | Some (String c rest) =>
      match get (String c rest) (userProfiles s) with
      | None => (false, s)
      | Some stored => switch_on (set_activeProfile (Some (profile stored)) s)
      end
  | _ =>
      match ModeManager.activeProfile (manager s) with
      | Some _ => switch_on s
      | None =>
          match userProfiles s with
          | (_, first) :: _ =>
              switch_on (set_activeProfile (Some (profile first)) s)
          | [] =>
              match createDefaultProfile disk now random s with
              | (Throw _, s) => (false, s)
              | (Ok defaultProfileId, s) =>
                  switch_on
                    (set_activeProfile
                       (option_map profile
                          (get defaultProfileId (userProfiles s)))
                       s)
              end
          end
      end
  end.

(** [updateProfile(profileId, profile)] *)
Definition updateProfile (disk : Disk) (now : Z) (profileId : string)
    (input : Input) (s : t) : bool * t :=
  match get profileId (userProfiles s) with
  | None => (false, s)
  | Some current =>
      let currentProfile := profile current in
      let updatedProfile :=
        {| profile :=
             {| Profile.id := Profile.id currentProfile;
                Profile.name :=
                  str_or (name input) (Profile.name currentProfile);
                Profile.accountType :=
                  str_or (accountType input)
                    (Profile.accountType currentProfile);
                Profile.profitTarget :=
                  default (Profile.profitTarget currentProfile)
                    (profitTarget input);
                Profile.maxDailyDrawdown :=
                  default (Profile.maxDailyDrawdown currentProfile)
                    (maxDailyDrawdown input);
                Profile.maxTotalDrawdown :=
                  default (Profile.maxTotalDrawdown currentProfile)
                    (maxTotalDrawdown input);
                Profile.minTradingDays :=
                  default (Profile.minTradingDays currentProfile)
                    (minTradingDays input);
                Profile.tradeSizeLimit :=
                  default (Profile.tradeSizeLimit currentProfile)
                    (tradeSizeLimit input);
                Profile.allowNewsTrading :=
                  default (Profile.allowNewsTrading currentProfile)
                    (allowNewsTrading input) |};
           customSettings := str_or (settings input) (customSettings current);
           createdAt := createdAt current;
           updatedAt := now |} in
      let s :=
        set_userProfiles (set profileId updatedProfile (userProfiles s)) s in
      let isActiveProfile :=
        match ModeManager.activeProfile (manager s) with
        | Some active => String.eqb (Profile.id active) profileId
        | None => false
        end in
      let s :=
        if isActiveProfile && ModeManager.isActive (manager s) then
          let s := set_activeProfile (Some (profile updatedProfile)) s in
          set_rulesEngine
            (Account.initializeForProfile (Some (profile updatedProfile))
               (rulesEngine s)) s
        else s in
      match disk (getAllProfiles s) with
      | Throw _ => (false, s)
      | Ok _ => (true, emit (profile_updated updatedProfile) s)
      end
  end.

(** [deleteProfile(profileId)] *)
Definition deleteProfile (disk : Disk) (now : Z) (profileId : string)
    (s : t) : bool * t :=
  match get profileId (userProfiles s) with
  | None => (false, s)
  | Some deletedProfile =>
      let isActiveProfile :=
        match ModeManager.activeProfile (manager s) with
        | Some active => String.eqb (Profile.id active) profileId
        | None => false
        end in
      let s :=
        if isActiveProfile then
          let s := if ModeManager.isActive (manager s)
                   then snd (deactivateFXIFYMode now s) else s in
          set_activeProfile None s
        else s in
      let s := set_userProfiles (delete profileId (userProfiles s)) s in
      match disk (getAllProfiles s) with
      | Throw _ => (false, s)
      | Ok _ =>
          (true,
           emit (profile_deleted profileId
                   (Profile.name (profile deletedProfile))) s)
      end
  end.

(** [initializeDrawdownMonitor(initialBalance)] *)
Definition initializeDrawdownMonitor (now : Z) (initialBalance : num)
    (s : t) : Result unit * t :=
  match ModeManager.isActive (manager s),
        ModeManager.activeProfile (manager s) with
  | true, Some activeProfile =>
      match Account.initializeDrawdownMonitor now initialBalance
              (Some (Profile.maxDailyDrawdown activeProfile))
              (Some (Profile.maxTotalDrawdown activeProfile))
              (rulesEngine s) with
      | (Ok _, e) => (Ok tt, set_rulesEngine e s)
      | (Throw error, e) => (Throw error, set_rulesEngine e s)
      end
  | _, _ => (Ok tt, s)
  end.

(** The manager is in FXIFY mode only with a profile, which its rules
    engine holds too. *)
Definition in_step (s : t) : Prop :=
  ModeManager.isActive (manager s) = true ->
  exists active,
    ModeManager.activeProfile (manager s) = Some active /\
    RulesEngine.activeProfile (ModeManager.rulesEngine (manager s))
    = Some active.

(** The drawdown monitor of the manager's rules engine. *)
Definition monitor (s : t) : DrawdownMonitor.t :=
  RulesEngine.drawdownMonitor
    (RulesEngine.core (ModeManager.rulesEngine (manager s))).

End ProfileStore.

(* ================================================================== *)
(** * Concrete states and inputs *)
(* ================================================================== *)

Module Scenario.
Import Js Rules.

(** 1970-01-01 was a Thursday; two days later is a Saturday. *)
Definition thursday : Z := 1000.
Definition friday : Z := Js.ms_per_day + 1000.
Definition saturday : Z := 2 * Js.ms_per_day.

(** [initialize(10000, 0.03, 0.06)] on a fresh monitor. *)
Definition monitor : DrawdownMonitor.t :=
  DrawdownMonitor.initialize 0 (lit 10000) (Some (lit 0.03)) (Some (lit 0.06))
    (DrawdownMonitor.create 0).

(** A monitor whose daily limit is zero. *)
Definition monitor_zero_limit : DrawdownMonitor.t :=
  DrawdownMonitor.initialize 0 (lit 10000) (Some (Fin 0)) (Some (lit 0.06))
    (DrawdownMonitor.create 0).

(** A monitor that sits exactly on its daily limit of 3%. *)
Definition monitor_at_limit : DrawdownMonitor.t :=
  DrawdownMonitor.updateBalance thursday (lit 10000) (Some (lit 9700)) monitor.

(** The default profile of [createDefaultProfile], with a trade size
    limit. *)
Definition profile (limit : option num) : Profile.t :=
  {| Profile.id := "profile_1";
     Profile.name := "Default FXIFY Profile";
     Profile.accountType := "Evaluation";
     Profile.profitTarget := lit 0.10;
     Profile.maxDailyDrawdown := lit 0.03;
     Profile.maxTotalDrawdown := lit 0.06;
     Profile.minTradingDays := Fin 5;
     Profile.tradeSizeLimit := limit;
     Profile.allowNewsTrading := false |}.

(** A calendar on which a high-impact event is active. *)
Definition calendar_active : Calendar :=
  {| isHighImpactEventActive := fun _ _ => Ok true |}.



Definition engine (calendar : option Calendar) (p : Profile.t)
    (evaluators : list (string * RulesEngine.Evaluator)) : RulesEngine.t :=
  {| RulesEngine.core := {| RulesEngine.drawdownMonitor := monitor;
                            RulesEngine.tradingCalendar := calendar |};
     RulesEngine.ruleEvaluators := evaluators;
     RulesEngine.activeProfile := Some p;
     RulesEngine.initialBalance := lit 10000;
     RulesEngine.currentBalance := lit 10000;
     RulesEngine.currentEquity := Some (lit 10000);
     RulesEngine.emitted := [] |}.

(** A manager in FXIFY mode. *)
Definition manager (calendar : option Calendar) (p : Profile.t)
    (evaluators : list (string * RulesEngine.Evaluator)) : ModeManager.t :=
  {| ModeManager.isActive := true;
     ModeManager.activeProfile := Some p;
     ModeManager.rulesEngine := engine calendar p evaluators;
     ModeManager.emitted := [] |}.

(** The same manager with FXIFY mode off. *)
Definition manager_off : ModeManager.t :=
  {| ModeManager.isActive := false;
     ModeManager.activeProfile := Some (profile None);
     ModeManager.rulesEngine :=
       engine None (profile None) RulesEngine.builtin_evaluators;
     ModeManager.emitted := [] |}.



(** A market order for [volume] lots of EURUSD. *)
Definition order (volume : option num) : Order.t :=
  {| Order.symbol := Some "EURUSD"%string;
     Order.volume := volume;
     Order.direction := Some "buy"%string;
     Order.price := None;
     Order.stopLoss := None;
     Order.takeProfit := None;
     Order.comment := None;
     Order.pipValue := None;
     Order.pipSize := None;
     Order.potentialLoss := None |}.

(** A connected MT5 adapter with two requests in flight. *)
Definition broker : MT5.t :=
  {| MT5.socket := true; MT5.connected := true;
     MT5.callbacks := [(7%positive, "GET_POSITIONS"%string);
                     (8%positive, "PLACE_ORDER"%string)];
     MT5.nextRequestId := 9;
     MT5.reconnectAttempts := 0; MT5.maxReconnectAttempts := 5;
     MT5.reconnectDelay := 2000;
     MT5.accountInfo := None; MT5.positions := MT5.Positions [] |}.

Definition adapter (m : ModeManager.t) : FxifyMT5.t :=
  {| FxifyMT5.base := broker;
     FxifyMT5.fxifyModeManager := m;
     FxifyMT5.emitted := [] |}.

Definition position (id : Z) : MT5.Position :=
  {| MT5.pos_id := id; MT5.pos_symbol := "EURUSD"; MT5.pos_volume := Fin 1 |}.

(** A bridge that lists three open positions, fails to close the
    second and accepts everything else. *)
Definition bridge : MT5.Bridge := fun requestId cmd =>
  match MT5.params cmd with
  | MT5.NoParams =>
      MT5.Answer {| MT5.r_error := None;
                    MT5.r_data := MT5.Positions [position 11; position 12; position 13] |}
  | MT5.CloseParams 12 _ =>
      MT5.Answer {| MT5.r_error := Some "Position is locked"%string;
                    MT5.r_data := MT5.Undefined |}
  | _ =>
      MT5.Answer {| MT5.r_error := None;
                    MT5.r_data := MT5.Object (Some true) (Some (lit 10000))
                                    (Some (lit 10000)) |}
  end.

End Scenario.

(* ================================================================== *)
(** * More states and inputs *)
(* ================================================================== *)

Module Examples.
Import Js Rules.

(** The request for the account that the refresh of the drawdown
    monitor sends. *)
Definition account_info_command : MT5.Command :=
  {| MT5.command := "GET_ACCOUNT_INFO"; MT5.params := MT5.NoParams |}.

(** A bridge that accepts everything and reports an account of 10400
    with an equity of 10300. *)
Definition bridge_account : MT5.Bridge := fun requestId cmd =>
  MT5.Answer {| MT5.r_error := None;
                MT5.r_data := MT5.Object (Some true) (Some (lit 10400))
                                (Some (lit 10300)) |}.

(** A bridge that never answers. *)
Definition bridge_silent : MT5.Bridge := fun requestId cmd => MT5.NoAnswer.

(** A modification that moves the stop loss and adds five lots. *)
Definition marked_stop_loss : PositionModification.t :=
  {| PositionModification.symbol := Some "EURUSD"%string;
     PositionModification.volume := Some (Fin 6);
     PositionModification.direction := Some "buy"%string;
     PositionModification.stopLoss := Some (lit 1.05);
     PositionModification.takeProfit := None;
     PositionModification.type := Some "MODIFY_SL"%string;
     PositionModification.stopLossOnly := false;
     PositionModification.takeProfitOnly := false;
     PositionModification.increasingVolume := true;
     PositionModification.volumeIncrease := Some (Fin 5) |}.

(** A calendar with one event, half an hour after [Scenario.thursday]. *)
Definition payrolls : TradingCalendar.Event :=
  {| TradingCalendar.id := "sim_1";
     TradingCalendar.title := "USD Non-Farm Payrolls";
     TradingCalendar.date := Some (Scenario.thursday + 1800000);
     TradingCalendar.currency := Some "USD"%string;
     TradingCalendar.impact := Some "High"%string;
     TradingCalendar.forecast := "2.1%";
     TradingCalendar.previous := "1.9%";
     TradingCalendar.description := "USD Non-Farm Payrolls for Jan 1970" |}.

Definition calendar : TradingCalendar.t :=
  {| TradingCalendar.economicEvents := [payrolls];
     TradingCalendar.currencyMap := TradingCalendar._initializeCurrencyMap;
     TradingCalendar.lastUpdate := 0 |}.

(** An engine whose account has grown from 10000 to 11000 over five
    trading days, under the default profile (target 10%, five days). *)
Definition passed_account : Account.t :=
  {| Account.engine :=
       RulesEngine.updateBalance Scenario.thursday (lit 11000)
         (Some (lit 11000))
         (Scenario.engine None (Scenario.profile None)
            RulesEngine.builtin_evaluators);
     Account.counters :=
       {| Account.tradingDaysHistory := [-5; -4; -3; -2; -1];
          Account.dailyTradeCount := 0;
          Account.weeklyTradeCount := 5;
          Account.tradingDaysCompleted := 5;
          Account.warnings := [] |} |}.

(** A disk that takes every write, and a disk that is full. *)
Definition disk_ok : ProfileStore.Disk := fun _ => Ok tt.
Definition disk_full : ProfileStore.Disk :=
  fun _ => Throw "ENOSPC: no space left on device".

(** A change of the daily limit to 5%. *)
Definition wider_limit : ProfileStore.Input :=
  {| ProfileStore.id := None;
     ProfileStore.name := None;
     ProfileStore.accountType := None;
     ProfileStore.profitTarget := None;
     ProfileStore.maxDailyDrawdown := Some (lit 0.05);
     ProfileStore.maxTotalDrawdown := None;
     ProfileStore.minTradingDays := None;
     ProfileStore.tradeSizeLimit := None;
     ProfileStore.allowNewsTrading := None;
     ProfileStore.settings := None |}.

(** A manager with the default profile, active, then switched off. *)
Definition store_on : ProfileStore.t :=
  snd (ProfileStore.activateFXIFYMode disk_ok 0 "0a1b2c3d" None
         (ProfileStore.create 0)).

Definition store_off : ProfileStore.t :=
  snd (ProfileStore.deactivateFXIFYMode 0 store_on).

End Examples.

(* ================================================================== *)
(** * Properties *)
(* ================================================================== *)

Import Js Rules.

(** ** Numbers *)

Lemma gt_false_of_eq (a b : num) : cmp a b = Some Eq -> gt a b = false.
Proof. unfold gt. now intros ->. Qed.

Lemma cmp_eq_fin (a : num) (q : Q) :
  cmp a (Fin q) = Some Eq -> exists p, a = Fin p /\ (p == q)%Q.
Proof.
  destruct a as [| |p|]; simpl; try discriminate.
  intros H. exists p. split; [reflexivity|].
  apply Qeq_alt. congruence.
Qed.

(** A number divided by a number equal to it, finite and not zero, is 1. *)
Lemma div_self_ge_one (p q : Q) :
  (p == q)%Q -> ~ (q == 0)%Q -> ge (div (Fin p) (Fin q)) (Fin 1) = true.
Proof.
  intros Hpq Hq. unfold div.
  destruct (q ?= 0)%Q eqn:E.
  - apply Qeq_alt in E. contradiction.
  - unfold ge. simpl.
    assert (H1 : (Qred (p / q) == 1)%Q).
    { rewrite Qred_correct, Hpq. now field. }
    apply Qeq_alt in H1. now rewrite H1.
  - unfold ge. simpl.
    assert (H1 : (Qred (p / q) == 1)%Q).
    { rewrite Qred_correct, Hpq. now field. }
    apply Qeq_alt in H1. now rewrite H1.
Qed.

Lemma gt_zero_truthy (b : num) : gt b (Fin 0) = true -> truthy b = true.
Proof.
  destruct b as [| |y|]; cbn; try discriminate; try reflexivity.
  unfold gt. cbn. destruct (y ?= 0)%Q eqn:E; try discriminate. intros _.
  destruct (Qeq_bool y 0) eqn:B; [|reflexivity].
  apply Qeq_bool_eq, Qeq_alt in B. congruence.
Qed.

(** A number above a positive number is not zero. *)
Lemma gt_positive_truthy (a b : num) :
  gt a b = true -> gt b (Fin 0) = true -> truthy a = true.
Proof.
  destruct a as [| |x|], b as [| |y|]; cbn; try discriminate; try reflexivity.
  unfold gt. cbn.
  destruct (x ?= y)%Q eqn:Exy; try discriminate.
  destruct (y ?= 0)%Q eqn:Ey; try discriminate. intros _ _.
  apply Qgt_alt in Exy, Ey.
  destruct (Qeq_bool x 0) eqn:B; [|reflexivity].
  apply Qeq_bool_eq in B. rewrite B in Exy.
  exfalso. apply (Qlt_irrefl 0). now apply Qlt_trans with y.
Qed.

(** ** DrawdownMonitor *)

Section Monitor.
Import DrawdownMonitor.

(** Reading a field after assignments to fields. *)
Ltac fields :=
  cbn [dailyDrawdowns maxDailyDrawdown totalDrawdown maxTotalDrawdown
       initialBalance startOfDayBalance currentBalance currentEquity
       peakBalance drawdownHistory lastUpdate
       set_dailyDrawdowns set_totalDrawdown set_startOfDayBalance
       set_balance_equity set_peakBalance set_drawdownHistory
       set_lastUpdate] in *.

Ltac split_ifs :=
  repeat match goal with
         | |- context [if ?c then _ else _] => destruct c eqn:?; fields
         end.

(** [updateBalance], field by field. *)
Lemma updateBalance_fields (now : Z) (newBalance : num) (equity : option num)
    (m : t) :
  let m' := updateBalance now newBalance equity m in
  currentBalance m' = newBalance /\
  currentEquity m' = default newBalance equity /\
  peakBalance m' =
    (if gt newBalance (peakBalance m) then newBalance else peakBalance m) /\
  startOfDayBalance m' =
    (if negb (utc_date now =? utc_date (lastUpdate m))
     then newBalance else startOfDayBalance m) /\
  lastUpdate m' = now /\
  maxDailyDrawdown m' = maxDailyDrawdown m /\
  maxTotalDrawdown m' = maxTotalDrawdown m.
Proof.
  unfold updateBalance, _updateDrawdownHistory, _calculateDrawdowns,
    registerDayStart.
  fields. split_ifs; repeat split; congruence.
Qed.

(** The drawdowns that [updateBalance] stores, in terms of the fields
    it leaves behind. *)
Lemma updateBalance_drawdowns (now : Z) (newBalance : num)
    (equity : option num) (m : t) :
  let m' := updateBalance now newBalance equity m in
  dailyDrawdowns m' !! utc_date now =
    Some (if gt (startOfDayBalance m') (Fin 0)
          then max (Fin 0) (div (sub (startOfDayBalance m') (currentEquity m'))
                                (startOfDayBalance m'))
          else Fin 0) /\
  (gt (peakBalance m') (Fin 0) = true ->
   totalDrawdown m' =
     max (Fin 0) (div (sub (peakBalance m') (currentEquity m')) (peakBalance m'))).
Proof.
  unfold updateBalance, _updateDrawdownHistory, _calculateDrawdowns,
    registerDayStart.
  fields. split_ifs; (split; [ now rewrite lookup_insert_eq | congruence ]).
Qed.

(** C5.  After [updateBalance(balance, equity)], when the start-of-day
    balance and the peak balance are positive, the daily drawdown
    stored for the day is max(0, (startOfDayBalance - equity) /
    startOfDayBalance) and the total drawdown is max(0, (peakBalance -
    equity) / peakBalance): both are computed from the equity.  In
    particular, after [initialize(10000, 0.03, 0.06)] and
    [updateBalance(10000, 9600)], whenever the two calls are made, the
    daily drawdown is 0.04 and [isDailyLimitExceeded()] is true. *)
Theorem updateBalance_drawdown_from_equity :
  (forall (now : Z) (balance equity : num) (m : t),
      let m' := updateBalance now balance (Some equity) m in
      gt (startOfDayBalance m') (Fin 0) = true ->
      gt (peakBalance m') (Fin 0) = true ->
      dailyDrawdowns m' !! utc_date now =
        Some (max (Fin 0) (div (sub (startOfDayBalance m') equity)
                               (startOfDayBalance m'))) /\
      totalDrawdown m' =
        max (Fin 0) (div (sub (peakBalance m') equity) (peakBalance m')))
  /\
  (forall (created initialized now : Z),
      let m0 := initialize initialized (lit 10000) (Some (lit 0.03))
                  (Some (lit 0.06)) (create created) in
      let m' := updateBalance now (lit 10000) (Some (lit 9600)) m0 in
      getCurrentDailyDrawdown now m' = lit 0.04 /\
      isDailyLimitExceeded now m' = true).
Proof.
  split.
  - intros now balance equity m m' Hsod Hpeak.
    destruct (updateBalance_drawdowns now balance (Some equity) m) as [Hd Ht].
    destruct (updateBalance_fields now balance (Some equity) m)
      as (_ & Heq & _).
    fold m' in Hd, Ht, Heq. change (currentEquity m' = equity) in Heq.
    rewrite Hsod, Heq in Hd. rewrite Heq in Ht. split; [exact Hd | now apply Ht].
  - intros created initialized now m0 m'.
    destruct (updateBalance_drawdowns now (lit 10000) (Some (lit 9600)) m0)
      as [Hd _].
    destruct (updateBalance_fields now (lit 10000) (Some (lit 9600)) m0)
      as (_ & Heq & _ & Hsod & _ & Hlim & _).
    fold m' in Hd, Heq, Hsod, Hlim. change (currentEquity m' = lit 9600) in Heq.
    change (maxDailyDrawdown m' = lit 0.03) in Hlim.
    assert (Hs : startOfDayBalance m' = lit 10000).
    { rewrite Hsod. now destruct (negb _). }
    unfold isDailyLimitExceeded, getCurrentDailyDrawdown.
    rewrite Hd, Hs, Heq, Hlim. split; reflexivity.
Qed.

(** The scenario of C5 at concrete times, and the general statement
    applied to it. *)
Lemma updateBalance_drawdown_from_equity_witness :
  let m' := updateBalance Scenario.thursday (lit 10000) (Some (lit 9600))
              Scenario.monitor in
  gt (startOfDayBalance m') (Fin 0) = true /\
  gt (peakBalance m') (Fin 0) = true /\
  dailyDrawdowns m' !! utc_date Scenario.thursday = Some (lit 0.04) /\
  totalDrawdown m' = lit 0.04.
Proof.
  intros m'.
  assert (Hsod : gt (startOfDayBalance m') (Fin 0) = true) by reflexivity.
  assert (Hpeak : gt (peakBalance m') (Fin 0) = true) by reflexivity.
  split; [exact Hsod|]. split; [exact Hpeak|].
  exact (proj1 updateBalance_drawdown_from_equity Scenario.thursday
           (lit 10000) (lit 9600) Scenario.monitor Hsod Hpeak).
Defined.

(** C2, what the code does.  When the UTC calendar date has advanced
    since the last update, [updateBalance(newBalance, equity)] sets
    the start-of-day balance of the new day to [newBalance]:
    [registerDayStart] is to "save the balance at the start of the
    day", but [updateBalance] has overwritten the current balance by
    the time it calls it, so the balance that the monitor held when
    the day began is lost. *)
Theorem updateBalance_rollover_startOfDay (now : Z) (newBalance : num)
    (equity : option num) (m : t) :
  utc_date now <> utc_date (lastUpdate m) ->
  startOfDayBalance (updateBalance now newBalance equity m) = newBalance.
Proof.
  intros Hday.
  destruct (updateBalance_fields now newBalance equity m)
    as (_ & _ & _ & Hsod & _).
  rewrite Hsod.
  destruct (Z.eqb_spec (utc_date now) (utc_date (lastUpdate m)));
    [contradiction | reflexivity].
Qed.

(** C2 on the first update of the day after [initialize(10000)]. *)
Lemma updateBalance_rollover_startOfDay_witness :
  utc_date Scenario.friday <> utc_date (lastUpdate Scenario.monitor) /\
  startOfDayBalance
    (updateBalance Scenario.friday (lit 9000) (Some (lit 8900)) Scenario.monitor)
  = lit 9000.
Proof.
  assert (H : utc_date Scenario.friday <> utc_date (lastUpdate Scenario.monitor))
    by (vm_compute; discriminate).
  split; [exact H|].
  exact (updateBalance_rollover_startOfDay Scenario.friday (lit 9000)
           (Some (lit 8900)) Scenario.monitor H).
Defined.

(** C2 fails on the code: the monitor holds a balance of 10000; the
    first update of the next day reports 9000, and the start-of-day
    balance of the new day is 9000, not the 10000 that the monitor
    held before, so the loss of 1000 does not count towards the daily
    drawdown of the new day. *)
Lemma updateBalance_rollover_counterexample :
  let m := Scenario.monitor in
  let m' := updateBalance Scenario.friday (lit 9000) (Some (lit 8900)) m in
  utc_date Scenario.friday <> utc_date (lastUpdate m) /\
  currentBalance m = lit 10000 /\
  startOfDayBalance m' = lit 9000 /\
  startOfDayBalance m' <> currentBalance m.
Proof.
  vm_compute. repeat split; discriminate.
Qed.

(** C7, as the code has it.  The two exceeded predicates hold exactly
    under the strict inequality drawdown > limit; [getWarningLevel()]
    is [critical] exactly when one of the two ratios drawdown / limit
    is >= 1.  Hence a drawdown equal to its limit, for a limit that is
    finite and not zero, is not exceeded and is critical.  (For a
    limit of zero the ratio 0/0 is NaN and is not >= 1.) *)
Theorem exceeded_strict_warning_inclusive (now : Z) (m : t) :
  let daily := getCurrentDailyDrawdown now m in
  let total := totalDrawdown m in
  (isDailyLimitExceeded now m = true <->
     cmp daily (maxDailyDrawdown m) = Some Gt) /\
  (isTotalLimitExceeded m = true <->
     cmp total (maxTotalDrawdown m) = Some Gt) /\
  (getWarningLevel now m = critical <->
     ge (div daily (maxDailyDrawdown m)) (Fin 1) = true \/
     ge (div total (maxTotalDrawdown m)) (Fin 1) = true) /\
  (forall q : Q,
      maxDailyDrawdown m = Fin q -> ~ (q == 0)%Q ->
      cmp daily (maxDailyDrawdown m) = Some Eq ->
      isDailyLimitExceeded now m = false /\ getWarningLevel now m = critical) /\
  (forall q : Q,
      maxTotalDrawdown m = Fin q -> ~ (q == 0)%Q ->
      cmp total (maxTotalDrawdown m) = Some Eq ->
      isTotalLimitExceeded m = false /\ getWarningLevel now m = critical).
Proof.
  intros daily total.
  assert (Hgt : forall a b, gt a b = true <-> cmp a b = Some Gt).
  { intros a b. unfold gt. destruct (cmp a b) as [[| |]|]; split; congruence. }
  assert (Hcrit : getWarningLevel now m = critical <->
                  ge (div daily (maxDailyDrawdown m)) (Fin 1) = true \/
                  ge (div total (maxTotalDrawdown m)) (Fin 1) = true).
  { unfold getWarningLevel. fold daily. fold total.
    destruct (ge (div daily (maxDailyDrawdown m)) (Fin 1));
      destruct (ge (div total (maxTotalDrawdown m)) (Fin 1)); cbn [orb];
      try (split; [intros _; auto | reflexivity]).
    split; [| intros [|]; discriminate].
    destruct (_ || _); discriminate. }
  split; [apply Hgt|]. split; [apply Hgt|]. split; [exact Hcrit|].
  split; intros q Hq Hnz Heq.
  - split; [now apply gt_false_of_eq|].
    apply Hcrit. left. rewrite Hq in *.
    destruct (cmp_eq_fin _ _ Heq) as (p & -> & Hpq).
    now apply div_self_ge_one.
  - split; [now apply gt_false_of_eq|].
    apply Hcrit. right. rewrite Hq in *.
    destruct (cmp_eq_fin _ _ Heq) as (p & -> & Hpq).
    now apply div_self_ge_one.
Qed.

(** C7 on [Scenario.monitor_at_limit], which sits on its daily limit
    of 3%: not exceeded, and critical. *)
Lemma exceeded_strict_warning_inclusive_witness :
  let m := Scenario.monitor_at_limit in
  let now := Scenario.thursday in
  maxDailyDrawdown m = Fin (3 # 100) /\
  ~ (3 # 100 == 0)%Q /\
  cmp (getCurrentDailyDrawdown now m) (maxDailyDrawdown m) = Some Eq /\
  isDailyLimitExceeded now m = false /\
  getWarningLevel now m = critical.
Proof.
  intros m now.
  assert (Hq : maxDailyDrawdown m = Fin (3 # 100)) by reflexivity.
  assert (Hnz : ~ (3 # 100 == 0)%Q) by discriminate.
  assert (Heq : cmp (getCurrentDailyDrawdown now m) (maxDailyDrawdown m) = Some Eq)
    by reflexivity.
  split; [exact Hq|]. split; [exact Hnz|]. split; [exact Heq|].
  exact (proj1 (proj2 (proj2 (proj2 (exceeded_strict_warning_inclusive now m))))
           (3 # 100) Hq Hnz Heq).
Defined.

(** C7, as the specification has it, fails for a limit of zero: with
    no drawdown the daily drawdown equals the daily limit, the limit
    is not exceeded, and the warning level is [safe]. *)
Lemma warning_level_zero_limit_counterexample :
  let m := updateBalance Scenario.thursday (lit 10000) (Some (lit 10000))
             Scenario.monitor_zero_limit in
  let now := Scenario.thursday in
  cmp (getCurrentDailyDrawdown now m) (maxDailyDrawdown m) = Some Eq /\
  isDailyLimitExceeded now m = false /\
  getWarningLevel now m = safe /\
  getWarningLevel now m <> critical.
Proof.
  vm_compute. repeat split; discriminate.
Qed.

End Monitor.

(** ** The rules engine *)

Section Engine.
Import RulesEngine.

Variables (now : Z) (this : Core) (request : Order.t) (profile : Profile.t).


(** When the loop ends normally, the violations it started with are
    still there, every evaluator has returned, and each one that
    returned an invalid result has left a violation under its name. *)
Lemma run_evaluators_ok (evaluators : list (string * Evaluator)) :
  forall ruleViolations warnings ruleViolations' warnings',
  run_evaluators now this request profile evaluators ruleViolations warnings
  = Ok (ruleViolations', warnings') ->
  (exists more, ruleViolations' = ruleViolations ++ more) /\
  (forall name evaluator,
      In (name, evaluator) evaluators ->
      exists result,
        evaluator now this request profile = Ok result /\
        (e_valid result = false ->
         exists v, In v ruleViolations' /\ rule v = name /\
                   severity v = default sev_error (e_severity result))).
Proof.
  induction evaluators as [|[name0 ev0] rest IH]; intros rv w rv' w' Hrun.
  - cbn in Hrun. injection Hrun as <- <-. split.
    + exists []. now rewrite app_nil_r.
    + intros ? ? [].
  - cbn [run_evaluators] in Hrun.
    destruct (ev0 now this request profile) as [res|e] eqn:E0; [|discriminate].
    cbn [bind] in Hrun.
    destruct (e_valid res) eqn:Hvalid; cbn [negb] in Hrun.
    + assert (Hrun' : run_evaluators now this request profile rest rv
                        (match e_severity res with
                         | Some sev_warning =>
                             w ++ [{| rule := name0; severity := sev_warning;
                                      message := e_message res;
                                      details := e_details res |}]
                         | _ => w
                         end) = Ok (rv', w')).
      { destruct (e_severity res) as [[| |]|]; exact Hrun. }
      destruct (IH _ _ _ _ Hrun') as [Hmore Hall]. split; [exact Hmore|].
      intros name ev [Heq | Hin]; [|now apply Hall].
      injection Heq as <- <-. exists res. split; [exact E0|]. congruence.
    + destruct (IH _ _ _ _ Hrun) as [[more Hmore] Hall]. split.
      * exists ([{| rule := name0;
                    severity := default sev_error (e_severity res);
                    message := e_message res;
                    details := e_details res |}] ++ more).
        now rewrite Hmore, app_assoc.
      * intros name ev [Heq | Hin]; [|now apply Hall].
        injection Heq as <- <-. exists res. split; [exact E0|].
        intros _.
        exists {| rule := name0;
                  severity := default sev_error (e_severity res);
                  message := e_message res;
                  details := e_details res |}.
        split; [|split; reflexivity].
        rewrite Hmore. apply in_or_app. left. apply in_or_app. right. now left.
Qed.

(** Without a throwing evaluator the loop ends normally. *)
Lemma run_evaluators_total (evaluators : list (string * Evaluator)) :
  no_evaluator_throws now this request profile evaluators ->
  forall ruleViolations warnings,
  exists ruleViolations' warnings',
    run_evaluators now this request profile evaluators ruleViolations warnings
    = Ok (ruleViolations', warnings').
Proof.
  induction evaluators as [|[name0 ev0] rest IH]; intros Hno rv w.
  - now exists rv, w.
  - cbn [run_evaluators].
    pose proof (Hno name0 ev0 (or_introl eq_refl)) as H0.
    destruct (ev0 now this request profile) as [res|]; [|discriminate].
    assert (Hno' : no_evaluator_throws now this request profile rest).
    { intros n ev Hi. apply (Hno n ev). now right. }
    cbn [bind]. destruct (negb (e_valid res)); [now apply IH|].
    destruct (e_severity res) as [[| |]|]; now apply IH.
Qed.

End Engine.

Section EvaluateTradeRequest.
Import RulesEngine.

Variables (now : Z) (e : t) (request : Order.t) (profile : Profile.t).



(** A result of [evaluateTradeRequest] that is not valid lists a
    violation. *)
Lemma evaluateTradeRequest_invalid_nonempty (p : option Profile.t) :
  valid (evaluateTradeRequest now e request p) = false ->
  exists v vs, rules (evaluateTradeRequest now e request p) = Some (v :: vs).
Proof.
  unfold evaluateTradeRequest.
  destruct (effective_profile e p) as [ap|]; [|discriminate].
  destruct (run_evaluators now (core e) request ap (ruleEvaluators e) [] [])
    as [[rv w]|msg]; cbn.
  - destruct rv as [|v rv]; [discriminate|]. intros _. now exists v, (rv ++ w).
  - intros _. eexists _, _. reflexivity.
Qed.

(** A valid result means that every evaluator returned a valid result. *)
Lemma evaluateTradeRequest_valid :
  valid (evaluateTradeRequest now e request (Some profile)) = true ->
  forall name evaluator,
    In (name, evaluator) (ruleEvaluators e) ->
    exists result,
      evaluator now (core e) request profile = Ok result /\
      e_valid result = true.
Proof.
  unfold evaluateTradeRequest. cbn [effective_profile].
  destruct (run_evaluators now (core e) request profile (ruleEvaluators e) [] [])
    as [[rv w]|msg] eqn:Hrun; cbn; [|discriminate].
  destruct rv as [|v rv]; [|discriminate]. intros _ name ev Hin.
  destruct (run_evaluators_ok _ _ _ _ _ _ _ _ _ Hrun) as [_ Hall].
  destruct (Hall name ev Hin) as (res & Hres & Hinv).
  exists res. split; [exact Hres|].
  destruct (e_valid res); [reflexivity|].
  destruct (Hinv eq_refl) as (v & [] & _).
Qed.

(** An evaluator that returns an invalid result makes the whole result
    invalid; the result names its rule unless another evaluator
    throws. *)
Lemma evaluateTradeRequest_invalid (name : string) (evaluator : Evaluator)
    (result : EvalResult) :
  In (name, evaluator) (ruleEvaluators e) ->
  evaluator now (core e) request profile = Ok result ->
  e_valid result = false ->
  valid (evaluateTradeRequest now e request (Some profile)) = false /\
  (no_evaluator_throws now (core e) request profile (ruleEvaluators e) ->
   has_rule name (evaluateTradeRequest now e request (Some profile))).
Proof.
  intros Hin Hres Hinvalid. unfold evaluateTradeRequest. cbn [effective_profile].
  destruct (run_evaluators now (core e) request profile (ruleEvaluators e) [] [])
    as [[rv w]|msg] eqn:Hrun; cbn.
  - destruct (run_evaluators_ok _ _ _ _ _ _ _ _ _ Hrun) as [_ Hall].
    destruct (Hall name evaluator Hin) as (res & Hres' & Hv).
    assert (res = result) by congruence. subst res.
    destruct (Hv Hinvalid) as (v & Hinv & Hrule & _). split.
    + destruct rv; [destruct Hinv | reflexivity].
    + intros _. exists v, (rv ++ w). split; [reflexivity|].
      split; [apply in_or_app; now left | exact Hrule].
  - split; [reflexivity|]. intros Hno. exfalso.
    destruct (run_evaluators_total _ _ _ _ _ Hno [] []) as (rv & w & Hok).
    congruence.
Qed.

End EvaluateTradeRequest.

(** ** The pre-execution validator *)

Section PreExecution.
Import Validator.

Variable api : Api.

Lemma _getAccountSize_returns : exists size, _getAccountSize api = Ok size.
Proof.
  unfold _getAccountSize.
  destruct (rulesEngine_currentBalance api); cbn; eauto.
Qed.

Lemma estimate_potentialLoss_returns (order : Order.t) :
  exists loss, estimate_potentialLoss api order = Ok loss.
Proof.
  unfold estimate_potentialLoss.
  destruct (_ && _); [eauto|].
  destruct _getAccountSize_returns as [size ->]. cbn. eauto.
Qed.

(** [checkDrawdownLimits] never throws, and what it rejects it rejects
    with one [drawdown_limit] violation of severity [error]. *)
Lemma checkDrawdownLimits_returns (now : Z) (potentialLoss : num) :
  exists r,
    checkDrawdownLimits api now potentialLoss = Ok r /\
    (valid r = false ->
     exists v, rules r = Some [v] /\ severity v = sev_error /\
               rule v = "drawdown_limit"%string).
Proof.
  unfold checkDrawdownLimits.
  destruct (isFXIFYModeActive api); cbn [negb];
    [|eexists; split; [reflexivity | discriminate]].
  destruct (getActiveProfile api) as [[p|]|]; cbn [bind try_catch];
    try (eexists; split; [reflexivity | discriminate]).
  destruct (rulesEngine_getDrawdownStatus api now) as [status|]; cbn [bind try_catch];
    try (eexists; split; [reflexivity | discriminate]).
  destruct _getAccountSize_returns as [size ->]. cbn [bind try_catch].
  destruct (gt _ _); cbn [try_catch].
  { eexists; split; [reflexivity|]. intros _. eexists. now repeat split. }
  destruct (gt _ _); cbn [try_catch].
  { eexists; split; [reflexivity|]. intros _. eexists. now repeat split. }
  destruct (DrawdownMonitor.s_warningLevel status); cbn [try_catch];
    eexists; (split; [reflexivity | discriminate]).
Qed.

(** [checkTradingHours] never throws; it rejects with one
    [trading_hours] violation of severity [error], on Saturdays and
    Sundays only. *)
Lemma checkTradingHours_returns (now : Z) (symbol : option string) :
  exists r,
    checkTradingHours api now symbol = Ok r /\
    (valid r = false ->
     exists v, rules r = Some [v] /\ severity v = sev_error /\
               rule v = "trading_hours"%string) /\
    (getUTCDay now <> 0 -> getUTCDay now <> 6 -> valid r = true).
Proof.
  unfold checkTradingHours.
  destruct (isFXIFYModeActive api); cbn [negb];
    [|eexists; split; [reflexivity | split; [discriminate | reflexivity]]].
  destruct (getActiveProfile api) as [[p|]|]; cbn [bind try_catch];
    try (eexists; split; [reflexivity | split; [discriminate | reflexivity]]).
  destruct (Z.eqb_spec (getUTCDay now) 0) as [H0|H0]; cbn [orb try_catch].
  { eexists; split; [reflexivity|]. split; [|contradiction].
    intros _. eexists. now repeat split. }
  destruct (Z.eqb_spec (getUTCDay now) 6) as [H6|H6]; cbn [try_catch].
  { eexists; split; [reflexivity|]. split; [|contradiction].
    intros _. eexists. now repeat split. }
  destruct symbol as [[|c s]|]; [| destruct (_isForexPair _) |];
    eexists; (split; [reflexivity | split; [discriminate | reflexivity]]).
Qed.

(** [checkNewsEvents] always reports that it is safe to trade. *)
Lemma checkNewsEvents_safe (symbol : option string) :
  exists status,
    checkNewsEvents api symbol = Ok status /\ safeToTrade status = true.
Proof.
  unfold checkNewsEvents.
  destruct (_ || _); [now eexists|].
  destruct (getActiveProfile api) as [[p|]|]; cbn [bind try_catch];
    try (now eexists).
  destruct symbol as [[|c s]|]; cbn [try_catch]; try (now eexists).
  destruct (Profile.allowNewsTrading p); cbn [try_catch]; [now eexists|].
  destruct (rulesEngine_tradingCalendar api); now eexists.
Qed.

(** The paths of [validateOrder] under an active profile: the
    rejection of the drawdown check, else the rejection of the
    trading-hours check, else the verdict of the rules, with the
    [validation_error] result when asking for it throws. *)
Lemma validateOrder_paths (now : Z) (order : Order.t) (profile : Profile.t) :
  isFXIFYModeActive api = true ->
  getActiveProfile api = Ok (Some profile) ->
  exists potentialLoss drawdownCheck tradingHoursCheck,
    estimate_potentialLoss api order = Ok potentialLoss /\
    checkDrawdownLimits api now potentialLoss = Ok drawdownCheck /\
    checkTradingHours api now (Order.symbol order) = Ok tradingHoursCheck /\
    validateOrder api now order =
      if negb (valid drawdownCheck) then Ok drawdownCheck
      else if negb (valid tradingHoursCheck) then Ok tradingHoursCheck
      else try_catch
             (validateTradeAgainstRules api now
                (Order.with_potentialLoss potentialLoss order))
             (fun error_message => Ok (validation_error error_message)).
Proof.
  intros Hactive Hprofile.
  destruct (estimate_potentialLoss_returns order) as [loss Hloss].
  destruct (checkDrawdownLimits_returns now loss) as (dc & Hdc & _).
  destruct (checkTradingHours_returns now (Order.symbol order)) as (th & Hth & _).
  destruct (checkNewsEvents_safe (Order.symbol order)) as (news & Hnews & Hsafe).
  exists loss, dc, th. repeat (split; [assumption|]).
  unfold validateOrder. rewrite Hactive, Hprofile. cbn [negb bind].
  rewrite Hloss. cbn [bind]. rewrite Hdc. cbn [bind].
  destruct (valid dc); cbn [negb]; [|reflexivity].
  rewrite Hth. cbn [bind].
  destruct (valid th); cbn [negb]; [|reflexivity].
  rewrite Hnews. cbn [bind]. rewrite Hsafe. cbn [negb].
  reflexivity.
Qed.

(** [validateOrder] never throws. *)
Lemma validateOrder_returns (now : Z) (order : Order.t) :
  exists r, validateOrder api now order = Ok r.
Proof.
  destruct (isFXIFYModeActive api) eqn:Hactive;
    [|unfold validateOrder; rewrite Hactive; now eexists].
  destruct (getActiveProfile api) as [[p|]|] eqn:Hprofile.
  - destruct (validateOrder_paths now order p Hactive Hprofile)
      as (loss & dc & th & _ & _ & _ & ->).
    destruct (negb (valid dc)); [now eexists|].
    destruct (negb (valid th)); [now eexists|].
    destruct (validateTradeAgainstRules api now _); now eexists.
  - unfold validateOrder. rewrite Hactive, Hprofile. now eexists.
  - unfold validateOrder. rewrite Hactive, Hprofile. now eexists.
Qed.

End PreExecution.

(** ** Exceptions during validation (C1) *)

Section FailClosed.
Import Validator.



Lemma api_of_getActiveProfile (m : ModeManager.t) (profile : Profile.t) :
  ModeManager.activeProfile m = Some profile ->
  getActiveProfile (api_of m) = Ok (Some profile).
Proof.
  intros Hprofile. unfold api_of, ModeManager.getActiveProfile.
  cbn [getActiveProfile]. now rewrite Hprofile.
Qed.

(** The rules as the repository's manager asks for them. *)
Lemma api_of_validateTradeAgainstRules (now : Z) (m : ModeManager.t)
    (profile : Profile.t) (request : Order.t) :
  ModeManager.isActive m = true ->
  ModeManager.activeProfile m = Some profile ->
  validateTradeAgainstRules (api_of m) now request =
    Ok (RulesEngine.evaluateTradeRequest now (ModeManager.rulesEngine m)
          request (Some profile)).
Proof.
  intros Hactive Hprofile. cbn.
  unfold ModeManager.validateTradeAgainstRules. now rewrite Hactive, Hprofile.
Qed.




End FailClosed.

(** ** News events (C3) *)

Section News.
Import Validator.

(** The [news_trading] evaluator rejects an order on a symbol with an
    active high-impact event, when the profile forbids news trading. *)
Lemma news_trading_rejects (now : Z) (this : RulesEngine.Core)
    (request : Order.t) (profile : Profile.t) (calendar : Calendar)
    (symbol : string) :
  Profile.allowNewsTrading profile = false ->
  RulesEngine.tradingCalendar this = Some calendar ->
  Order.symbol request = Some symbol ->
  symbol <> EmptyString ->
  isHighImpactEventActive calendar now symbol = Ok true ->
  exists result,
    RulesEngine.news_trading now this request profile = Ok result /\
    RulesEngine.e_valid result = false.
Proof.
  intros Hallow Hcal Hsym Hne Hactive. unfold RulesEngine.news_trading.
  rewrite Hallow, Hcal, Hsym.
  destruct symbol as [|c s]; [contradiction|].
  cbn [truthy_str]. rewrite Hactive. cbn [bind]. now eexists.
Qed.

(** C3, as the code has it.  Under an active profile that forbids news
    trading, with a high-impact event active on the calendar for the
    symbol of the order, [validateOrder] returns valid = false.  The
    result carries the [news_trading] violation of the rules engine
    when the order is rejected neither by the drawdown check nor by
    the weekend check, which return first with their own violation
    (and when no other evaluator throws). *)
Theorem active_news_event_rejects_order (now : Z) (m : ModeManager.t)
    (order : Order.t) (profile : Profile.t) (calendar : Calendar)
    (symbol : string) :
  let engine := ModeManager.rulesEngine m in
  ModeManager.isActive m = true ->
  ModeManager.activeProfile m = Some profile ->
  Profile.allowNewsTrading profile = false ->
  RulesEngine.tradingCalendar (RulesEngine.core engine) = Some calendar ->
  Order.symbol order = Some symbol ->
  symbol <> EmptyString ->
  isHighImpactEventActive calendar now symbol = Ok true ->
  In ("news_trading"%string, RulesEngine.news_trading)
     (RulesEngine.ruleEvaluators engine) ->
  exists r,
    validateOrder (api_of m) now order = Ok r /\
    valid r = false /\
    (forall loss drawdownCheck,
        estimate_potentialLoss (api_of m) order = Ok loss ->
        checkDrawdownLimits (api_of m) now loss = Ok drawdownCheck ->
        valid drawdownCheck = true ->
        getUTCDay now <> 0 -> getUTCDay now <> 6 ->
        RulesEngine.no_evaluator_throws now (RulesEngine.core engine)
          (Order.with_potentialLoss loss order) profile
          (RulesEngine.ruleEvaluators engine) ->
        has_rule "news_trading" r).
Proof.
  intros engine Hactive Hprofile Hallow Hcal Hsym Hne Hevent Hin.
  destruct (validateOrder_paths (api_of m) now order profile)
    as (loss & dc & th & Hloss & Hdc & Hth & ->);
    [exact Hactive | now apply api_of_getActiveProfile |].
  destruct (checkTradingHours_returns (api_of m) now (Order.symbol order))
    as (th' & Hth' & _ & Hweekday).
  assert (th' = th) by congruence. subst th'.
  destruct (news_trading_rejects now (RulesEngine.core engine)
              (Order.with_potentialLoss loss order) profile calendar symbol
              Hallow Hcal Hsym Hne Hevent) as (res & Hres & Hinvalid).
  destruct (evaluateTradeRequest_invalid now engine
              (Order.with_potentialLoss loss order) profile
              "news_trading" RulesEngine.news_trading res Hin Hres Hinvalid)
    as [Hfalse Hrule].
  rewrite (api_of_validateTradeAgainstRules now m profile _ Hactive Hprofile).
  cbn [try_catch]. fold engine.
  destruct (valid dc) eqn:Vdc; cbn [negb].
  2:{ exists dc. split; [reflexivity|]. split; [exact Vdc|].
      intros loss' dc' Hloss' Hdc' Hv. congruence. }
  destruct (valid th) eqn:Vth; cbn [negb].
  2:{ exists th. split; [reflexivity|]. split; [exact Vth|].
      intros loss' dc' _ _ _ H0 H6. discriminate (Hweekday H0 H6). }
  eexists. split; [reflexivity|]. split; [exact Hfalse|].
  intros loss' dc' Hloss' _ _ _ _ Hno.
  assert (loss' = loss) by congruence. subst loss'. now apply Hrule.
Qed.

(** C3 on a Thursday: the event is active on EURUSD and the order is
    rejected with the [news_trading] violation. *)
Lemma active_news_event_rejects_order_witness :
  let profile := Scenario.profile None in
  let m := Scenario.manager (Some Scenario.calendar_active) profile
             RulesEngine.builtin_evaluators in
  let order := Scenario.order (Some (lit 0.5)) in
  let now := Scenario.thursday in
  (ModeManager.isActive m = true /\
   ModeManager.activeProfile m = Some profile /\
   Profile.allowNewsTrading profile = false /\
   RulesEngine.tradingCalendar (RulesEngine.core (ModeManager.rulesEngine m))
     = Some Scenario.calendar_active /\
   Order.symbol order = Some "EURUSD"%string /\
   "EURUSD"%string <> EmptyString /\
   isHighImpactEventActive Scenario.calendar_active now "EURUSD" = Ok true /\
   In ("news_trading"%string, RulesEngine.news_trading)
      (RulesEngine.ruleEvaluators (ModeManager.rulesEngine m))) /\
  exists r,
    validateOrder (api_of m) now order = Ok r /\
    valid r = false /\
    has_rule "news_trading" r.
Proof.
  intros profile m order now.
  assert (Hne : "EURUSD"%string <> EmptyString) by discriminate.
  assert (Hin : In ("news_trading"%string, RulesEngine.news_trading)
                   (RulesEngine.ruleEvaluators (ModeManager.rulesEngine m)))
    by (cbn; tauto).
  split; [repeat split; assumption|].
  destruct (active_news_event_rejects_order now m order profile
              Scenario.calendar_active "EURUSD" eq_refl eq_refl eq_refl
              eq_refl eq_refl Hne eq_refl Hin) as (r & Hr & Hvalid & Hrule).
  exists r. split; [exact Hr|]. split; [exact Hvalid|].
  apply (Hrule (lit 100) bare_valid); try reflexivity; try discriminate.
  intros name ev Hev. cbn in Hev.
  destruct Hev as [Hev|[Hev|[Hev|[Hev|[]]]]]; injection Hev as <- <-;
    reflexivity.
Defined.

(** C3, as the specification has it, fails on a weekend: the event is
    active on EURUSD and the profile forbids news trading, yet the
    order of a Saturday is rejected by the trading-hours check alone,
    and the result carries no [news_trading] violation. *)
Lemma news_event_on_weekend_counterexample :
  let profile := Scenario.profile None in
  let m := Scenario.manager (Some Scenario.calendar_active) profile
             RulesEngine.builtin_evaluators in
  let order := Scenario.order (Some (lit 0.5)) in
  let now := Scenario.saturday in
  Profile.allowNewsTrading profile = false /\
  isHighImpactEventActive Scenario.calendar_active now "EURUSD" = Ok true /\
  exists r,
    validateOrder (api_of m) now order = Ok r /\
    ~ has_rule "news_trading" r.
Proof.
  split; [reflexivity|]. split; [reflexivity|].
  eexists. split; [vm_compute; reflexivity|].
  intros (v & vs & Hr & Hin & Hrule).
  injection Hr as <-. destruct Hin as [<-|[]]. discriminate.
Qed.

End News.

(** ** The socket of the MT5 adapter (C9) *)

Section Transport.
Import MT5.

Lemma rejected_with_app (message : string) (xs ys : list Effect) :
  rejected_with message (xs ++ ys)
  = rejected_with message xs ++ rejected_with message ys.
Proof. unfold rejected_with. apply flat_map_app. Qed.

Lemma resolved_app (xs ys : list Effect) :
  resolved (xs ++ ys) = resolved xs ++ resolved ys.
Proof. unfold resolved. apply flat_map_app. Qed.

(** Rejecting every entry of the map rejects exactly its keys, in
    their order. *)
Lemma rejections_of_callbacks (message : string)
    (cbs : list (positive * string)) :
  rejected_with message (map (fun cb => Rejected (fst cb) message) cbs)
  = map fst cbs /\
  resolved (map (fun cb => Rejected (fst cb) message) cbs) = [].
Proof.
  unfold rejected_with, resolved.
  induction cbs as [|cb cbs [IHr IHs]]; [split; reflexivity|].
  cbn [map flat_map]. rewrite String.eqb_refl, IHr, IHs. split; reflexivity.
Qed.

(** C9.  When the ['close'] event of the socket fires, every request
    of the pending-request map is rejected with the error
    "Connection closed", none is resolved, and the map is left empty. *)
Theorem on_close_rejects_all_pending (b : t) :
  let b' := fst (on_close b) in
  let effects := snd (on_close b) in
  callbacks b' = [] /\
  rejected_with "Connection closed" effects = map fst (callbacks b) /\
  resolved effects = [] /\
  connected b' = false.
Proof.
  destruct (rejections_of_callbacks "Connection closed" (callbacks b))
    as [Hrej Hres].
  unfold on_close.
  destruct (connected b); cbn [fst snd callbacks connected reconnectAttempts
                                 maxReconnectAttempts];
    [destruct (reconnectAttempts b <? maxReconnectAttempts b);
     cbn [fst snd callbacks connected]|];
    rewrite ?rejected_with_app, ?resolved_app, Hrej, Hres;
    cbn; rewrite ?app_nil_r; repeat split; reflexivity.
Qed.

End Transport.

(** ** The risk-gated adapter (C4, C6, C8, C10) *)

Section Adapter.
Import FxifyMT5.

(** What [validateAgainstFXIFYRules] returns in FXIFY mode is the
    verdict of [validateOrder]. *)
Lemma validateAgainstFXIFYRules_active (now : Z) (order : Order.t) (s : t) :
  isFXIFYModeActive s = true ->
  Validator.validateOrder (Validator.api_of (fxifyModeManager s)) now order
  = Ok (validateAgainstFXIFYRules now order s).
Proof.
  intros Hactive. unfold validateAgainstFXIFYRules. rewrite Hactive.
  cbn [negb].
  destruct (validateOrder_returns (Validator.api_of (fxifyModeManager s))
              now order) as [r ->].
  reflexivity.
Qed.

(** A verdict of [validateOrder] that is not valid lists a violation. *)
Lemma validateOrder_invalid_nonempty (now : Z) (m : ModeManager.t)
    (order : Order.t) (r : ValidationResult) :
  Validator.validateOrder (Validator.api_of m) now order = Ok r ->
  valid r = false ->
  exists v vs, rules r = Some (v :: vs).
Proof.
  intros Hr Hinvalid.
  destruct (ModeManager.isActive m) eqn:Hactive.
  2:{ unfold Validator.validateOrder in Hr. cbn in Hr.
      unfold ModeManager.isFXIFYModeActive in Hr. rewrite Hactive in Hr.
      injection Hr as <-. discriminate. }
  destruct (ModeManager.activeProfile m) as [profile|] eqn:Hprofile.
  2:{ unfold Validator.validateOrder in Hr. cbn in Hr.
      unfold ModeManager.isFXIFYModeActive, ModeManager.getActiveProfile in Hr.
      rewrite Hactive, Hprofile in Hr. injection Hr as <-. discriminate. }
  destruct (validateOrder_paths (Validator.api_of m) now order profile)
    as (loss & dc & th & _ & Hdc & Hth & Hpaths);
    [exact Hactive | now apply api_of_getActiveProfile |].
  rewrite Hpaths in Hr. clear Hpaths.
  destruct (checkDrawdownLimits_returns (Validator.api_of m) now loss)
    as (dc' & Hdc' & Hdcv).
  destruct (checkTradingHours_returns (Validator.api_of m) now
              (Order.symbol order)) as (th' & Hth' & Hthv & _).
  assert (dc' = dc) by congruence. assert (th' = th) by congruence.
  subst dc' th'.
  destruct (valid dc) eqn:Vdc; cbn [negb] in Hr.
  2:{ injection Hr as <-. destruct (Hdcv eq_refl) as (v & -> & _).
      now exists v, []. }
  destruct (valid th) eqn:Vth; cbn [negb] in Hr.
  2:{ injection Hr as <-. destruct (Hthv eq_refl) as (v & -> & _).
      now exists v, []. }
  rewrite (api_of_validateTradeAgainstRules now m profile _ Hactive Hprofile)
    in Hr.
  cbn [try_catch] in Hr. injection Hr as <-.
  now apply evaluateTradeRequest_invalid_nonempty.
Qed.

(** C4.  In FXIFY mode, when the validation of an order fails,
    [placeMarketOrder] returns (it does not throw) the object
    [{ success: false, message, violations }] with the violations of
    the verdict; it emits them under ['fxify:rule_violation']; and the
    adapter it extends is left as it was, no request having been sent
    to the bridge. *)
Theorem rule_violation_is_returned (bridge : MT5.Bridge) (now : Z)
    (order : Order.t) (s : t) :
  isFXIFYModeActive s = true ->
  valid (validateAgainstFXIFYRules now order s) = false ->
  exists first violations,
    rules (validateAgainstFXIFYRules now order s) = Some (first :: violations) /\
    placeMarketOrder bridge now order s =
      (Ok (MT5.Rejection
             (Txt "FXIFY rule violation: " :: interp_msg (message first))
             (first :: violations)),
       {| base := base s;
          fxifyModeManager := fxifyModeManager s;
          emitted := emitted s
                     ++ [("fxify:rule_violation"%string, first :: violations)] |}).
Proof.
  intros Hactive Hinvalid.
  destruct (validateOrder_invalid_nonempty now (fxifyModeManager s) order _
              (validateAgainstFXIFYRules_active now order s Hactive) Hinvalid)
    as (v & vs & Hrules).
  exists v, vs. split; [exact Hrules|].
  unfold placeMarketOrder. rewrite Hactive, Hinvalid, Hrules. reflexivity.
Qed.

(** C4 on an order of 2.5 lots under a trade size limit of 1 lot. *)
Lemma rule_violation_is_returned_witness :
  let s := Scenario.adapter
             (Scenario.manager None (Scenario.profile (Some (lit 1)))
                RulesEngine.builtin_evaluators) in
  let order := Scenario.order (Some (lit 2.5)) in
  let now := Scenario.thursday in
  isFXIFYModeActive s = true /\
  valid (validateAgainstFXIFYRules now order s) = false /\
  exists first violations,
    rule first = "trade_size_limit"%string /\
    placeMarketOrder Scenario.bridge now order s =
      (Ok (MT5.Rejection
             (Txt "FXIFY rule violation: " :: interp_msg (message first))
             (first :: violations)),
       {| base := base s;
          fxifyModeManager := fxifyModeManager s;
          emitted := [("fxify:rule_violation"%string, first :: violations)] |}).
Proof.
  intros s order now.
  assert (Hactive : isFXIFYModeActive s = true) by reflexivity.
  assert (Hinvalid : valid (validateAgainstFXIFYRules now order s) = false)
    by reflexivity.
  split; [exact Hactive|]. split; [exact Hinvalid|].
  destruct (rule_violation_is_returned Scenario.bridge now order s
              Hactive Hinvalid) as (first & violations & Hrules & Hplace).
  exists first, violations. split; [|exact Hplace].
  assert (Hr : exists v, rules (validateAgainstFXIFYRules now order s) = Some [v]
                         /\ rule v = "trade_size_limit"%string)
    by (eexists; split; reflexivity).
  destruct Hr as (v & Hr & Hrule).
  rewrite Hr in Hrules. injection Hrules as <- <-. exact Hrule.
Defined.

(** C8.  With FXIFY mode off, [placeMarketOrder] is the
    [placeMarketOrder] of the adapter it extends, on the same order
    parameters: the same result (or the same exception), the same
    effect on the connection; the mode manager, its drawdown monitor
    included, is not touched and no event is emitted. *)
Theorem inactive_mode_delegates (bridge : MT5.Bridge) (now : Z)
    (order : Order.t) (s : t) :
  isFXIFYModeActive s = false ->
  placeMarketOrder bridge now order s =
    (fst (MT5.placeMarketOrder bridge order (base s)),
     {| base := snd (MT5.placeMarketOrder bridge order (base s));
        fxifyModeManager := fxifyModeManager s;
        emitted := emitted s |}).
Proof.
  intros Hactive. unfold placeMarketOrder. rewrite Hactive. cbn [negb].
  unfold super, set_base.
  now destruct (MT5.placeMarketOrder bridge order (base s)).
Qed.

(** C8 on an order of 2.5 lots, on a Saturday, with FXIFY mode off. *)
Lemma inactive_mode_delegates_witness :
  let s := Scenario.adapter Scenario.manager_off in
  let order := Scenario.order (Some (lit 2.5)) in
  isFXIFYModeActive s = false /\
  placeMarketOrder Scenario.bridge Scenario.saturday order s =
    (fst (MT5.placeMarketOrder Scenario.bridge order (base s)),
     {| base := snd (MT5.placeMarketOrder Scenario.bridge order (base s));
        fxifyModeManager := fxifyModeManager s;
        emitted := emitted s |}).
Proof.
  intros s order.
  assert (Hactive : isFXIFYModeActive s = false) by reflexivity.
  split; [exact Hactive|].
  exact (inactive_mode_delegates Scenario.bridge Scenario.saturday order s
           Hactive).
Defined.

(** A valid verdict of the [trade_size_limit] evaluator under a
    positive limit: the volume is not above the limit. *)
Lemma trade_size_limit_valid (now : Z) (this : RulesEngine.Core)
    (request : Order.t) (profile : Profile.t) (limit : num)
    (result : RulesEngine.EvalResult) :
  Profile.tradeSizeLimit profile = Some limit ->
  gt limit (Fin 0) = true ->
  RulesEngine.trade_size_limit now this request profile = Ok result ->
  RulesEngine.e_valid result = true ->
  gt (to_num (Order.volume request)) limit = false.
Proof.
  intros Hlimit Hpos Hres Hvalid. unfold RulesEngine.trade_size_limit in Hres.
  rewrite Hlimit in Hres. cbn [truthy_opt to_num] in Hres.
  rewrite (gt_zero_truthy limit Hpos) in Hres. cbn [negb orb] in Hres.
  destruct (gt (to_num (Order.volume request)) limit) eqn:Hgt; [|reflexivity].
  pose proof (gt_positive_truthy _ _ Hgt Hpos) as Htruthy.
  assert (Hvol : truthy_opt (Order.volume request) = true).
  { destruct (Order.volume request); [exact Htruthy | discriminate Htruthy]. }
  rewrite Hvol in Hres. cbn [negb] in Hres. injection Hres as <-.
  discriminate Hvalid.
Qed.

(** C10, as the code has it.  For an order that passes the validation
    in FXIFY mode under an active profile with a positive
    [tradeSizeLimit], [applyFXIFYConstraints] changes the comment only:
    the order that [placeMarketOrder] hands to the adapter it extends
    has the volume of the caller, and for comment the comment of the
    caller ('SAITRAPP' when it has none or an empty one) after
    'FXIFY: '.  The volume is never clamped, the [trade_size_limit]
    evaluator having rejected any volume above the limit. *)
Theorem constraints_change_comment_only (bridge : MT5.Bridge) (now : Z)
    (order : Order.t) (s : t) (profile : Profile.t) (limit : num) :
  let adjusted :=
    Order.with_comment ("FXIFY: " ++ str_or (Order.comment order) "SAITRAPP")
      order in
  isFXIFYModeActive s = true ->
  ModeManager.activeProfile (fxifyModeManager s) = Some profile ->
  Profile.tradeSizeLimit profile = Some limit ->
  gt limit (Fin 0) = true ->
  In ("trade_size_limit"%string, RulesEngine.trade_size_limit)
     (RulesEngine.ruleEvaluators (ModeManager.rulesEngine (fxifyModeManager s))) ->
  valid (validateAgainstFXIFYRules now order s) = true ->
  applyFXIFYConstraints order s = adjusted /\
  Order.volume (applyFXIFYConstraints order s) = Order.volume order /\
  placeMarketOrder bridge now order s =
    after_order bridge now (super (MT5.placeMarketOrder bridge adjusted) s).
Proof.
  intros adjusted Hactive Hprofile Hlimit Hpos Hin Hvalid.
  set (m := fxifyModeManager s) in *.
  assert (Hm : ModeManager.isActive m = true) by exact Hactive.
  pose proof (validateAgainstFXIFYRules_active now order s Hactive) as Hr.
  fold m in Hr.
  destruct (validateOrder_paths (Validator.api_of m) now order profile)
    as (loss & dc & th & _ & _ & _ & Hpaths);
    [exact Hm | now apply api_of_getActiveProfile |].
  rewrite Hpaths in Hr. clear Hpaths.
  assert (Hgt : gt (to_num (Order.volume order)) limit = false).
  { destruct (valid dc) eqn:Vdc; cbn [negb] in Hr;
      [|injection Hr as Hr; rewrite <- Hr in Hvalid; congruence].
    destruct (valid th) eqn:Vth; cbn [negb] in Hr;
      [|injection Hr as Hr; rewrite <- Hr in Hvalid; congruence].
    rewrite (api_of_validateTradeAgainstRules now m profile _ Hm Hprofile) in Hr.
    cbn [try_catch] in Hr. injection Hr as Hr. rewrite <- Hr in Hvalid.
    destruct (evaluateTradeRequest_valid now (ModeManager.rulesEngine m)
                (Order.with_potentialLoss loss order) profile Hvalid
                _ _ Hin) as (res & Hres & Hresv).
    exact (trade_size_limit_valid now _ _ profile limit res Hlimit Hpos
             Hres Hresv). }
  assert (Happly : applyFXIFYConstraints order s = adjusted).
  { unfold applyFXIFYConstraints. rewrite Hactive. cbn [negb].
    fold m. unfold ModeManager.getActiveProfile. rewrite Hprofile, Hlimit.
    cbn [to_num]. rewrite Hgt, andb_false_r. reflexivity. }
  split; [exact Happly|]. split; [now rewrite Happly|].
  unfold placeMarketOrder. rewrite Hactive, Hvalid. cbn [negb].
  now rewrite Happly.
Qed.

(** C10 on an order of half a lot under a limit of one lot. *)
Lemma constraints_change_comment_only_witness :
  let profile := Scenario.profile (Some (lit 1)) in
  let s := Scenario.adapter
             (Scenario.manager None profile RulesEngine.builtin_evaluators) in
  let order := Scenario.order (Some (lit 0.5)) in
  let now := Scenario.thursday in
  (isFXIFYModeActive s = true /\
   ModeManager.activeProfile (fxifyModeManager s) = Some profile /\
   Profile.tradeSizeLimit profile = Some (lit 1) /\
   gt (lit 1) (Fin 0) = true /\
   valid (validateAgainstFXIFYRules now order s) = true) /\
  Order.volume (applyFXIFYConstraints order s) = Some (lit 0.5) /\
  Order.comment (applyFXIFYConstraints order s) = Some "FXIFY: SAITRAPP"%string.
Proof.
  intros profile s order now.
  assert (Hin : In ("trade_size_limit"%string, RulesEngine.trade_size_limit)
                   (RulesEngine.ruleEvaluators
                      (ModeManager.rulesEngine (fxifyModeManager s))))
    by (cbn; tauto).
  split; [repeat split; reflexivity|].
  destruct (constraints_change_comment_only Scenario.bridge now order s
              profile (lit 1) eq_refl eq_refl eq_refl eq_refl Hin eq_refl)
    as (Happly & Hvolume & _).
  split; [exact Hvolume | now rewrite Happly].
Defined.

(** C10, as the specification has it, fails for a negative limit: an
    order of volume 0 under a [tradeSizeLimit] of -1 passes the
    validation (the evaluator skips an order without volume), and
    [applyFXIFYConstraints] sets its volume to -1. *)
Lemma negative_limit_clamps_counterexample :
  let profile := Scenario.profile (Some (Fin (-1))) in
  let s := Scenario.adapter
             (Scenario.manager None profile RulesEngine.builtin_evaluators) in
  let order := Scenario.order (Some (Fin 0)) in
  let now := Scenario.thursday in
  isFXIFYModeActive s = true /\
  ModeManager.activeProfile (fxifyModeManager s) = Some profile /\
  Profile.tradeSizeLimit profile = Some (Fin (-1)) /\
  valid (validateAgainstFXIFYRules now order s) = true /\
  Order.volume order = Some (Fin 0) /\
  Order.volume (applyFXIFYConstraints order s) = Some (Fin (-1)) /\
  Order.volume (applyFXIFYConstraints order s) <> Order.volume order.
Proof.
  repeat split; try reflexivity. discriminate.
Qed.

(** ** Closing all positions (C6) *)








End Adapter.

(* ================================================================== *)
(** * Further properties of the code *)
(* ================================================================== *)

(** ** Order on numbers *)

Lemma gt_irrefl (a : num) : gt a a = false.
Proof.
  destruct a as [| |x|]; try reflexivity.
  unfold gt. cbn. assert (H : (x ?= x)%Q = Eq) by (apply Qeq_alt; reflexivity).
  now rewrite H.
Qed.

Lemma gt_asym (a b : num) : gt a b = true -> gt b a = false.
Proof.
  destruct a as [| |x|], b as [| |y|]; cbn; try discriminate; try reflexivity.
  unfold gt. cbn. rewrite <- (Qcompare_antisym x y).
  destruct (x ?= y)%Q; cbn; congruence.
Qed.

(** Two numbers, neither of them NaN, compare. *)
Lemma ge_of_not_gt (a b : num) :
  a <> NaN -> b <> NaN -> gt b a = false -> ge a b = true.
Proof.
  destruct a as [| |x|], b as [| |y|]; cbn; try congruence; try reflexivity.
  unfold gt, ge. cbn. rewrite <- (Qcompare_antisym y x).
  destruct (y ?= x)%Q; cbn; congruence.
Qed.

Lemma ge_refl (a : num) : a <> NaN -> ge a a = true.
Proof. intros H. apply ge_of_not_gt; try assumption. apply gt_irrefl. Qed.

(** [Math.max(0, x)] is never negative. *)
Lemma max_zero_not_negative (x : num) : gt (Fin 0) (max (Fin 0) x) = false.
Proof.
  unfold max. destruct (cmp (Fin 0) x) as [[| |]|] eqn:E; try reflexivity.
  unfold gt. destruct x as [| |y|]; cbn in *; try discriminate; try reflexivity.
  injection E as E. now rewrite E.
Qed.

Lemma or_else_zero_not_negative (v : num) :
  gt (Fin 0) v = false -> gt (Fin 0) (or_else v (Fin 0)) = false.
Proof. unfold or_else. now destruct (truthy v). Qed.

Section MonitorInvariants.
Import DrawdownMonitor.

Ltac monitor_fields :=
  cbn [dailyDrawdowns maxDailyDrawdown totalDrawdown maxTotalDrawdown
       initialBalance startOfDayBalance currentBalance currentEquity
       peakBalance drawdownHistory lastUpdate
       set_dailyDrawdowns set_totalDrawdown set_startOfDayBalance
       set_balance_equity set_peakBalance set_drawdownHistory
       set_lastUpdate] in *.

Ltac monitor_ifs :=
  repeat match goal with
         | |- context [if ?c then _ else _] => destruct c eqn:?; monitor_fields
         end.

(** The total drawdown and the history that [updateBalance] leaves. *)
Lemma updateBalance_total (now : Z) (newBalance : num) (equity : option num)
    (m : t) :
  let m' := updateBalance now newBalance equity m in
  initialBalance m' = initialBalance m /\
  totalDrawdown m' =
    (if gt (peakBalance m') (Fin 0)
     then max (Fin 0) (div (sub (peakBalance m') (currentEquity m'))
                           (peakBalance m'))
     else if gt (initialBalance m) (Fin 0)
     then max (Fin 0) (div (sub (initialBalance m) (currentEquity m'))
                           (initialBalance m))
     else totalDrawdown m).
Proof.
  unfold updateBalance, _updateDrawdownHistory, _calculateDrawdowns,
    registerDayStart.
  monitor_fields. monitor_ifs; split; congruence.
Qed.

(** X1.  [updateBalance] never lowers the peak balance, and the peak it
    leaves is at least the balance it was given (for numbers that are
    not NaN). *)
Theorem updateBalance_peak_monotone (now : Z) (newBalance : num)
    (equity : option num) (m : t) :
  peakBalance m <> NaN -> newBalance <> NaN ->
  let m' := updateBalance now newBalance equity m in
  ge (peakBalance m') (peakBalance m) = true /\
  ge (peakBalance m') newBalance = true.
Proof.
  intros Hpeak Hnew m'.
  destruct (updateBalance_fields now newBalance equity m)
    as (_ & _ & Hp & _).
  fold m' in Hp. rewrite Hp.
  destruct (gt newBalance (peakBalance m)) eqn:Hgt; split.
  - apply ge_of_not_gt; try assumption. now apply gt_asym.
  - now apply ge_refl.
  - now apply ge_refl.
  - now apply ge_of_not_gt.
Qed.

Lemma updateBalance_peak_monotone_witness :
  let m := Scenario.monitor in
  let m' := updateBalance Scenario.thursday (lit 10500) (Some (lit 10400)) m in
  peakBalance m <> NaN /\ lit 10500 <> NaN /\
  ge (peakBalance m') (peakBalance m) = true /\
  ge (peakBalance m') (lit 10500) = true.
Proof.
  intros m m'.
  assert (H1 : peakBalance m <> NaN) by discriminate.
  assert (H2 : lit 10500 <> NaN) by discriminate.
  split; [exact H1|]. split; [exact H2|].
  exact (updateBalance_peak_monotone Scenario.thursday (lit 10500)
           (Some (lit 10400)) m H1 H2).
Defined.

(** X2.  The drawdowns that [updateBalance] stores are clamped at zero:
    the daily drawdown of the day is never negative, and the total
    drawdown is never negative if it was not before. *)
Theorem updateBalance_drawdowns_not_negative (now : Z) (newBalance : num)
    (equity : option num) (m : t) :
  let m' := updateBalance now newBalance equity m in
  gt (Fin 0) (getCurrentDailyDrawdown now m') = false /\
  (gt (Fin 0) (totalDrawdown m) = false ->
   gt (Fin 0) (totalDrawdown m') = false).
Proof.
  intros m'.
  destruct (updateBalance_drawdowns now newBalance equity m) as [Hd _].
  destruct (updateBalance_total now newBalance equity m) as [_ Ht].
  fold m' in Hd, Ht. split.
  - unfold getCurrentDailyDrawdown. rewrite Hd. cbn [opt_or].
    apply or_else_zero_not_negative.
    destruct (gt (startOfDayBalance m') (Fin 0));
      [apply max_zero_not_negative | reflexivity].
  - intros Hbefore. rewrite Ht.
    destruct (gt (peakBalance m') (Fin 0)); [apply max_zero_not_negative|].
    destruct (gt (initialBalance m) (Fin 0));
      [apply max_zero_not_negative | exact Hbefore].
Qed.

Lemma updateBalance_drawdowns_not_negative_witness :
  let m := Scenario.monitor in
  let m' := updateBalance Scenario.thursday (lit 10500) (Some (lit 10900)) m in
  gt (Fin 0) (totalDrawdown m) = false /\
  getCurrentDailyDrawdown Scenario.thursday m' = Fin 0 /\
  gt (Fin 0) (totalDrawdown m') = false.
Proof.
  intros m m'.
  assert (H : gt (Fin 0) (totalDrawdown m) = false) by reflexivity.
  split; [exact H|]. split; [reflexivity|].
  exact (proj2 (updateBalance_drawdowns_not_negative Scenario.thursday
                  (lit 10500) (Some (lit 10900)) m) H).
Defined.

(** X3.  Within one UTC day, repeating [updateBalance] with the same
    balance and equity changes neither drawdown, nor the start-of-day
    balance, the peak or the warning level. *)
Theorem updateBalance_idempotent (first second : Z) (balance : num)
    (equity : option num) (m : t) :
  utc_date second = utc_date first ->
  let m1 := updateBalance first balance equity m in
  let m2 := updateBalance second balance equity m1 in
  getCurrentDailyDrawdown second m2 = getCurrentDailyDrawdown first m1 /\
  totalDrawdown m2 = totalDrawdown m1 /\
  startOfDayBalance m2 = startOfDayBalance m1 /\
  peakBalance m2 = peakBalance m1 /\
  getWarningLevel second m2 = getWarningLevel first m1.
Proof.
  intros Hday m1 m2.
  destruct (updateBalance_fields first balance equity m)
    as (_ & He1 & Hp1 & _ & Hl1 & Hmd1 & Hmt1).
  destruct (updateBalance_fields second balance equity m1)
    as (_ & He2 & Hp2 & Hs2 & _ & Hmd2 & Hmt2).
  destruct (updateBalance_drawdowns first balance equity m) as [Hd1 _].
  destruct (updateBalance_drawdowns second balance equity m1) as [Hd2 _].
  destruct (updateBalance_total first balance equity m) as [Hi1 Ht1].
  destruct (updateBalance_total second balance equity m1) as [_ Ht2].
  fold m1 in He1, Hp1, Hl1, Hd1, Hi1, Ht1, Hmd1, Hmt1, He2, Hp2, Hs2, Hd2, Ht2,
    Hmd2, Hmt2.
  fold m2 in He2, Hp2, Hs2, Hd2, Ht2, Hmd2, Hmt2.
  assert (Hpeak : peakBalance m2 = peakBalance m1).
  { rewrite Hp2. destruct (gt balance (peakBalance m1)) eqn:Hgt; [|reflexivity].
    rewrite Hp1 in Hgt. destruct (gt balance (peakBalance m)) eqn:Hgt0.
    - now rewrite gt_irrefl in Hgt.
    - congruence. }
  assert (Hsod : startOfDayBalance m2 = startOfDayBalance m1).
  { rewrite Hs2, Hl1, Hday, Z.eqb_refl. reflexivity. }
  assert (Hdaily : getCurrentDailyDrawdown second m2
                   = getCurrentDailyDrawdown first m1).
  { unfold getCurrentDailyDrawdown.
    rewrite Hd2, Hd1, Hsod, He2, He1. reflexivity. }
  assert (Htotal : totalDrawdown m2 = totalDrawdown m1).
  { rewrite Ht2, Hpeak, He2, Hi1, <- He1.
    destruct (gt (peakBalance m1) (Fin 0)) eqn:G1.
    - now rewrite Ht1.
    - destruct (gt (initialBalance m) (Fin 0)) eqn:G2; [|reflexivity].
      now rewrite Ht1. }
  repeat split; try assumption.
  unfold getWarningLevel. now rewrite Hdaily, Htotal, Hmd2, Hmt2.
Qed.

Lemma updateBalance_idempotent_witness :
  let m1 := updateBalance Scenario.thursday (lit 10000) (Some (lit 9800))
              Scenario.monitor in
  let m2 := updateBalance (Scenario.thursday + 60000) (lit 10000)
              (Some (lit 9800)) m1 in
  utc_date (Scenario.thursday + 60000) = utc_date Scenario.thursday /\
  getCurrentDailyDrawdown (Scenario.thursday + 60000) m2 = lit 0.02 /\
  totalDrawdown m2 = totalDrawdown m1.
Proof.
  intros m1 m2.
  assert (H : utc_date (Scenario.thursday + 60000) = utc_date Scenario.thursday)
    by reflexivity.
  split; [exact H|].
  destruct (updateBalance_idempotent Scenario.thursday
              (Scenario.thursday + 60000) (lit 10000) (Some (lit 9800))
              Scenario.monitor H) as (Hd & Ht & _).
  split; [|exact Ht]. fold m1 m2 in Hd. rewrite Hd. reflexivity.
Defined.

(** X4.  Every [updateBalance] pushes exactly one entry onto the
    history that the monitor held, carrying the time, the balance and
    the equity of the call and the drawdowns that the call computed,
    and then keeps the last 1000 entries: the entries before it are
    those of the old history in their order, all of them while the old
    history held fewer than 1000, and the history never holds more
    than 1000 entries. *)
Theorem updateBalance_history (now : Z) (newBalance : num)
    (equity : option num) (m : t) :
  let m' := updateBalance now newBalance equity m in
  let item := {| h_date := now;
                 h_dailyDrawdown := getCurrentDailyDrawdown now m';
                 h_totalDrawdown := totalDrawdown m';
                 h_balance := newBalance;
                 h_equity := default newBalance equity |} in
  let pushed := drawdownHistory m ++ [item] in
  drawdownHistory m' = skipn (length pushed - 1000) pushed /\
  drawdownHistory m'
  = skipn (length (drawdownHistory m) - 999) (drawdownHistory m) ++ [item] /\
  length (drawdownHistory m')
  = Nat.min 1000 (S (length (drawdownHistory m))) /\
  (length (drawdownHistory m') <= 1000)%nat.
Proof.
  intros m' item pushed.
  pose (c := _calculateDrawdowns now
               (let m0 := set_balance_equity newBalance
                            (default newBalance equity) m in
                let m1 := if gt newBalance (peakBalance m0)
                          then set_peakBalance newBalance m0 else m0 in
                if negb (utc_date now =? utc_date (lastUpdate m1))
                then registerDayStart now m1 else m1)).
  assert (Hm' : m' = set_lastUpdate now (_updateDrawdownHistory now c))
    by reflexivity.
  assert (Hc : currentBalance c = newBalance /\
               currentEquity c = default newBalance equity /\
               drawdownHistory c = drawdownHistory m).
  { subst c. unfold _calculateDrawdowns, registerDayStart.
    monitor_fields. monitor_ifs; repeat split; reflexivity. }
  destruct Hc as (Hb & He & Hh).
  assert (Hkeep : getCurrentDailyDrawdown now m' = getCurrentDailyDrawdown now c
                  /\ totalDrawdown m' = totalDrawdown c).
  { rewrite Hm'. unfold _updateDrawdownHistory, getCurrentDailyDrawdown.
    monitor_fields. monitor_ifs; split; reflexivity. }
  destruct Hkeep as [Hkd Hkt].
  assert (Hitem : item = {| h_date := now;
                            h_dailyDrawdown := getCurrentDailyDrawdown now c;
                            h_totalDrawdown := totalDrawdown c;
                            h_balance := currentBalance c;
                            h_equity := currentEquity c |}).
  { subst item. now rewrite Hkd, Hkt, Hb, He. }
  assert (Hhist : drawdownHistory m' =
            if (1000 <? length pushed)%nat
            then skipn (length pushed - 1000) pushed else pushed).
  { subst pushed. rewrite Hitem, <- Hh, Hm'. unfold _updateDrawdownHistory.
    monitor_fields. monitor_ifs; reflexivity. }
  assert (Hlen : length pushed = S (length (drawdownHistory m))).
  { subst pushed. rewrite length_app. cbn [length]. lia. }
  assert (Hfirst : drawdownHistory m' = skipn (length pushed - 1000) pushed).
  { rewrite Hhist. destruct (1000 <? length pushed)%nat eqn:E; [reflexivity|].
    apply Nat.ltb_ge in E.
    now replace (length pushed - 1000)%nat with 0%nat by lia. }
  split; [exact Hfirst|]. split; [|split].
  - rewrite Hfirst, Hlen. subst pushed. rewrite skipn_app.
    replace (S (length (drawdownHistory m)) - 1000)%nat
      with (length (drawdownHistory m) - 999)%nat by lia.
    replace (length (drawdownHistory m) - 999 - length (drawdownHistory m))%nat
      with 0%nat by lia.
    reflexivity.
  - rewrite Hfirst, length_skipn, Hlen. lia.
  - rewrite Hfirst, length_skipn, Hlen. lia.
Qed.

(** Exceeding a limit above zero makes the ratio reach 1. *)
Lemma exceeded_ratio (d l : num) :
  gt l (Fin 0) = true -> gt d l = true -> ge (div d l) (Fin 1) = true.
Proof.
  destruct d as [| |x|], l as [| |q|]; cbn; try discriminate; try reflexivity.
  - unfold ge, gt. cbn. intros Hq Hx.
    destruct (q ?= 0)%Q eqn:Hq0; try discriminate.
    destruct (x ?= q)%Q eqn:Hxq; try discriminate.
    apply Qgt_alt in Hq0, Hxq. cbn.
    assert (H1 : (1 <= Qred (x / q))%Q).
    { rewrite Qred_correct. apply Qle_shift_div_l; [exact Hq0|].
      rewrite Qmult_1_l. now apply Qlt_le_weak. }
    destruct (Qred (x / q) ?= 1)%Q eqn:E; try reflexivity.
    apply Qlt_alt in E. now apply Qlt_not_le in E.
  - unfold ge, gt. cbn. intros Hq _.
    destruct (q ?= 0)%Q; try reflexivity; discriminate.
Qed.

(** X5.  An exceeded limit that is above zero always comes with the
    warning level [critical], whatever the other limit is. *)
Theorem exceeded_implies_critical (now : Z) (m : t) :
  gt (maxDailyDrawdown m) (Fin 0) = true /\
    isDailyLimitExceeded now m = true \/
  gt (maxTotalDrawdown m) (Fin 0) = true /\
    isTotalLimitExceeded m = true ->
  getWarningLevel now m = critical.
Proof.
  intros [[Hl Hex] | [Hl Hex]]; unfold getWarningLevel.
  - rewrite (exceeded_ratio _ _ Hl Hex). reflexivity.
  - rewrite (exceeded_ratio _ _ Hl Hex). now rewrite orb_true_r.
Qed.

Lemma exceeded_implies_critical_witness :
  let now := Scenario.thursday in
  let m := updateBalance now (lit 10000) (Some (lit 9600)) Scenario.monitor in
  maxDailyDrawdown m = lit 0.03 /\
  isDailyLimitExceeded now m = true /\ getWarningLevel now m = critical.
Proof.
  intros now m.
  assert (Hl : gt (maxDailyDrawdown m) (Fin 0) = true) by reflexivity.
  assert (H : isDailyLimitExceeded now m = true) by reflexivity.
  split; [reflexivity|]. split; [exact H|].
  exact (exceeded_implies_critical now m (or_introl (conj Hl H))).
Defined.

(** The ratio of no drawdown to any limit does not reach 0.8. *)
Lemma zero_ratio (l : num) :
  ge (div (Fin 0) l) (Fin 1) = false /\ ge (div (Fin 0) l) (lit 0.8) = false.
Proof.
  destruct l as [| |q|]; try (split; reflexivity).
  cbn. destruct (q ?= 0)%Q; split; reflexivity.
Qed.

(** X6.  [resetMonitor] leaves a monitor without drawdown: the warning
    level is [safe] on every day and for every pair of limits, which
    are kept; an update later on the day of the reset finds no
    start-of-day balance and reports a daily drawdown of zero, whatever
    the balance and the equity. *)
Theorem resetMonitor_safe (now later : Z) (balance : num)
    (equity : option num) (m : t) :
  let r := resetMonitor now m in
  maxDailyDrawdown r = maxDailyDrawdown m /\
  maxTotalDrawdown r = maxTotalDrawdown m /\
  getWarningLevel later r = safe /\
  (utc_date later = utc_date now ->
   getCurrentDailyDrawdown later (updateBalance later balance equity r)
   = Fin 0).
Proof.
  intros r. split; [reflexivity|]. split; [reflexivity|]. split.
  - unfold getWarningLevel, getCurrentDailyDrawdown. subst r.
    cbn [resetMonitor dailyDrawdowns totalDrawdown maxDailyDrawdown
         maxTotalDrawdown].
    rewrite lookup_empty. cbn [opt_or].
    destruct (zero_ratio (maxDailyDrawdown m)) as [-> ->].
    destruct (zero_ratio (maxTotalDrawdown m)) as [-> ->]. reflexivity.
  - intros Hday.
    destruct (updateBalance_fields later balance equity r)
      as (_ & _ & _ & Hs & _).
    destruct (updateBalance_drawdowns later balance equity r) as [Hd _].
    unfold getCurrentDailyDrawdown. rewrite Hd, Hs.
    subst r. cbn [resetMonitor lastUpdate startOfDayBalance].
    rewrite Hday, Z.eqb_refl. reflexivity.
Qed.

Lemma resetMonitor_safe_witness :
  let now := Scenario.thursday in
  let r := resetMonitor now Scenario.monitor_at_limit in
  utc_date (now + 1) = utc_date now /\
  getCurrentDailyDrawdown (now + 1)
    (updateBalance (now + 1) (lit 10000) (Some (lit 5000)) r) = Fin 0.
Proof.
  intros now r.
  assert (H : utc_date (now + 1) = utc_date now) by reflexivity.
  split; [exact H|].
  exact (proj2 (proj2 (proj2 (resetMonitor_safe now (now + 1) (lit 10000)
           (Some (lit 5000)) Scenario.monitor_at_limit))) H).
Defined.

End MonitorInvariants.

(** ** The verdict of the rules *)

Section Verdict.
Import RulesEngine.

Variables (now : Z) (this : Core) (request : Order.t) (profile : Profile.t).

(** The evaluators of the engine grade what they reject as an error. *)
Lemma builtin_evaluators_grade (name : string) (evaluator : Evaluator)
    (result : EvalResult) :
  In (name, evaluator) builtin_evaluators ->
  evaluator now this request profile = Ok result ->
  e_valid result = false ->
  e_severity result = Some sev_error.
Proof.
  intros Hin Hres Hinvalid.
  assert (Hcases : evaluator = drawdown_limit \/ evaluator = trade_size_limit
                   \/ evaluator = news_trading \/ evaluator = trading_days).
  { cbn in Hin.
    destruct Hin as [H|[H|[H|[H|[]]]]]; injection H as _ <-; tauto. }
  destruct Hcases as [->|[->|[->| ->]]].
  - unfold drawdown_limit in Hres.
    repeat match type of Hres with
           | context [if ?c then _ else _] => destruct c
           | context [match ?c with DrawdownMonitor.safe => _ | _ => _ end] =>
               destruct c
           end;
      injection Hres as <-; try reflexivity; discriminate Hinvalid.
  - unfold trade_size_limit in Hres.
    repeat match type of Hres with
           | context [if ?c then _ else _] => destruct c
           end;
      injection Hres as <-; try reflexivity; discriminate Hinvalid.
  - unfold news_trading in Hres.
    destruct (Profile.allowNewsTrading profile);
      [injection Hres as <-; discriminate Hinvalid|].
    destruct (tradingCalendar this) as [calendar|];
      [|injection Hres as <-; discriminate Hinvalid].
    destruct (Order.symbol request) as [symbol|];
      [|injection Hres as <-; discriminate Hinvalid].
    destruct (truthy_str (Some symbol));
      [|injection Hres as <-; discriminate Hinvalid].
    destruct (isHighImpactEventActive calendar now symbol) as [[|]|];
      cbn [bind] in Hres; try discriminate Hres;
      injection Hres as <-; [reflexivity | discriminate Hinvalid].
  - injection Hres as <-. discriminate Hinvalid.
Qed.

(** The loop keeps errors and warnings apart, when the evaluators
    grade what they reject as an error. *)
Lemma run_evaluators_severities (evaluators : list (string * Evaluator)) :
  (forall name evaluator result,
      In (name, evaluator) evaluators ->
      evaluator now this request profile = Ok result ->
      e_valid result = false ->
      e_severity result = Some sev_error) ->
  forall ruleViolations warnings ruleViolations' warnings',
  run_evaluators now this request profile evaluators ruleViolations warnings
  = Ok (ruleViolations', warnings') ->
  Forall (fun v => severity v = sev_error) ruleViolations ->
  Forall (fun v => severity v = sev_warning) warnings ->
  Forall (fun v => severity v = sev_error) ruleViolations' /\
  Forall (fun v => severity v = sev_warning) warnings'.
Proof.
  induction evaluators as [|[name0 ev0] rest IH];
    intros Hgrade rv w rv' w' Hrun Hrv Hw.
  - cbn in Hrun. injection Hrun as <- <-. now split.
  - cbn [run_evaluators] in Hrun.
    destruct (ev0 now this request profile) as [res|] eqn:E0; [|discriminate].
    cbn [bind] in Hrun.
    assert (Hgrade' : forall name evaluator result,
               In (name, evaluator) rest ->
               evaluator now this request profile = Ok result ->
               e_valid result = false ->
               e_severity result = Some sev_error).
    { intros n ev r Hi. apply (Hgrade n ev r). now right. }
    destruct (e_valid res) eqn:Hvalid; cbn [negb] in Hrun.
    + destruct (e_severity res) as [[| |]|];
        try exact (IH Hgrade' _ _ _ _ Hrun Hrv Hw).
      apply (IH Hgrade' _ _ _ _ Hrun Hrv).
      apply Forall_app. split; [exact Hw|]. now constructor.
    + apply (IH Hgrade' _ _ _ _ Hrun); [|exact Hw].
      apply Forall_app. split; [exact Hrv|]. constructor; [|constructor].
      cbn. now rewrite (Hgrade name0 ev0 res (or_introl eq_refl) E0 Hvalid).
Qed.

End Verdict.

Section VerdictOfEngine.
Import RulesEngine.

(** X7.  With the evaluators that the engine registers, the verdict of
    [evaluateTradeRequest] always lists its rules; it is invalid
    exactly when a rule of severity [error] is listed, and what a
    valid verdict lists are warnings. *)
Theorem evaluateTradeRequest_verdict (now : Z) (e : t) (request : Order.t)
    (given : option Profile.t) :
  ruleEvaluators e = builtin_evaluators ->
  let r := evaluateTradeRequest now e request given in
  exists vs,
    rules r = Some vs /\
    (valid r = false <-> exists v, In v vs /\ severity v = sev_error) /\
    (valid r = true -> Forall (fun v => severity v = sev_warning) vs).
Proof.
  intros Hbuiltin r. subst r. unfold evaluateTradeRequest.
  destruct (effective_profile e given) as [p|].
  2:{ exists []. split; [reflexivity|]. split; [|now constructor].
      split; [discriminate | intros (v & [] & _)]. }
  rewrite Hbuiltin.
  destruct (run_evaluators now (core e) request p builtin_evaluators [] [])
    as [[rv w]|msg] eqn:Hrun; cbn.
  - destruct (run_evaluators_severities now (core e) request p
                builtin_evaluators
                (builtin_evaluators_grade now (core e) request p)
                _ _ _ _ Hrun (List.Forall_nil _) (List.Forall_nil _)) as [Hrv Hw].
    exists (rv ++ w). split; [reflexivity|]. split.
    + destruct rv as [|v rv]; cbn [length Nat.eqb].
      * split; [discriminate|]. intros (v & Hin & Hsev). exfalso.
        cbn in Hin. pose proof (proj1 (List.Forall_forall _ _) Hw v Hin).
        congruence.
      * split; [|reflexivity]. intros _. exists v.
        split; [now left|]. now inversion Hrv.
    + destruct rv as [|v rv]; cbn [length Nat.eqb]; [|discriminate].
      intros _. exact Hw.
  - eexists. split; [reflexivity|]. split; [|discriminate].
    split; [|reflexivity]. intros _. eexists. split; [now left | reflexivity].
Qed.

Lemma evaluateTradeRequest_verdict_witness :
  let e := Scenario.engine None (Scenario.profile (Some (lit 1)))
             builtin_evaluators in
  let r := evaluateTradeRequest Scenario.thursday e
             (Scenario.order (Some (lit 2.5))) None in
  ruleEvaluators e = builtin_evaluators /\
  valid r = false /\
  exists vs v, rules r = Some vs /\ In v vs /\ severity v = sev_error.
Proof.
  intros e r.
  assert (H : ruleEvaluators e = builtin_evaluators) by reflexivity.
  assert (Hinvalid : valid r = false) by reflexivity.
  split; [exact H|]. split; [exact Hinvalid|].
  destruct (evaluateTradeRequest_verdict Scenario.thursday e
              (Scenario.order (Some (lit 2.5))) None H)
    as (vs & Hrules & Hiff & _).
  destruct (proj1 Hiff Hinvalid) as (v & Hin & Hsev).
  now exists vs, v.
Defined.

End VerdictOfEngine.

(** ** Orders under an exceeded limit *)

Section Exceeded.
Import FxifyMT5.

(** Under an exceeded limit the [drawdown_limit] evaluator rejects
    every request. *)
Lemma drawdown_limit_exceeded (now : Z) (this : RulesEngine.Core)
    (request : Order.t) (profile : Profile.t) :
  DrawdownMonitor.isDailyLimitExceeded now (RulesEngine.drawdownMonitor this)
    = true \/
  DrawdownMonitor.isTotalLimitExceeded (RulesEngine.drawdownMonitor this)
    = true ->
  exists result,
    RulesEngine.drawdown_limit now this request profile = Ok result /\
    RulesEngine.e_valid result = false.
Proof.
  intros Hex. unfold RulesEngine.drawdown_limit.
  cbn [DrawdownMonitor.getStatus DrawdownMonitor.s_dailyLimitExceeded
       DrawdownMonitor.s_totalLimitExceeded].
  destruct (DrawdownMonitor.isDailyLimitExceeded now
              (RulesEngine.drawdownMonitor this)).
  - eexists. split; reflexivity.
  - destruct Hex as [Hex|Hex]; [discriminate Hex|]. rewrite Hex.
    eexists. split; reflexivity.
Qed.

(** X8.  Once the daily or the total drawdown limit is exceeded, the
    risk-gated adapter in FXIFY mode places no market order: whatever
    the order, the validation fails and [placeMarketOrder] returns the
    rejection, without a request to the bridge and without a change to
    the mode manager. *)
Theorem exceeded_blocks_market_orders (bridge : MT5.Bridge) (now : Z)
    (order : Order.t) (s : t) (profile : Profile.t) :
  let engine := ModeManager.rulesEngine (fxifyModeManager s) in
  let monitor := RulesEngine.drawdownMonitor (RulesEngine.core engine) in
  isFXIFYModeActive s = true ->
  ModeManager.activeProfile (fxifyModeManager s) = Some profile ->
  In ("drawdown_limit"%string, RulesEngine.drawdown_limit)
     (RulesEngine.ruleEvaluators engine) ->
  DrawdownMonitor.isDailyLimitExceeded now monitor = true \/
  DrawdownMonitor.isTotalLimitExceeded monitor = true ->
  valid (validateAgainstFXIFYRules now order s) = false /\
  exists message violations s',
    placeMarketOrder bridge now order s
    = (Ok (MT5.Rejection message violations), s') /\
    base s' = base s /\
    fxifyModeManager s' = fxifyModeManager s.
Proof.
  intros engine monitor Hactive Hprofile Hin Hex.
  set (m := fxifyModeManager s) in *.
  assert (Hm : ModeManager.isActive m = true) by exact Hactive.
  pose proof (validateAgainstFXIFYRules_active now order s Hactive) as Hr.
  fold m in Hr.
  assert (Hinvalid : valid (validateAgainstFXIFYRules now order s) = false).
  { destruct (validateOrder_paths (Validator.api_of m) now order profile)
      as (loss & dc & th & _ & _ & _ & Hpaths);
      [exact Hm | now apply api_of_getActiveProfile |].
    rewrite Hpaths in Hr. clear Hpaths.
    destruct (valid dc) eqn:Vdc; cbn [negb] in Hr;
      [|injection Hr as Hr; now rewrite <- Hr].
    destruct (valid th) eqn:Vth; cbn [negb] in Hr;
      [|injection Hr as Hr; now rewrite <- Hr].
    rewrite (api_of_validateTradeAgainstRules now m profile _ Hm Hprofile) in Hr.
    cbn [try_catch] in Hr. injection Hr as Hr. rewrite <- Hr.
    destruct (drawdown_limit_exceeded now (RulesEngine.core engine)
                (Order.with_potentialLoss loss order) profile Hex)
      as (res & Hres & Hresv).
    exact (proj1 (evaluateTradeRequest_invalid now engine _ profile _ _ res
                    Hin Hres Hresv)). }
  split; [exact Hinvalid|].
  destruct (validateOrder_invalid_nonempty now m order _ Hr Hinvalid)
    as (v & vs & Hrules).
  unfold placeMarketOrder. rewrite Hactive, Hinvalid, Hrules.
  cbn [negb handleRuleViolation first_message].
  eexists _, _, _. split; [reflexivity|]. split; reflexivity.
Qed.

Lemma exceeded_blocks_market_orders_witness :
  let now := Scenario.thursday in
  let profile := Scenario.profile None in
  let m := ModeManager.updateBalance now (lit 10000) (Some (lit 9600))
             (Scenario.manager None profile RulesEngine.builtin_evaluators) in
  let s := Scenario.adapter m in
  let order := Scenario.order (Some (lit 0.01)) in
  DrawdownMonitor.isDailyLimitExceeded now
    (RulesEngine.drawdownMonitor
       (RulesEngine.core (ModeManager.rulesEngine m))) = true /\
  valid (validateAgainstFXIFYRules now order s) = false /\
  exists message violations s',
    placeMarketOrder Scenario.bridge now order s
    = (Ok (MT5.Rejection message violations), s') /\
    base s' = base s.
Proof.
  intros now profile m s order.
  assert (Hex : DrawdownMonitor.isDailyLimitExceeded now
                  (RulesEngine.drawdownMonitor
                     (RulesEngine.core (ModeManager.rulesEngine m))) = true)
    by reflexivity.
  assert (Hin : In ("drawdown_limit"%string, RulesEngine.drawdown_limit)
                   (RulesEngine.ruleEvaluators (ModeManager.rulesEngine m)))
    by (cbn; tauto).
  split; [exact Hex|].
  destruct (exceeded_blocks_market_orders Scenario.bridge now order s profile
              eq_refl eq_refl Hin (or_introl Hex))
    as (Hinvalid & message & violations & s' & Hplace & Hbase & _).
  split; [exact Hinvalid|]. exists message, violations, s'.
  split; [exact Hplace | exact Hbase].
Defined.

End Exceeded.

(** ** The checks of the pre-execution validator *)

Section Checks.
Import Validator.

Variable api : Api.

(** On a Saturday or a Sunday [checkTradingHours] rejects. *)
Lemma checkTradingHours_weekend (now : Z) (symbol : option string)
    (profile : Profile.t) :
  isFXIFYModeActive api = true ->
  getActiveProfile api = Ok (Some profile) ->
  getUTCDay now = 0 \/ getUTCDay now = 6 ->
  exists r, checkTradingHours api now symbol = Ok r /\ valid r = false.
Proof.
  intros Hactive Hprofile Hday. unfold checkTradingHours.
  rewrite Hactive, Hprofile. cbn [negb bind].
  assert (Hw : (getUTCDay now =? 0) || (getUTCDay now =? 6) = true).
  { destruct Hday as [-> | ->]; reflexivity. }
  rewrite Hw. eexists. split; reflexivity.
Qed.

(** X9.  In FXIFY mode with an active profile, [checkTradingHours]
    rejects exactly on Saturdays and Sundays (UTC), whatever the
    symbol, and on those days [validateOrder] rejects every order with
    one violation of severity [error], without asking the rules. *)
Theorem weekend_rejects_every_order (now : Z) (order : Order.t)
    (profile : Profile.t) :
  isFXIFYModeActive api = true ->
  getActiveProfile api = Ok (Some profile) ->
  (forall symbol, exists r,
      checkTradingHours api now symbol = Ok r /\
      (valid r = false <-> getUTCDay now = 0 \/ getUTCDay now = 6)) /\
  (getUTCDay now = 0 \/ getUTCDay now = 6 ->
   exists r v,
     validateOrder api now order = Ok r /\
     valid r = false /\
     rules r = Some [v] /\
     severity v = sev_error /\
     (rule v = "drawdown_limit"%string \/ rule v = "trading_hours"%string)).
Proof.
  intros Hactive Hprofile. split.
  - intros symbol.
    destruct (checkTradingHours_returns api now symbol) as (r & Hr & _ & Hweek).
    exists r. split; [exact Hr|]. split.
    + intros Hinvalid.
      destruct (Z.eq_dec (getUTCDay now) 0) as [H0|H0]; [now left|].
      destruct (Z.eq_dec (getUTCDay now) 6) as [H6|H6]; [now right|].
      rewrite (Hweek H0 H6) in Hinvalid. discriminate Hinvalid.
    + intros Hday.
      destruct (checkTradingHours_weekend now symbol profile Hactive Hprofile
                  Hday) as (r' & Hr' & Hv).
      congruence.
  - intros Hday.
    destruct (validateOrder_paths api now order profile Hactive Hprofile)
      as (loss & dc & th & _ & Hdc & Hth & ->).
    destruct (checkDrawdownLimits_returns api now loss) as (dc' & Hdc' & Hdcv).
    destruct (checkTradingHours_returns api now (Order.symbol order))
      as (th' & Hth' & Hthv & _).
    destruct (checkTradingHours_weekend now (Order.symbol order) profile
                Hactive Hprofile Hday) as (th'' & Hth'' & Hv).
    assert (dc' = dc) by congruence. assert (th' = th) by congruence.
    assert (th'' = th) by congruence. subst dc' th' th''.
    destruct (valid dc) eqn:Vdc; cbn [negb].
    + rewrite Hv. cbn [negb].
      destruct (Hthv Hv) as (v & Hrules & Hsev & Hrule).
      exists th, v. repeat split; auto.
    + destruct (Hdcv eq_refl) as (v & Hrules & Hsev & Hrule).
      exists dc, v. repeat split; auto.
Qed.

End Checks.

Lemma weekend_rejects_every_order_witness :
  let api := Validator.api_of
               (Scenario.manager None (Scenario.profile None)
                  RulesEngine.builtin_evaluators) in
  getUTCDay Scenario.saturday = 6 /\
  exists r v,
    Validator.validateOrder api Scenario.saturday
      (Scenario.order (Some (lit 0.01))) = Ok r /\
    valid r = false /\ rule v = "trading_hours"%string /\ rules r = Some [v].
Proof.
  intros api.
  assert (Hday : getUTCDay Scenario.saturday = 6) by reflexivity.
  split; [exact Hday|].
  destruct (proj2 (weekend_rejects_every_order api Scenario.saturday
                     (Scenario.order (Some (lit 0.01))) (Scenario.profile None)
                     eq_refl eq_refl) (or_intror Hday))
    as (r & v & Hr & Hinvalid & Hrules & _ & _).
  exists r, v. split; [exact Hr|]. split; [exact Hinvalid|].
  split; [|exact Hrules].
  assert (Hc : exists w, Validator.validateOrder api Scenario.saturday
                 (Scenario.order (Some (lit 0.01)))
               = Ok {| valid := false; rules := Some [w] |}
               /\ rule w = "trading_hours"%string)
    by (eexists; split; reflexivity).
  destruct Hc as (w & Hw & Hrule). rewrite Hw in Hr. injection Hr as <-.
  cbn in Hrules. injection Hrules as <-. exact Hrule.
Defined.

(** ** The potential loss of an order *)

Section PotentialLoss.
Import Validator.

Variable api : Api.

(** Without a price the distance to the stop loss is not a number. *)
Lemma estimate_potentialLoss_without_price (order : Order.t) :
  Order.price order = None ->
  truthy_opt (Order.volume order) = true ->
  truthy_opt (Order.stopLoss order) = true ->
  estimate_potentialLoss api order = Ok NaN.
Proof.
  intros Hprice Hvolume Hstop.
  unfold estimate_potentialLoss. rewrite Hvolume, Hstop, Hprice.
  cbn [andb to_num sub abs div].
  destruct (to_num (Order.volume order)); reflexivity.
Qed.

(** X10.  An order with a volume and a stop loss but without a price
    has no number for potential loss: the estimate is NaN, with which
    [checkDrawdownLimits] never rejects and the [drawdown_limit]
    evaluator rejects only under a limit that is exceeded already,
    however far away the stop loss is. *)
Theorem order_without_price_unchecked (now : Z) (order : Order.t)
    (this : RulesEngine.Core) (profile : Profile.t) :
  Order.price order = None ->
  truthy_opt (Order.volume order) = true ->
  truthy_opt (Order.stopLoss order) = true ->
  estimate_potentialLoss api order = Ok NaN /\
  (exists r, checkDrawdownLimits api now NaN = Ok r /\ valid r = true) /\
  (DrawdownMonitor.isDailyLimitExceeded now (RulesEngine.drawdownMonitor this)
     = false ->
   DrawdownMonitor.isTotalLimitExceeded (RulesEngine.drawdownMonitor this)
     = false ->
   exists result,
     RulesEngine.drawdown_limit now this
       (Order.with_potentialLoss NaN order) profile = Ok result /\
     RulesEngine.e_valid result = true).
Proof.
  intros Hprice Hvolume Hstop. split; [|split].
  - now apply estimate_potentialLoss_without_price.
  - unfold checkDrawdownLimits.
    destruct (isFXIFYModeActive api); cbn [negb]; [|now eexists].
    destruct (getActiveProfile api) as [[p|]|]; cbn [bind try_catch];
      try (now eexists).
    destruct (rulesEngine_getDrawdownStatus api now) as [status|];
      cbn [bind try_catch]; try (now eexists).
    destruct (_getAccountSize_returns api) as [size ->]. cbn [bind].
    assert (Hnan : forall d, add d (div NaN size) = NaN)
      by (intros []; reflexivity).
    rewrite !Hnan. cbn [gt cmp].
    destruct (DrawdownMonitor.s_warningLevel status); now eexists.
  - intros Hdaily Htotal. unfold RulesEngine.drawdown_limit.
    cbn [DrawdownMonitor.getStatus DrawdownMonitor.s_dailyLimitExceeded
         DrawdownMonitor.s_totalLimitExceeded DrawdownMonitor.s_warningLevel
         Order.with_potentialLoss Order.potentialLoss truthy_opt truthy andb].
    rewrite Hdaily, Htotal.
    destruct (DrawdownMonitor.getWarningLevel now
                (RulesEngine.drawdownMonitor this)); now eexists.
Qed.

(** One hundredth of a finite amount that is not zero, over it. *)
Lemma one_percent_ratio (b : Q) :
  ~ (b == 0)%Q -> div (mul (Fin b) (lit 0.01)) (Fin b) = lit 0.01.
Proof.
  intros Hb. unfold mul, lit, div.
  destruct (b ?= 0)%Q eqn:E;
    [apply Qeq_alt in E; contradiction | |];
    f_equal; apply Qred_complete; rewrite !Qred_correct; now field.
Qed.

(** Adding an amount that is not negative to a number above a
    threshold leaves it above the threshold. *)
Lemma gt_add_not_negative (d l : num) (x : Q) :
  (0 <= x)%Q -> gt d l = true -> gt (add d (Fin x)) l = true.
Proof.
  intros Hx.
  destruct d as [| |a|], l as [| |b|]; cbn; try discriminate; try reflexivity.
  unfold gt. cbn. intros Hab.
  destruct (a ?= b)%Q eqn:E; try discriminate.
  apply Qgt_alt in E.
  assert (H : (b < Qred (a + x))%Q).
  { rewrite Qred_correct. apply Qlt_le_trans with (y := a); [exact E|].
    rewrite <- (Qplus_0_r a) at 1. now apply Qplus_le_r. }
  apply Qgt_alt in H. now rewrite H.
Qed.

(** X11.  For an order without a volume or without a stop loss the
    potential loss does not depend on the order: it is
    [accountSize * 0.01], where the account size is the current balance
    of the rules engine, and 10000 when that balance is zero, not a
    number or cannot be read.  With a finite balance such an order is
    never let through by [checkDrawdownLimits] while the daily or the
    total drawdown is above its limit in the profile. *)
Theorem order_without_stop_risks_one_percent (now : Z) (order : Order.t)
    (profile : Profile.t) (status : DrawdownMonitor.Status) :
  truthy_opt (Order.volume order) && truthy_opt (Order.stopLoss order)
    = false ->
  rulesEngine_currentBalance api <> Ok PInf ->
  rulesEngine_currentBalance api <> Ok NInf ->
  isFXIFYModeActive api = true ->
  getActiveProfile api = Ok (Some profile) ->
  rulesEngine_getDrawdownStatus api now = Ok status ->
  let accountSize :=
    match rulesEngine_currentBalance api with
    | Ok balance => if truthy balance then balance else Fin 10000
    | Throw _ => Fin 10000
    end in
  _getAccountSize api = Ok accountSize /\
  estimate_potentialLoss api order = Ok (mul accountSize (lit 0.01)) /\
  (gt (DrawdownMonitor.s_dailyDrawdown status)
      (Profile.maxDailyDrawdown profile) = true \/
   gt (DrawdownMonitor.s_totalDrawdown status)
      (Profile.maxTotalDrawdown profile) = true ->
   exists r,
     checkDrawdownLimits api now (mul accountSize (lit 0.01)) = Ok r /\
     valid r = false).
Proof.
  intros Hrisk Hpinf Hninf Hactive Hprofile Hstatus accountSize.
  assert (Hsize : _getAccountSize api = Ok accountSize).
  { subst accountSize. unfold _getAccountSize, or_else.
    now destruct (rulesEngine_currentBalance api). }
  assert (Hratio : div (mul accountSize (lit 0.01)) accountSize = lit 0.01).
  { subst accountSize.
    destruct (rulesEngine_currentBalance api) as [[| |b|]|];
      cbn [truthy]; try congruence;
      try (now apply one_percent_ratio).
    destruct (Qeq_bool b 0) eqn:B; cbn [negb]; apply one_percent_ratio;
      [discriminate|].
    intros H0. apply Qeq_eq_bool in H0. congruence. }
  split; [exact Hsize|]. split.
  { unfold estimate_potentialLoss. rewrite Hrisk, Hsize. reflexivity. }
  intros Hexceeded.
  unfold checkDrawdownLimits.
  rewrite Hactive, Hprofile. cbn [negb bind]. rewrite Hstatus. cbn [bind].
  rewrite Hsize. cbn [bind]. rewrite Hratio.
  assert (Hpos : (0 <= Qred 0.01)%Q) by discriminate.
  destruct Hexceeded as [Hd | Ht].
  - unfold lit at 1.
    rewrite (gt_add_not_negative _ _ _ Hpos Hd). cbn [try_catch].
    now eexists.
  - destruct (gt (add (DrawdownMonitor.s_dailyDrawdown status) (lit 0.01))
                 (Profile.maxDailyDrawdown profile)); cbn [try_catch];
      [now eexists|].
    unfold lit at 1.
    rewrite (gt_add_not_negative _ _ _ Hpos Ht). cbn [try_catch].
    now eexists.
Qed.

End PotentialLoss.

Lemma order_without_price_unchecked_witness :
  let order :=
    {| Order.symbol := Some "EURUSD"%string; Order.volume := Some (Fin 100);
       Order.direction := Some "buy"%string; Order.price := None;
       Order.stopLoss := Some (lit 0.5); Order.takeProfit := None;
       Order.comment := None; Order.pipValue := None; Order.pipSize := None;
       Order.potentialLoss := None |} in
  let m := Scenario.manager None (Scenario.profile None)
             RulesEngine.builtin_evaluators in
  Validator.estimate_potentialLoss (Validator.api_of m) order = Ok NaN /\
  Validator.validateOrder (Validator.api_of m) Scenario.thursday order
  = Ok approved.
Proof.
  intros order m. split; [|reflexivity].
  exact (proj1 (order_without_price_unchecked (Validator.api_of m)
                  Scenario.thursday order
                  (RulesEngine.core (ModeManager.rulesEngine m))
                  (Scenario.profile None) eq_refl eq_refl eq_refl)).
Defined.

Lemma order_without_stop_risks_one_percent_witness :
  let m := ModeManager.updateBalance Scenario.thursday (lit 10000)
             (Some (lit 9600))
             (Scenario.manager None (Scenario.profile None)
                RulesEngine.builtin_evaluators) in
  let api := Validator.api_of m in
  Validator._getAccountSize api = Ok (lit 10000) /\
  Validator.estimate_potentialLoss api (Scenario.order (Some (lit 0.01)))
  = Ok (Fin 100) /\
  exists r,
    Validator.checkDrawdownLimits api Scenario.thursday (Fin 100) = Ok r /\
    valid r = false.
Proof.
  intros m api.
  assert (Hp : Validator.rulesEngine_currentBalance api <> Ok PInf)
    by discriminate.
  assert (Hn : Validator.rulesEngine_currentBalance api <> Ok NInf)
    by discriminate.
  destruct (order_without_stop_risks_one_percent api Scenario.thursday
              (Scenario.order (Some (lit 0.01))) (Scenario.profile None)
              _ eq_refl Hp Hn eq_refl eq_refl eq_refl)
    as (Hsize & Hloss & Hrejected).
  split; [exact Hsize|]. split; [exact Hloss|].
  exact (Hrejected (or_introl eq_refl)).
Defined.

(** ** The pending requests of the MT5 adapter *)

Section Pending.
Import MT5 MT5Lifecycle.

(** [callbacks.delete(id)], entry by entry. *)
Lemma delete_cons (id : positive) (cb : positive * string)
    (cbs : list (positive * string)) :
  delete id (cb :: cbs)
  = if (fst cb =? id)%positive then delete id cbs else cb :: delete id cbs.
Proof.
  unfold delete. rewrite filter_cons.
  destruct (fst cb =? id)%positive; reflexivity.
Qed.

Lemma has_delete (id : positive) (cbs : list (positive * string)) :
  has id (delete id cbs) = false.
Proof.
  induction cbs as [|[id' c] cbs IH]; [reflexivity|].
  rewrite delete_cons. cbn [fst].
  destruct (id' =? id)%positive eqn:E; [exact IH|].
  unfold has in *. cbn [existsb fst]. now rewrite E, IH.
Qed.

Lemma has_delete_other (id id' : positive) (cbs : list (positive * string)) :
  id' <> id -> has id' (delete id cbs) = has id' cbs.
Proof.
  intros Hne. induction cbs as [|[i c] cbs IH]; [reflexivity|].
  rewrite delete_cons. cbn [fst].
  destruct (i =? id)%positive eqn:E.
  - apply Pos.eqb_eq in E. subst i. unfold has in *. cbn [existsb fst].
    assert (Hf : (id =? id')%positive = false)
      by (apply Pos.eqb_neq; congruence).
    now rewrite Hf, IH.
  - unfold has in *. cbn [existsb fst]. now rewrite IH.
Qed.

Lemma delete_comm (id id' : positive) (cbs : list (positive * string)) :
  delete id (delete id' cbs) = delete id' (delete id cbs).
Proof.
  induction cbs as [|[i c] cbs IH]; [reflexivity|].
  rewrite !delete_cons. cbn [fst].
  destruct (i =? id')%positive eqn:E'; destruct (i =? id)%positive eqn:E;
    rewrite ?delete_cons; cbn [fst]; rewrite ?E, ?E'; now rewrite IH.
Qed.

Lemma delete_absent (id : positive) (cbs : list (positive * string)) :
  has id cbs = false -> delete id cbs = cbs.
Proof.
  induction cbs as [|[i c] cbs IH]; [reflexivity|].
  unfold has in *. cbn [existsb fst]. intros H.
  apply orb_false_elim in H as [E H].
  rewrite delete_cons. cbn [fst]. rewrite E. now rewrite IH.
Qed.

Lemma set_absent (id : positive) (cb : string)
    (cbs : list (positive * string)) :
  has id cbs = false -> set id cb cbs = cbs ++ [(id, cb)].
Proof.
  unfold has. induction cbs as [|[i c] cbs IH]; [reflexivity|].
  cbn [existsb set fst]. intros H. apply orb_false_elim in H as [E H].
  rewrite E. cbn [app]. now rewrite IH.
Qed.


Lemma has_not_handed_out (n : positive) (cbs : list (positive * string)) :
  Forall (fun cb => (fst cb < n)%positive) cbs -> has n cbs = false.
Proof.
  unfold has. induction 1 as [|[i c] cbs Hi _ IH]; [reflexivity|].
  cbn [existsb fst] in *. rewrite IH, orb_false_r.
  apply Pos.eqb_neq. lia.
Qed.

Lemma Forall_delete (P : positive * string -> Prop) (id : positive)
    (cbs : list (positive * string)) :
  Forall P cbs -> Forall P (delete id cbs).
Proof.
  induction 1 as [|cb cbs Hcb _ IH]; [constructor|].
  rewrite delete_cons. destruct (_ =? _)%positive; [exact IH | now constructor].
Qed.

(** X12.  A request is settled at most once.  After the response to a
    request has been handled, a second response to it and its timer
    (which is never cleared) do nothing; after the timer has fired, a
    late response does nothing; and after the socket has closed,
    neither a late response nor a timer does anything. *)
Theorem request_settled_once (id : positive) (first second : Response)
    (cmd : string) (b : t) :
  let answered := fst (on_response id first b) in
  let timed_out := fst (on_timeout id cmd b) in
  let closed := fst (on_close b) in
  on_response id second answered = (answered, []) /\
  on_timeout id cmd answered = (answered, []) /\
  on_response id second timed_out = (timed_out, []) /\
  on_response id second closed = (closed, []) /\
  on_timeout id cmd closed = (closed, []).
Proof.
  intros answered timed_out closed.
  assert (Ha : has id (callbacks answered) = false).
  { subst answered. unfold on_response.
    destruct (has id (callbacks b)) eqn:H; [|exact H].
    destruct (error_of first); cbn [fst set_callbacks callbacks];
      apply has_delete. }
  assert (Ht : has id (callbacks timed_out) = false).
  { subst timed_out. unfold on_timeout.
    destruct (has id (callbacks b)) eqn:H; [|exact H].
    cbn [fst set_callbacks callbacks]. apply has_delete. }
  assert (Hc : has id (callbacks closed) = false).
  { subst closed. unfold on_close.
    destruct (connected b); [destruct (_ <? _)|]; reflexivity. }
  unfold on_response, on_timeout. rewrite Ha, Ht, Hc. repeat split.
Qed.

(** X13.  Responses are matched to requests by id: for two different
    ids, the response to one settles that request only, the other
    stays pending, and the two responses can arrive in either order
    with the same outcome. *)
Theorem responses_matched_by_id (id1 id2 : positive) (r1 r2 : Response)
    (b : t) :
  id1 <> id2 ->
  let b1 := fst (on_response id1 r1 b) in
  let b2 := fst (on_response id2 r2 b) in
  has id2 (callbacks b1) = has id2 (callbacks b) /\
  resolved (snd (on_response id1 r1 b))
    ++ rejected_with (default EmptyString (error_of r1))
         (snd (on_response id1 r1 b))
  = (if has id1 (callbacks b) then [id1] else []) /\
  snd (on_response id2 r2 b1) = snd (on_response id2 r2 b) /\
  snd (on_response id1 r1 b2) = snd (on_response id1 r1 b) /\
  fst (on_response id2 r2 b1) = fst (on_response id1 r1 b2).
Proof.
  intros Hne b1 b2.
  assert (H21 : has id2 (callbacks b1) = has id2 (callbacks b)).
  { subst b1. unfold on_response.
    destruct (has id1 (callbacks b)); [|reflexivity].
    destruct (error_of r1); cbn [fst set_callbacks callbacks];
      apply has_delete_other; congruence. }
  assert (H12 : has id1 (callbacks b2) = has id1 (callbacks b)).
  { subst b2. unfold on_response.
    destruct (has id2 (callbacks b)); [|reflexivity].
    destruct (error_of r2); cbn [fst set_callbacks callbacks];
      apply has_delete_other; congruence. }
  split; [exact H21|]. split.
  { unfold on_response. destruct (has id1 (callbacks b)); [|reflexivity].
    destruct (error_of r1) as [message|]; cbn [snd default];
      unfold resolved, rejected_with; cbn [flat_map app];
      [now rewrite String.eqb_refl | reflexivity]. }
  split; [|split].
  - unfold on_response at 1 2. rewrite H21.
    destruct (has id2 (callbacks b)); [|reflexivity].
    now destruct (error_of r2).
  - unfold on_response at 1 2. rewrite H12.
    destruct (has id1 (callbacks b)); [|reflexivity].
    now destruct (error_of r1).
  - unfold on_response at 1 2. rewrite H21, H12. subst b1 b2.
    unfold on_response.
    destruct (has id1 (callbacks b)), (has id2 (callbacks b));
      destruct (error_of r1), (error_of r2);
      cbn [fst set_callbacks callbacks socket connected nextRequestId
           reconnectAttempts maxReconnectAttempts reconnectDelay accountInfo
           positions];
      try reflexivity; now rewrite delete_comm.
Qed.

Lemma responses_matched_by_id_witness :
  let ok := {| r_error := None; r_data := Undefined |} in
  let b := Scenario.broker in
  7%positive <> 8%positive /\
  resolved (snd (on_response 8 ok b)) = [8%positive] /\
  has 7 (callbacks (fst (on_response 8 ok b))) = true /\
  fst (on_response 7 ok (fst (on_response 8 ok b)))
  = fst (on_response 8 ok (fst (on_response 7 ok b))).
Proof.
  intros ok b.
  assert (Hne : 8%positive <> 7%positive) by discriminate.
  split; [discriminate|]. split; [reflexivity|].
  destruct (responses_matched_by_id 8 7 ok ok b Hne)
    as (Hhas & _ & _ & _ & Hcomm).
  split; [now rewrite Hhas | now rewrite Hcomm].
Defined.

(** The ids of the pending requests stay below the next id. *)
Lemma ids_handed_out_steps (b : t) :
  ids_handed_out b ->
  (forall cmd, ids_handed_out (snd (send cmd b))) /\
  (forall id response, ids_handed_out (fst (on_response id response b))) /\
  (forall id cmd, ids_handed_out (fst (on_timeout id cmd b))) /\
  ids_handed_out (fst (on_close b)).
Proof.
  unfold ids_handed_out. intros Hb. repeat split.
  - intros cmd. unfold send.
    cbn [snd set_callbacks set_nextRequestId callbacks nextRequestId].
    rewrite (set_absent _ _ _ (has_not_handed_out _ _ Hb)).
    apply Forall_app. split.
    + eapply List.Forall_impl; [|exact Hb]. cbn. intros cb H. lia.
    + constructor; [cbn; lia | constructor].
  - intros id response. unfold on_response.
    destruct (has id (callbacks b)); [|exact Hb].
    destruct (error_of response);
      cbn [fst set_callbacks callbacks nextRequestId];
      now apply Forall_delete.
  - intros id cmd. unfold on_timeout.
    destruct (has id (callbacks b)); [|exact Hb].
    cbn [fst set_callbacks callbacks nextRequestId]. now apply Forall_delete.
  - unfold on_close.
    destruct (connected b); [destruct (_ <? _)|];
      cbn [fst callbacks]; constructor.
Qed.



End Pending.

(** ** The life of a connection *)

Section Lifecycle.
Import MT5 MT5Lifecycle.

Lemma reconnections_app (xs ys : list Effect) :
  reconnections (xs ++ ys) = reconnections xs ++ reconnections ys.
Proof. unfold reconnections. apply flat_map_app. Qed.

Lemma reconnections_of_callbacks (message : string)
    (cbs : list (positive * string)) :
  reconnections (map (fun cb => Rejected (fst cb) message) cbs) = [].
Proof.
  unfold reconnections. induction cbs as [|cb cbs IH]; [reflexivity|].
  cbn [map flat_map app]. exact IH.
Qed.

(** X15.  A connection that closes is reopened once.  After the
    ['connect'] event, the ['close'] event schedules one reconnection,
    after [reconnectDelay] milliseconds (the counter of attempts, reset
    on connection, never gets past 1); a further ['close'] event
    without a connection in between schedules nothing and emits
    nothing. *)
Theorem connection_reopened_once (b : t) :
  0 < maxReconnectAttempts b ->
  let opened := on_connect b in
  let closed := fst (on_close opened) in
  reconnections (snd (on_close opened)) = [reconnectDelay b] /\
  reconnectAttempts closed = 1 /\
  on_close closed = (closed, []).
Proof.
  intros Hmax opened closed.
  assert (Hlt : (0 <? maxReconnectAttempts b) = true) by now apply Z.ltb_lt.
  assert (Hclose : on_close opened
            = ({| socket := socket b; connected := false; callbacks := [];
                  nextRequestId := nextRequestId b; reconnectAttempts := 1;
                  maxReconnectAttempts := maxReconnectAttempts b;
                  reconnectDelay := reconnectDelay b;
                  accountInfo := accountInfo b; positions := positions b |},
               map (fun cb => Rejected (fst cb) "Connection closed")
                 (callbacks b)
               ++ [Emitted "disconnected";
                   ReconnectIn (reconnectDelay b * 1)])).
  { subst opened. unfold on_close, on_connect.
    cbn [connected reconnectAttempts maxReconnectAttempts callbacks socket
         nextRequestId reconnectDelay accountInfo positions].
    now rewrite Hlt. }
  subst closed. rewrite Hclose. cbn [fst snd]. split; [|split].
  - rewrite reconnections_app, reconnections_of_callbacks.
    cbn. now rewrite Z.mul_1_r.
  - reflexivity.
  - reflexivity.
Qed.

Lemma connection_reopened_once_witness :
  let closed := fst (on_close (on_connect Scenario.broker)) in
  0 < maxReconnectAttempts Scenario.broker /\
  reconnections (snd (on_close (on_connect Scenario.broker))) = [2000] /\
  on_close closed = (closed, []).
Proof.
  intros closed.
  assert (H : 0 < maxReconnectAttempts Scenario.broker) by reflexivity.
  split; [exact H|].
  destruct (connection_reopened_once Scenario.broker H) as (Hr & _ & Hc).
  split; [exact Hr | exact Hc].
Defined.

(** X16.  [disconnect()] on a connected adapter closes the connection
    for good: every pending request is rejected with
    "Connection closed", ['disconnected'] is emitted, no reconnection is
    scheduled, and the adapter is left not connected with an empty map
    of pending requests.  On an adapter that is not connected it does
    nothing. *)
Theorem disconnect_schedules_no_reconnection (b : t) :
  let '(message, (b', effects)) := disconnect b in
  reconnections effects = [] /\
  if connected b && socket b then
    message = "Disconnected"%string /\
    connected b' = false /\
    callbacks b' = [] /\
    rejected_with "Connection closed" effects = map fst (callbacks b) /\
    In (Emitted "disconnected") effects
  else
    message = "Not connected"%string /\ b' = b /\ effects = [].
Proof.
  unfold disconnect.
  destruct (connected b) eqn:Hc; cbn [negb orb andb];
    [|repeat split; reflexivity].
  destruct (socket b) eqn:Hs; cbn [negb orb andb];
    [|repeat split; reflexivity].
  unfold on_close.
  cbn [connected reconnectAttempts maxReconnectAttempts callbacks socket
       nextRequestId reconnectDelay accountInfo positions].
  rewrite Z.ltb_irrefl.
  destruct (rejections_of_callbacks "Connection closed" (callbacks b))
    as [Hrej _].
  rewrite reconnections_app, reconnections_of_callbacks, rejected_with_app,
    Hrej.
  cbn. rewrite app_nil_r. repeat split; try reflexivity.
  apply in_or_app. right. now left.
Qed.

End Lifecycle.

(** ** The drawdown monitor behind the risk-gated adapter *)

Section Refresh.
Import FxifyMT5.

(** X17.  The refresh that follows a successful order or close asks
    the bridge for the account; when the bridge reports a balance that
    is a number, the refresh hands that balance and the equity it
    reports to the mode manager, down to the drawdown monitor, where
    the balance stands in for an equity that is missing; when the
    bridge does not answer, answers with an error or without data, or
    the write fails, the refresh gives up and the mode manager is left
    as it was. *)
Theorem refresh_drawdown_feeds_monitor (bridge : MT5.Bridge) (now : Z)
    (s : t) :
  MT5.connected (base s) = true ->
  MT5.socket (base s) = true ->
  isFXIFYModeActive s = true ->
  let s' := refresh_drawdown bridge now s in
  let monitor' :=
    RulesEngine.drawdownMonitor
      (RulesEngine.core (ModeManager.rulesEngine (fxifyModeManager s'))) in
  let reply :=
    bridge (MT5.nextRequestId (base s)) Examples.account_info_command in
  (forall response success (balance : num) equity,
      reply = MT5.Answer response ->
      MT5.error_of response = None ->
      MT5.r_data response = MT5.Object success (Some balance) equity ->
      fxifyModeManager s'
      = ModeManager.updateBalance now balance equity (fxifyModeManager s) /\
      DrawdownMonitor.currentBalance monitor' = balance /\
      DrawdownMonitor.currentEquity monitor' = default balance equity) /\
  (reply = MT5.NoAnswer \/
   (exists message, reply = MT5.WriteFails message) \/
   (exists response,
       reply = MT5.Answer response /\
       (MT5.error_of response <> None \/
        MT5.r_data response = MT5.Undefined)) ->
   fxifyModeManager s' = fxifyModeManager s).
Proof.
  intros Hconnected Hsocket Hactive s' monitor' reply.
  assert (Hs' : s' =
            match reply with
            | MT5.Answer response =>
                match MT5.error_of response with
                | Some _ => s'
                | None =>
                    match MT5.get_balance_equity (MT5.r_data response) with
                    | Ok (balance, equity) =>
                        set_fxifyModeManager
                          (ModeManager.updateBalance now (to_num balance)
                             equity (fxifyModeManager s))
                          (set_base
                             (MT5.set_accountInfo
                                (Some (MT5.r_data response))
                                (fst (MT5.on_response
                                        (MT5.nextRequestId (base s)) response
                                        (snd (MT5.send
                                                Examples.account_info_command
                                                (base s))))))
                             s)
                    | Throw _ => s'
                    end
                end
            | _ => s'
            end /\
            (match reply with
             | MT5.Answer response =>
                 MT5.error_of response <> None \/
                 MT5.r_data response = MT5.Undefined
             | _ => True
             end -> fxifyModeManager s' = fxifyModeManager s)).
  { subst s' reply. unfold refresh_drawdown, super, MT5.getAccountInfo,
      MT5._sendCommand.
    rewrite Hconnected, Hsocket. cbn [negb orb].
    assert (Hpair : MT5.send Examples.account_info_command (base s)
                    = (MT5.nextRequestId (base s),
                       snd (MT5.send Examples.account_info_command (base s))))
      by reflexivity.
    fold Examples.account_info_command. rewrite Hpair.
    destruct (bridge (MT5.nextRequestId (base s))
                Examples.account_info_command)
      as [response| |message]; [|split; reflexivity|split; reflexivity].
    destruct (MT5.error_of response) as [e|]; [split; reflexivity|].
    destruct (MT5.r_data response) as [|success balance equity| |];
      cbn [MT5.get_balance_equity]; split; try reflexivity;
      intros [H|H]; congruence. }
  destruct Hs' as [Hs' Hfail]. split.
  - intros response success balance equity Hreply Herror Hdata.
    rewrite Hreply, Herror, Hdata in Hs'.
    cbn [MT5.get_balance_equity to_num] in Hs'.
    assert (Hm : fxifyModeManager s'
                 = ModeManager.updateBalance now balance equity
                     (fxifyModeManager s)) by now rewrite Hs'.
    split; [exact Hm|]. subst monitor'. rewrite Hm.
    unfold ModeManager.updateBalance.
    change (ModeManager.isActive (fxifyModeManager s)) with
      (isFXIFYModeActive s). rewrite Hactive.
    cbn [ModeManager.rulesEngine RulesEngine.updateBalance
         RulesEngine.core RulesEngine.drawdownMonitor].
    destruct (updateBalance_fields now balance equity
                (RulesEngine.drawdownMonitor
                   (RulesEngine.core
                      (ModeManager.rulesEngine (fxifyModeManager s)))))
      as (Hb & He & _).
    split; [exact Hb | exact He].
  - intros [Hreply | [[message Hreply] | (response & Hreply & Hbad)]];
      apply Hfail; rewrite Hreply; auto.
Qed.

Lemma refresh_drawdown_feeds_monitor_witness :
  let m := Scenario.manager None (Scenario.profile None)
             RulesEngine.builtin_evaluators in
  let s := Scenario.adapter m in
  let s' := refresh_drawdown Examples.bridge_account Scenario.thursday s in
  let monitor' :=
    RulesEngine.drawdownMonitor
      (RulesEngine.core (ModeManager.rulesEngine (fxifyModeManager s'))) in
  DrawdownMonitor.currentBalance monitor' = lit 10400 /\
  DrawdownMonitor.currentEquity monitor' = lit 10300 /\
  fxifyModeManager
    (refresh_drawdown Examples.bridge_silent Scenario.thursday s) = m.
Proof.
  intros m s s' monitor'.
  destruct (refresh_drawdown_feeds_monitor Examples.bridge_account
              Scenario.thursday s eq_refl eq_refl eq_refl) as [Hfed _].
  destruct (Hfed _ (Some true) (lit 10400) (Some (lit 10300))
              eq_refl eq_refl eq_refl) as (_ & Hb & He).
  split; [exact Hb|]. split; [exact He|].
  exact (proj2 (refresh_drawdown_feeds_monitor Examples.bridge_silent
                  Scenario.thursday s eq_refl eq_refl eq_refl)
           (or_introl eq_refl)).
Defined.


(** X19.  Closing a position is never subject to the rules: whatever
    the mode, the profile, the drawdown and the day of the week,
    [closePosition] gives the request to the adapter it extends and
    hands back what that returns or throws, and emits no rule
    violation.  (In FXIFY mode a result without data makes the reading
    of its [success] throw.) *)
Theorem closePosition_never_blocked (bridge : MT5.Bridge) (now : Z)
    (positionId : Z) (volume : option num) (s : t) :
  let inner := MT5.closePosition bridge positionId volume (base s) in
  let outer := closePosition bridge now positionId volume s in
  emitted (snd outer) = emitted s /\
  fst outer
  = match fst inner with
    | Ok MT5.Undefined =>
        if isFXIFYModeActive s
        then Throw "Cannot read properties of undefined (reading 'success')"
        else Ok MT5.Undefined
    | result => result
    end /\
  (isFXIFYModeActive s = false ->
   snd outer = set_base (snd inner) s).
Proof.
  cbv zeta. unfold closePosition, super.
  destruct (MT5.closePosition bridge positionId volume (base s))
    as [[data|e] b]; cbn [fst snd]; [|repeat split].
  change (isFXIFYModeActive (set_base b s)) with (isFXIFYModeActive s).
  assert (Hrefresh : emitted (refresh_drawdown bridge now (set_base b s))
                     = emitted s).
  { unfold refresh_drawdown, super. cbn [set_base base].
    destruct (MT5.getAccountInfo bridge b) as [[info|e] b'];
      [|reflexivity].
    now destruct (MT5.get_balance_equity info) as [[bal eq]|]. }
  destruct (isFXIFYModeActive s).
  - destruct data as [|success balance equity|items|message violations];
      cbn [MT5.get_success MT5.is_true default fst snd].
    + split; [reflexivity|]. split; [reflexivity | discriminate].
    + destruct (MT5.is_true success); cbn [fst snd];
        (split; [assumption || reflexivity|]);
        (split; [reflexivity | discriminate]).
    + split; [reflexivity|]. split; [reflexivity | discriminate].
    + split; [reflexivity|]. split; [reflexivity | discriminate].
  - cbn [fst snd]. split; [reflexivity|].
    split; [now destruct data | reflexivity].
Qed.

Lemma closePosition_never_blocked_witness :
  let s := Scenario.adapter Scenario.manager_off in
  isFXIFYModeActive s = false /\
  closePosition Scenario.bridge Scenario.saturday 11 None s
  = (fst (MT5.closePosition Scenario.bridge 11 None (base s)),
     set_base (snd (MT5.closePosition Scenario.bridge 11 None (base s))) s).
Proof.
  intros s.
  assert (Hoff : isFXIFYModeActive s = false) by reflexivity.
  split; [exact Hoff|].
  destruct (closePosition_never_blocked Scenario.bridge Scenario.saturday
              11 None s) as (_ & Hresult & Hstate).
  apply injective_projections; cbn [fst snd].
  - rewrite Hresult. reflexivity.
  - exact (Hstate Hoff).
Defined.

End Refresh.

(** ** Modifications of a position *)

Section Modification.
Import Validator PositionModification.

Variable api : Api.

(** X20.  In FXIFY mode [validatePositionModification] never throws.
    A modification that carries a stop loss and is marked as a
    stop-loss modification, or a take profit and is marked as a
    take-profit modification, is approved without a look at the rules,
    also when it increases the volume.  Any other rejection is the
    rejection by [validateOrder] of the order that stands for an
    increase of volume, whose potential loss does not depend on the
    size of the increase: it is NaN with a stop loss (the order has no
    price) and 1% of the account size without.  An exception while
    the profile is read is a rejection. *)
Theorem validatePositionModification_verdict (now : Z) (positionId : Z)
    (modifications : t) :
  isFXIFYModeActive api = true ->
  let protective :=
    truthy_opt (stopLoss modifications)
      && (type_is "MODIFY_SL" modifications || stopLossOnly modifications)
    || truthy_opt (takeProfit modifications)
         && (type_is "MODIFY_TP" modifications
             || takeProfitOnly modifications) in
  exists r,
    validatePositionModification api now positionId modifications = Ok r /\
    (forall e, getActiveProfile api = Throw e -> r = modification_error e) /\
    (forall profile,
        getActiveProfile api = Ok (Some profile) ->
        (protective = true -> r = approved) /\
        (valid r = false ->
         protective = false /\
         truthy_opt (volume modifications) && increasingVolume modifications
           = true /\
         validateOrder api now (simulatedOrder modifications) = Ok r)) /\
    estimate_potentialLoss api (simulatedOrder modifications)
    = if truthy_opt (stopLoss modifications) then Ok NaN
      else let? accountSize := _getAccountSize api in
           Ok (mul accountSize (lit 0.01)).
Proof.
  intros Hactive protective.
  assert (Hvolume : truthy_opt (Order.volume (simulatedOrder modifications))
                    = true).
  { cbn [simulatedOrder Order.volume truthy_opt]. unfold opt_or, or_else.
    destruct (volumeIncrease modifications) as [v|]; [|reflexivity].
    destruct (truthy v) eqn:Hv; [exact Hv | reflexivity]. }
  assert (Hloss : estimate_potentialLoss api (simulatedOrder modifications)
                  = if truthy_opt (stopLoss modifications) then Ok NaN
                    else let? accountSize := _getAccountSize api in
                         Ok (mul accountSize (lit 0.01))).
  { destruct (truthy_opt (stopLoss modifications)) eqn:Hstop.
    - now apply estimate_potentialLoss_without_price.
    - unfold estimate_potentialLoss. rewrite Hvolume.
      cbn [simulatedOrder Order.stopLoss]. rewrite Hstop. reflexivity. }
  unfold validatePositionModification. rewrite Hactive. cbn [negb].
  destruct (getActiveProfile api) as [[profile|]|e]; cbn [bind try_catch].
  - subst protective.
    destruct (truthy_opt (stopLoss modifications)
              && (type_is "MODIFY_SL" modifications
                  || stopLossOnly modifications)); cbn [orb try_catch].
    { exists approved. split; [reflexivity|]. split; [discriminate|].
      split; [|exact Hloss]. intros p _.
      split; [reflexivity | discriminate]. }
    destruct (truthy_opt (takeProfit modifications)
              && (type_is "MODIFY_TP" modifications
                  || takeProfitOnly modifications)); cbn [try_catch].
    { exists approved. split; [reflexivity|]. split; [discriminate|].
      split; [|exact Hloss]. intros p _.
      split; [reflexivity | discriminate]. }
    destruct (truthy_opt (volume modifications)
              && increasingVolume modifications); cbn [try_catch].
    + destruct (validateOrder_returns api now (simulatedOrder modifications))
        as [r Hr].
      rewrite Hr. cbn [try_catch]. exists r. split; [reflexivity|].
      split; [discriminate|]. split; [|exact Hloss]. intros p _.
      split; [discriminate|]. now intros _.
    + exists approved. split; [reflexivity|]. split; [discriminate|].
      split; [|exact Hloss]. intros p _.
      split; [discriminate | discriminate].
  - exists approved. split; [reflexivity|]. split; [discriminate|].
    split; [|exact Hloss]. intros p Hp. discriminate Hp.
  - exists (modification_error e). split; [reflexivity|].
    split; [intros e' He'; congruence|]. split; [|exact Hloss].
    intros p Hp. discriminate Hp.
Qed.

End Modification.

Lemma validatePositionModification_verdict_witness :
  let m := ModeManager.updateBalance Scenario.thursday (lit 10000)
             (Some (lit 9000))
             (Scenario.manager None (Scenario.profile None)
                RulesEngine.builtin_evaluators) in
  let api := Validator.api_of m in
  DrawdownMonitor.isTotalLimitExceeded
    (RulesEngine.drawdownMonitor
       (RulesEngine.core (ModeManager.rulesEngine m))) = true /\
  PositionModification.validatePositionModification api Scenario.thursday 11
    Examples.marked_stop_loss = Ok approved /\
  Validator.estimate_potentialLoss api
    (PositionModification.simulatedOrder Examples.marked_stop_loss) = Ok NaN.
Proof.
  intros m api. split; [reflexivity|].
  destruct (validatePositionModification_verdict api Scenario.thursday 11
              Examples.marked_stop_loss eq_refl)
    as (r & Hr & _ & Hprofile & Hloss).
  split; [|exact Hloss].
  destruct (Hprofile (Scenario.profile None) eq_refl) as [Happroved _].
  rewrite Hr. f_equal. now apply Happroved.
Defined.

(** ** The economic calendar *)

Section Calendar.
Import TradingCalendar.

Lemma array_includes_In (s : string) (array : list string) :
  array_includes s array = true <-> In s array.
Proof.
  unfold array_includes. rewrite existsb_exists. split.
  - intros (x & Hin & Heq). apply String.eqb_eq in Heq. now subst.
  - intros Hin. exists s. split; [exact Hin | apply String.eqb_refl].
Qed.

(** The callback of the filter, on an event whose impact is defined. *)
Lemma is_relevant_due (now : Z) (currencies : list string) (event : Event) :
  impact event <> None ->
  exists keep,
    is_relevant now (now + 3600000) currencies event = Ok keep /\
    (keep = true <-> due now currencies event).
Proof.
  intros Himpact. unfold is_relevant, due.
  destruct (currency event) as [code|].
  2:{ exists false. split; [reflexivity|].
      split; [discriminate | intros (? & ? & ? & H & _); discriminate H]. }
  destruct (array_includes code currencies) eqn:Hcode; cbn [negb].
  2:{ exists false. split; [reflexivity|]. split; [discriminate|].
      intros (code' & ? & ? & H & Hin & _). injection H as <-.
      apply array_includes_In in Hin. congruence. }
  apply array_includes_In in Hcode.
  destruct (impact event) as [level|]; [|congruence].
  destruct (String.eqb_spec (toLowerCase level) "high") as [Hhigh|Hhigh];
    cbn [negb].
  2:{ exists false. split; [reflexivity|]. split; [discriminate|].
      intros (? & level' & ? & _ & _ & H & Hl & _). injection H as <-.
      contradiction. }
  destruct (date event) as [eventTime|].
  2:{ exists false. split; [reflexivity|]. split; [discriminate|].
      intros (? & ? & ? & _ & _ & _ & _ & H & _). discriminate H. }
  eexists. split; [reflexivity|]. split.
  - intros H. apply andb_true_iff in H as [H1 H2].
    apply Z.leb_le in H1, H2. exists code, level, eventTime.
    repeat split; auto.
  - intros (? & ? & t & _ & _ & _ & _ & H & H1 & H2). injection H as <-.
    apply andb_true_iff. split; now apply Z.leb_le.
Qed.

(** A filter whose callback returns on every element returns the
    elements that the callback keeps. *)
Lemma filter_events_kept (callback : Event -> Result bool)
    (events : list Event) :
  (forall event, In event events -> exists keep, callback event = Ok keep) ->
  exists kept,
    filter_events callback events = Ok kept /\
    (forall event,
        In event kept <-> In event events /\ callback event = Ok true).
Proof.
  induction events as [|event0 events IH]; intros Hreturns.
  - exists []. split; [reflexivity|]. intros event. cbn. tauto.
  - destruct (Hreturns event0 (or_introl eq_refl)) as [keep Hkeep].
    destruct IH as (kept & Hkept & Hall).
    { intros event Hin. apply Hreturns. now right. }
    cbn [filter_events]. rewrite Hkeep. cbn [bind]. rewrite Hkept.
    cbn [bind]. eexists. split; [reflexivity|]. intros event.
    destruct keep; cbn [In]; rewrite Hall; split.
    + intros [<-|[Hin Hc]]; [split; [now left | exact Hkeep]|].
      split; [now right | exact Hc].
    + intros [[<-|Hin] Hc]; [now left | right; now split].
    + intros [Hin Hc]. split; [now right | exact Hc].
    + intros [[<-|Hin] Hc]; [congruence | now split].
Qed.

(** An event that is due makes [isHighImpactEventActive] return
    [true]. *)
Lemma isHighImpactEventActive_due (now : Z) (c : t) (symbol : string)
    (event : Event) :
  (forall event, In event (economicEvents c) -> impact event <> None) ->
  In event (economicEvents c) ->
  due now (_getCurrenciesForSymbol c symbol) event ->
  isHighImpactEventActive now c symbol = Ok true.
Proof.
  intros Himpact Hin Hdue. unfold isHighImpactEventActive.
  destruct symbol as [|ch rest];
    [destruct Hdue as (? & ? & ? & _ & [] & _)|].
  destruct (_getCurrenciesForSymbol c (String ch rest))
    as [|currency0 currencies] eqn:Hcurrencies;
    [destruct Hdue as (? & ? & ? & _ & [] & _)|].
  destruct (filter_events_kept
              (is_relevant now (now + 3600000) (currency0 :: currencies))
              (economicEvents c)) as (kept & Hkept & Hall).
  { intros ev Hev.
    destruct (is_relevant_due now (currency0 :: currencies) ev
                (Himpact ev Hev)) as (keep & Hkeep & _).
    now exists keep. }
  rewrite Hkept. cbn [bind].
  destruct (is_relevant_due now (currency0 :: currencies) event
              (Himpact event Hin)) as (keep & Hkeep & Hiff).
  assert (Hc : is_relevant now (now + 3600000) (currency0 :: currencies)
                 event = Ok true).
  { rewrite Hkeep. f_equal. now apply Hiff. }
  pose proof (proj2 (Hall event) (conj Hin Hc)) as Hk.
  destruct kept; [destruct Hk | reflexivity].
Qed.

(** X21.  On a calendar whose events all carry an impact,
    [isHighImpactEventActive] returns, and it returns [true] exactly
    when some event for a currency of the symbol, of impact 'high' in
    any case of letters, is due at the time of the call or within the
    60 minutes after it.  An event whose time has passed does not
    count, and neither does an event without a valid date. *)
Theorem isHighImpactEventActive_window (now : Z) (c : t) (symbol : string) :
  (forall event, In event (economicEvents c) -> impact event <> None) ->
  exists active,
    isHighImpactEventActive now c symbol = Ok active /\
    (active = true <->
     exists event,
       In event (economicEvents c) /\
       due now (_getCurrenciesForSymbol c symbol) event).
Proof.
  intros Himpact. unfold isHighImpactEventActive.
  destruct symbol as [|ch rest].
  { exists false. split; [reflexivity|]. split; [discriminate|].
    intros (event & _ & (? & ? & ? & _ & [] & _)). }
  destruct (_getCurrenciesForSymbol c (String ch rest))
    as [|currency0 currencies] eqn:Hcurrencies.
  { exists false. split; [reflexivity|]. split; [discriminate|].
    intros (event & _ & (? & ? & ? & _ & [] & _)). }
  destruct (filter_events_kept
              (is_relevant now (now + 3600000) (currency0 :: currencies))
              (economicEvents c)) as (kept & Hkept & Hall).
  { intros event Hin.
    destruct (is_relevant_due now (currency0 :: currencies) event
                (Himpact event Hin)) as (keep & Hkeep & _).
    now exists keep. }
  rewrite Hkept. cbn [bind]. eexists. split; [reflexivity|]. split.
  - intros Hlength. destruct kept as [|event kept]; [discriminate Hlength|].
    destruct (proj1 (Hall event) (or_introl eq_refl)) as [Hin Hc].
    exists event. split; [exact Hin|].
    destruct (is_relevant_due now (currency0 :: currencies) event
                (Himpact event Hin)) as (keep & Hkeep & Hdue).
    apply Hdue. congruence.
  - intros (event & Hin & Hdue).
    pose proof (isHighImpactEventActive_due now c (String ch rest) event
                  Himpact Hin) as Htrue.
    unfold isHighImpactEventActive in Htrue.
    rewrite Hcurrencies, Hkept in Htrue. cbn [bind] in Htrue.
    specialize (Htrue Hdue). now injection Htrue.
Qed.

Lemma isHighImpactEventActive_window_witness :
  let c := Examples.calendar in
  (forall event, In event (economicEvents c) -> impact event <> None) /\
  isHighImpactEventActive Scenario.thursday c "EUR/USD" = Ok true /\
  isHighImpactEventActive (Scenario.thursday + 1800001) c "EUR/USD"
  = Ok false /\
  exists active,
    isHighImpactEventActive Scenario.friday c "EURUSD" = Ok active /\
    (active = true <->
     exists event,
       In event (economicEvents c) /\
       due Scenario.friday (_getCurrenciesForSymbol c "EURUSD") event).
Proof.
  intros c.
  assert (H : forall event, In event (economicEvents c) ->
                            impact event <> None).
  { intros event [<-|[]]. discriminate. }
  split; [exact H|]. split; [reflexivity|]. split; [reflexivity|].
  exact (isHighImpactEventActive_window Scenario.friday c "EURUSD" H).
Defined.

(** With the calendar answering, no evaluator of the engine throws. *)
Lemma builtin_evaluators_return (now : Z) (this : RulesEngine.Core)
    (request : Order.t) (profile : Profile.t) (result : RulesEngine.EvalResult) :
  RulesEngine.news_trading now this request profile = Ok result ->
  RulesEngine.no_evaluator_throws now this request profile
    RulesEngine.builtin_evaluators.
Proof.
  intros Hnews name evaluator Hin. cbn in Hin.
  destruct Hin as [H|[H|[H|[H|[]]]]]; injection H as _ <-.
  - unfold RulesEngine.drawdown_limit.
    repeat match goal with
           | |- context [if ?c then _ else _] => destruct c
           | |- context [match ?c with DrawdownMonitor.safe => _ | _ => _ end] =>
               destruct c
           end; reflexivity.
  - unfold RulesEngine.trade_size_limit.
    repeat match goal with
           | |- context [if ?c then _ else _] => destruct c
           end; reflexivity.
  - now rewrite Hnews.
  - reflexivity.
Qed.

(** X22.  With this calendar in the rules engine and a profile that
    does not allow news trading, an order on a symbol for which an
    event of high impact is due within the hour is rejected by
    [evaluateTradeRequest], and the verdict lists the [news_trading]
    rule. *)
Theorem due_event_rejects_order (now : Z) (e : RulesEngine.t) (c : t)
    (request : Order.t) (profile : Profile.t) (symbol : string)
    (event : Event) :
  RulesEngine.ruleEvaluators e = RulesEngine.builtin_evaluators ->
  RulesEngine.tradingCalendar (RulesEngine.core e) = Some (as_calendar c) ->
  Profile.allowNewsTrading profile = false ->
  Order.symbol request = Some symbol ->
  (forall event, In event (economicEvents c) -> impact event <> None) ->
  In event (economicEvents c) ->
  due now (_getCurrenciesForSymbol c symbol) event ->
  let r := RulesEngine.evaluateTradeRequest now e request (Some profile) in
  valid r = false /\ has_rule "news_trading" r.
Proof.
  intros Hbuiltin Hcalendar Hallow Hsymbol Himpact Hin Hdue r.
  assert (Hne : symbol <> EmptyString).
  { intros ->. destruct Hdue as (? & ? & ? & _ & [] & _). }
  pose proof (isHighImpactEventActive_due now c symbol event Himpact Hin
                Hdue) as Hactive.
  destruct (news_trading_rejects now (RulesEngine.core e) request profile
              (as_calendar c) symbol Hallow Hcalendar Hsymbol Hne Hactive)
    as (result & Hresult & Hinvalid).
  assert (Hreg : In ("news_trading"%string, RulesEngine.news_trading)
                    (RulesEngine.ruleEvaluators e)).
  { rewrite Hbuiltin. cbn. tauto. }
  destruct (evaluateTradeRequest_invalid now e request profile _ _ result
              Hreg Hresult Hinvalid) as [Hv Hrule].
  split; [exact Hv|]. apply Hrule. rewrite Hbuiltin.
  now apply builtin_evaluators_return with result.
Qed.

Lemma due_event_rejects_order_witness :
  let c := Examples.calendar in
  let profile := Scenario.profile None in
  let e := Scenario.engine (Some (as_calendar c)) profile
             RulesEngine.builtin_evaluators in
  let request := Scenario.order (Some (lit 0.01)) in
  due Scenario.thursday (_getCurrenciesForSymbol c "EURUSD") Examples.payrolls /\
  valid (RulesEngine.evaluateTradeRequest Scenario.thursday e request
           (Some profile)) = false /\
  has_rule "news_trading"
    (RulesEngine.evaluateTradeRequest Scenario.thursday e request
       (Some profile)).
Proof.
  intros c profile e request.
  assert (Himpact : forall event, In event (economicEvents c) ->
                                  impact event <> None).
  { intros event [<-|[]]. discriminate. }
  assert (Hdue : due Scenario.thursday (_getCurrenciesForSymbol c "EURUSD")
                   Examples.payrolls).
  { exists "USD"%string, "High"%string, (Scenario.thursday + 1800000).
    split; [reflexivity|]. split; [vm_compute; tauto|].
    split; [reflexivity|]. split; [reflexivity|]. split; [reflexivity|].
    split; discriminate. }
  split; [exact Hdue|].
  exact (due_event_rejects_order Scenario.thursday e c request profile
           "EURUSD" Examples.payrolls eq_refl eq_refl eq_refl eq_refl
           Himpact (or_introl eq_refl) Hdue).
Defined.

End Calendar.

(** ** Trading days *)

Section TradingDays.
Import Account.

Lemma existsb_eqb_In (d : Z) (days : list Z) :
  existsb (Z.eqb d) days = true <-> In d days.
Proof.
  rewrite existsb_exists. split.
  - intros (x & Hin & Heq). apply Z.eqb_eq in Heq. now subst.
  - intros Hin. exists d. split; [exact Hin | apply Z.eqb_refl].
Qed.

(** Once the daily count is 1 or more, a trade registers no day. *)
Lemma incrementTradeCount_frozen (now : Z) (s : t) :
  1 <= dailyTradeCount (counters s) ->
  let s' := incrementTradeCount now s in
  1 <= dailyTradeCount (counters s') /\
  tradingDaysCompleted (counters s') = tradingDaysCompleted (counters s) /\
  tradingDaysHistory (counters s') = tradingDaysHistory (counters s).
Proof.
  intros Hcount. unfold incrementTradeCount.
  cbn [counters dailyTradeCount].
  destruct (Z.eqb_spec (dailyTradeCount (counters s) + 1) 1) as [H|H];
    [lia|].
  cbn [counters dailyTradeCount tradingDaysCompleted tradingDaysHistory].
  repeat split. lia.
Qed.

Lemma trades_frozen (times : list Z) :
  forall s : t,
  1 <= dailyTradeCount (counters s) ->
  tradingDaysCompleted (counters (trades times s))
  = tradingDaysCompleted (counters s) /\
  tradingDaysHistory (counters (trades times s))
  = tradingDaysHistory (counters s).
Proof.
  unfold trades. induction times as [|now times IH]; intros s Hcount.
  - split; reflexivity.
  - cbn [fold_left].
    destruct (incrementTradeCount_frozen now s Hcount) as (H1 & H2 & H3).
    destruct (IH _ H1) as [IH1 IH2]. split; congruence.
Qed.

(** X23.  The first trade of a UTC day that is not in the history
    registers the day, and puts the daily count back to zero.  A
    second trade on that day leaves the daily count at 1, and from
    then on no trade registers a day any more: whenever the later
    trades are made, the number of completed trading days stays what
    it was. *)
Theorem second_trade_stops_day_count (first second : Z) (later : list Z)
    (s : t) :
  dailyTradeCount (counters s) = 0 ->
  ~ In (utc_date first) (tradingDaysHistory (counters s)) ->
  utc_date second = utc_date first ->
  let s1 := incrementTradeCount first s in
  let s2 := incrementTradeCount second s1 in
  tradingDaysCompleted (counters s1) = tradingDaysCompleted (counters s) + 1 /\
  dailyTradeCount (counters s1) = 0 /\
  dailyTradeCount (counters s2) = 1 /\
  tradingDaysCompleted (counters (trades later s2))
  = tradingDaysCompleted (counters s) + 1 /\
  tradingDaysHistory (counters (trades later s2))
  = tradingDaysHistory (counters s) ++ [utc_date first].
Proof.
  intros Hzero Hnew Hday s1 s2.
  assert (Hs1 : counters s1
                = {| tradingDaysHistory :=
                       tradingDaysHistory (counters s) ++ [utc_date first];
                     dailyTradeCount := 0;
                     weeklyTradeCount := weeklyTradeCount (counters s) + 1;
                     tradingDaysCompleted :=
                       tradingDaysCompleted (counters s) + 1;
                     warnings := warnings (counters s) |}).
  { subst s1. unfold incrementTradeCount. cbn [counters dailyTradeCount].
    rewrite Hzero. cbn [Z.add Z.eqb Pos.eqb]. unfold registerTradingDay.
    cbn [counters tradingDaysHistory].
    destruct (existsb (Z.eqb (utc_date first))
                (tradingDaysHistory (counters s))) eqn:Hex.
    - apply existsb_eqb_In in Hex. contradiction.
    - reflexivity. }
  assert (Hs2 : counters s2
                = {| tradingDaysHistory :=
                       tradingDaysHistory (counters s) ++ [utc_date first];
                     dailyTradeCount := 1;
                     weeklyTradeCount := weeklyTradeCount (counters s) + 1 + 1;
                     tradingDaysCompleted :=
                       tradingDaysCompleted (counters s) + 1;
                     warnings := warnings (counters s) |}).
  { subst s2. unfold incrementTradeCount at 1. cbn [counters dailyTradeCount].
    rewrite Hs1. cbn [dailyTradeCount Z.add Z.eqb Pos.eqb weeklyTradeCount
                      tradingDaysHistory tradingDaysCompleted warnings].
    unfold registerTradingDay. cbn [counters tradingDaysHistory].
    assert (Hex : existsb (Z.eqb (utc_date second))
                    (tradingDaysHistory (counters s) ++ [utc_date first])
                  = true).
    { apply existsb_eqb_In, in_or_app. right. left. congruence. }
    rewrite Hex. reflexivity. }
  rewrite Hs1. cbn [tradingDaysCompleted dailyTradeCount].
  split; [reflexivity|]. split; [reflexivity|].
  split; [now rewrite Hs2|].
  destruct (trades_frozen later s2) as [Hc Hh]; [rewrite Hs2; cbn; lia|].
  rewrite Hc, Hh, Hs2. split; reflexivity.
Qed.

Lemma second_trade_stops_day_count_witness :
  let s := create 0 in
  let s2 := incrementTradeCount (Scenario.thursday + 60000)
              (incrementTradeCount Scenario.thursday s) in
  tradingDaysCompleted
    (counters (trades [Scenario.friday; Scenario.saturday;
                       3 * ms_per_day; 4 * ms_per_day] s2)) = 1 /\
  tradingDaysCompleted
    (counters (trades [Scenario.thursday; Scenario.friday; Scenario.saturday]
                 s)) = 3.
Proof.
  intros s s2. split; [|reflexivity].
  assert (Hnew : ~ In (utc_date Scenario.thursday)
                      (tradingDaysHistory (counters s))) by (intros []).
  exact (proj1 (proj2 (proj2 (proj2
           (second_trade_stops_day_count Scenario.thursday
              (Scenario.thursday + 60000)
              [Scenario.friday; Scenario.saturday; 3 * ms_per_day;
               4 * ms_per_day] s eq_refl Hnew eq_refl))))).
Defined.

Lemma NoDup_snoc (d : Z) (days : list Z) :
  List.NoDup days -> ~ In d days -> List.NoDup (days ++ [d]).
Proof.
  induction 1 as [|x days Hx Hdays IH]; intros Hd; cbn [app].
  - constructor; [intros [] | constructor].
  - constructor.
    + intros Hin. apply in_app_or in Hin as [Hin|[<-|[]]]; [contradiction|].
      apply Hd. now left.
    + apply IH. intros Hin. apply Hd. now right.
Qed.

Lemma registerTradingDay_counts (now : Z) (s : t) :
  List.NoDup (tradingDaysHistory (counters s)) ->
  tradingDaysCompleted (counters s)
  = Z.of_nat (length (tradingDaysHistory (counters s))) ->
  let s' := registerTradingDay now s in
  List.NoDup (tradingDaysHistory (counters s')) /\
  tradingDaysCompleted (counters s')
  = Z.of_nat (length (tradingDaysHistory (counters s'))) /\
  (forall d, In d (tradingDaysHistory (counters s')) ->
             In d (tradingDaysHistory (counters s)) \/ d = utc_date now) /\
  In (utc_date now) (tradingDaysHistory (counters s')).
Proof.
  intros Hnodup Hcount. unfold registerTradingDay.
  destruct (existsb (Z.eqb (utc_date now)) (tradingDaysHistory (counters s)))
    eqn:Hex; cbn [negb counters tradingDaysHistory tradingDaysCompleted].
  - apply existsb_eqb_In in Hex. repeat split; auto.
  - assert (Hnew : ~ In (utc_date now) (tradingDaysHistory (counters s))).
    { intros Hin. apply existsb_eqb_In in Hin. congruence. }
    split; [|split; [|split]].
    + now apply NoDup_snoc.
    + rewrite length_app. cbn [length]. lia.
    + intros d Hd. apply in_app_or in Hd as [Hd|[<-|[]]]; auto.
    + apply in_or_app. right. now left.
Qed.

(** X24.  No UTC day is counted twice.  When the number of completed
    trading days is the length of a history without repetition, it
    still is after any sequence of trades, it has not gone down, and
    every day of the history was there before or is the day of one of
    the trades. *)
Theorem trading_days_counted_once (times : list Z) (s : t) :
  List.NoDup (tradingDaysHistory (counters s)) ->
  tradingDaysCompleted (counters s)
  = Z.of_nat (length (tradingDaysHistory (counters s))) ->
  let s' := trades times s in
  List.NoDup (tradingDaysHistory (counters s')) /\
  tradingDaysCompleted (counters s')
  = Z.of_nat (length (tradingDaysHistory (counters s'))) /\
  tradingDaysCompleted (counters s) <= tradingDaysCompleted (counters s') /\
  (forall d, In d (tradingDaysHistory (counters s')) ->
             In d (tradingDaysHistory (counters s))
             \/ In d (map utc_date times)).
Proof.
  unfold trades. revert s.
  induction times as [|now times IH]; intros s Hnodup Hcount.
  - cbn. repeat split; auto. lia.
  - cbn [fold_left map].
    set (s1 := incrementTradeCount now s).
    assert (H1 : List.NoDup (tradingDaysHistory (counters s1)) /\
                 tradingDaysCompleted (counters s1)
                 = Z.of_nat (length (tradingDaysHistory (counters s1))) /\
                 tradingDaysCompleted (counters s)
                 <= tradingDaysCompleted (counters s1) /\
                 (forall d, In d (tradingDaysHistory (counters s1)) ->
                            In d (tradingDaysHistory (counters s))
                            \/ d = utc_date now)).
    { subst s1. unfold incrementTradeCount.
      cbn [counters dailyTradeCount].
      destruct (dailyTradeCount (counters s) + 1 =? 1).
      - match goal with
        | |- context [registerTradingDay now ?x] =>
            destruct (registerTradingDay_counts now x Hnodup Hcount)
              as (Hn & Hc & Hd & _)
        end.
        repeat split; auto. rewrite Hc.
        cbn [counters tradingDaysHistory tradingDaysCompleted] in *.
        rewrite Hcount. apply inj_le.
        unfold registerTradingDay.
        cbn [counters tradingDaysHistory].
        destruct (negb _); cbn [counters tradingDaysHistory];
          [rewrite length_app; cbn [length]|]; lia.
      - cbn [counters tradingDaysHistory tradingDaysCompleted].
        repeat split; auto. lia. }
    destruct H1 as (Hn1 & Hc1 & Hle1 & Hd1).
    destruct (IH s1 Hn1 Hc1) as (Hn & Hc & Hle & Hd).
    repeat split; auto; [lia|].
    intros d Hin. destruct (Hd d Hin) as [H|H]; [|now right; right].
    destruct (Hd1 d H) as [H'| ->]; [now left | right; now left].
Qed.

Lemma trading_days_counted_once_witness :
  let s := trades [Scenario.thursday; Scenario.thursday + 1;
                   Scenario.thursday + 2] (create 0) in
  List.NoDup (tradingDaysHistory (counters s)) /\
  tradingDaysCompleted (counters s) = 1.
Proof.
  intros s.
  assert (Hnodup : List.NoDup (tradingDaysHistory (counters (create 0))))
    by constructor.
  destruct (trading_days_counted_once
              [Scenario.thursday; Scenario.thursday + 1;
               Scenario.thursday + 2] (create 0) Hnodup eq_refl)
    as (Hn & Hc & _).
  split; [exact Hn | reflexivity].
Defined.

End TradingDays.

(** ** The account against the rules *)

Section AccountVerdicts.
Import Account.

Lemma existsb_is_error_app (xs ys : list Issue) :
  existsb is_error (xs ++ ys) = existsb is_error xs || existsb is_error ys.
Proof. apply existsb_app. Qed.

(** X25.  [evaluateAccount], [shouldClosePositionsForRuleCompliance]
    and the compliance report agree on the drawdown: under an active
    profile the account is valid exactly when the positions need not be
    closed, which is when the report finds the drawdown compliant, and
    which is when neither limit of the monitor is exceeded.  The
    profile handed to [evaluateAccount] has no say in this: the limits
    are those of the drawdown monitor. *)
Theorem account_verdicts_agree (now : Z) (s : t) (active : Profile.t)
    (given : option Profile.t) :
  RulesEngine.activeProfile (engine s) = Some active ->
  let monitor := RulesEngine.drawdownMonitor (RulesEngine.core (engine s)) in
  let within :=
    negb (DrawdownMonitor.isDailyLimitExceeded now monitor)
    && negb (DrawdownMonitor.isTotalLimitExceeded monitor) in
  account_valid (evaluateAccount now given s) = within /\
  shouldClose (shouldClosePositionsForRuleCompliance now s) = negb within /\
  exists report,
    generateRuleComplianceReport now s = Compliance report /\
    drawdown_compliant report = within.
Proof.
  intros Hactive monitor within. split; [|split].
  - unfold evaluateAccount, RulesEngine.effective_profile. rewrite Hactive.
    assert (Hp : exists p, match given with Some p => Some p
                                       | None => Some active end = Some p)
      by (destruct given; eauto).
    destruct Hp as [p ->].
    unfold RulesEngine.getDrawdownStatus.
    cbn [DrawdownMonitor.getStatus DrawdownMonitor.s_dailyLimitExceeded
         DrawdownMonitor.s_totalLimitExceeded].
    fold monitor. subst within.
    destruct (DrawdownMonitor.isDailyLimitExceeded now monitor);
      destruct (DrawdownMonitor.isTotalLimitExceeded monitor);
      destruct (ge (getCurrentProfit s) (Profile.profitTarget p));
      destruct (gt (getMinRemainingTradingDays (Some p) s) (Fin 0));
      reflexivity.
  - unfold shouldClosePositionsForRuleCompliance. rewrite Hactive.
    unfold RulesEngine.getDrawdownStatus.
    cbn [DrawdownMonitor.getStatus DrawdownMonitor.s_dailyLimitExceeded
         DrawdownMonitor.s_totalLimitExceeded].
    fold monitor. subst within.
    destruct (DrawdownMonitor.isDailyLimitExceeded now monitor);
      destruct (DrawdownMonitor.isTotalLimitExceeded monitor); reflexivity.
  - unfold generateRuleComplianceReport. rewrite Hactive.
    eexists. split; [reflexivity|]. reflexivity.
Qed.

Lemma account_verdicts_agree_witness :
  let profile := Scenario.profile None in
  let e := RulesEngine.updateBalance Scenario.thursday (lit 10000)
             (Some (lit 9600))
             (Scenario.engine None profile RulesEngine.builtin_evaluators) in
  let s := {| engine := e; counters := counters (create 0) |} in
  account_valid (evaluateAccount Scenario.thursday None s) = false /\
  shouldClose (shouldClosePositionsForRuleCompliance Scenario.thursday s)
  = true.
Proof.
  intros profile e s.
  destruct (account_verdicts_agree Scenario.thursday s profile None eq_refl)
    as (Hv & Hc & _).
  split; [rewrite Hv | rewrite Hc]; reflexivity.
Defined.

(** A number that is zero is not above zero. *)
Lemma is_zero_not_positive (x : num) : is_zero x = true -> gt x (Fin 0) = false.
Proof.
  destruct x as [| |q|]; cbn; try discriminate. intros H.
  apply Qeq_bool_eq, Qeq_alt in H. unfold gt. cbn. now rewrite H.
Qed.

(** X26.  The compliance report is compliant exactly when it
    recommends nothing.  A compliant report means an account on which
    [evaluateAccount] finds one thing to say, that the profit target
    has been reached. *)
Theorem compliant_report_recommends_nothing (now : Z) (s : t)
    (report : Report) :
  generateRuleComplianceReport now s = Compliance report ->
  (compliant report = true <-> recommendations report = []) /\
  (compliant report = true ->
   account_valid (evaluateAccount now None s) = true /\
   map issue_rule (account_rules (evaluateAccount now None s))
   = ["profit_target_reached"%string]).
Proof.
  unfold generateRuleComplianceReport, evaluateAccount,
    RulesEngine.effective_profile.
  destruct (RulesEngine.activeProfile (engine s)) as [p|] eqn:Hactive;
    [|discriminate].
  intros [= <-].
  cbn [compliant recommendations].
  unfold getMinRemainingTradingDays at 3. unfold RulesEngine.effective_profile.
  fold (getMinRemainingTradingDays None s).
  assert (Hsame : getMinRemainingTradingDays (Some p) s
                  = getMinRemainingTradingDays None s).
  { unfold getMinRemainingTradingDays, RulesEngine.effective_profile.
    now rewrite Hactive. }
  rewrite Hsame. unfold RulesEngine.getDrawdownStatus.
  cbn [DrawdownMonitor.getStatus DrawdownMonitor.s_dailyLimitExceeded
       DrawdownMonitor.s_totalLimitExceeded].
  destruct (DrawdownMonitor.isDailyLimitExceeded now
              (RulesEngine.drawdownMonitor (RulesEngine.core (engine s))));
    destruct (DrawdownMonitor.isTotalLimitExceeded
                (RulesEngine.drawdownMonitor (RulesEngine.core (engine s))));
    destruct (ge (getCurrentProfit s) (Profile.profitTarget p));
    destruct (is_zero (getMinRemainingTradingDays None s)) eqn:Hzero;
    cbn [negb andb app];
    (split; [split; intros H; first [reflexivity | discriminate H]
            | intros H; try discriminate H]).
  rewrite (is_zero_not_positive _ Hzero). split; reflexivity.
Qed.

Lemma compliant_report_recommends_nothing_witness :
  let s := Examples.passed_account in
  exists report,
    generateRuleComplianceReport Scenario.thursday s = Compliance report /\
    compliant report = true /\
    recommendations report = [].
Proof.
  intros s.
  assert (H : exists report,
             generateRuleComplianceReport Scenario.thursday s
             = Compliance report /\ compliant report = true)
    by (eexists; split; reflexivity).
  destruct H as (report & Hreport & Hcompliant).
  exists report. split; [exact Hreport|]. split; [exact Hcompliant|].
  exact (proj1 (proj1 (compliant_report_recommends_nothing Scenario.thursday
                         s report Hreport)) Hcompliant).
Defined.

End AccountVerdicts.

(** ** Initialising the drawdown monitor *)

Section Initialise.
Import Account.

(** X27.  [initializeDrawdownMonitor] needs an active profile: without
    one it throws and changes nothing.  With one, the monitor takes
    the limits given, those of the profile where none is given, and
    starts the day again from the initial balance, with no daily
    drawdown on record; the total drawdown is not touched, so that a
    total limit that was exceeded before is still exceeded afterwards
    as long as the old total drawdown is above the new limit. *)
Theorem initializeDrawdownMonitor_restarts_day (now : Z)
    (initialBalance : num) (maxDaily maxTotal : option num) (s : t) :
  let monitor := RulesEngine.drawdownMonitor (RulesEngine.core (engine s)) in
  match RulesEngine.activeProfile (engine s) with
  | None =>
      initializeDrawdownMonitor now initialBalance maxDaily maxTotal s
      = (Throw "No active FXIFY profile set", s)
  | Some profile =>
      exists s',
        initializeDrawdownMonitor now initialBalance maxDaily maxTotal s
        = (Ok tt, s') /\
        let monitor' :=
          RulesEngine.drawdownMonitor (RulesEngine.core (engine s')) in
        let totalLimit := default (Profile.maxTotalDrawdown profile) maxTotal in
        DrawdownMonitor.maxDailyDrawdown monitor'
        = default (Profile.maxDailyDrawdown profile) maxDaily /\
        DrawdownMonitor.maxTotalDrawdown monitor' = totalLimit /\
        DrawdownMonitor.startOfDayBalance monitor' = initialBalance /\
        DrawdownMonitor.peakBalance monitor' = initialBalance /\
        DrawdownMonitor.getCurrentDailyDrawdown now monitor' = Fin 0 /\
        DrawdownMonitor.drawdownHistory monitor' = [] /\
        DrawdownMonitor.totalDrawdown monitor'
        = DrawdownMonitor.totalDrawdown monitor /\
        DrawdownMonitor.isTotalLimitExceeded monitor'
        = gt (DrawdownMonitor.totalDrawdown monitor) totalLimit /\
        RulesEngine.initialBalance (engine s') = initialBalance /\
        RulesEngine.currentBalance (engine s') = initialBalance /\
        counters s' = counters s
  end.
Proof.
  intros monitor. unfold initializeDrawdownMonitor.
  destruct (RulesEngine.activeProfile (engine s)) as [profile|];
    [|reflexivity].
  eexists. split; [reflexivity|]. cbv zeta.
  cbn [engine counters set_drawdownMonitor RulesEngine.core
       RulesEngine.drawdownMonitor RulesEngine.initialBalance
       RulesEngine.currentBalance].
  fold monitor.
  unfold DrawdownMonitor.initialize, DrawdownMonitor.registerDayStart,
    DrawdownMonitor.isTotalLimitExceeded,
    DrawdownMonitor.getCurrentDailyDrawdown.
  cbn [DrawdownMonitor.dailyDrawdowns DrawdownMonitor.maxDailyDrawdown
       DrawdownMonitor.totalDrawdown DrawdownMonitor.maxTotalDrawdown
       DrawdownMonitor.startOfDayBalance DrawdownMonitor.currentBalance
       DrawdownMonitor.peakBalance DrawdownMonitor.drawdownHistory
       DrawdownMonitor.set_dailyDrawdowns
       DrawdownMonitor.set_startOfDayBalance].
  rewrite lookup_insert_eq. repeat split.
Qed.

End Initialise.

(** ** Profiles and the mode *)

Section Profiles.
Import ProfileStore.

Ltac store_fields :=
  cbn [manager counters userProfiles events set_userProfiles emit
       set_activeProfile set_isActive set_rulesEngine rulesEngine
       ModeManager.isActive ModeManager.activeProfile ModeManager.rulesEngine
       ModeManager.emitted Account.engine Account.counters
       Account.initializeForProfile Account.set_activeProfile
       Account.resetRules Account.set_drawdownMonitor
       RulesEngine.activeProfile RulesEngine.core RulesEngine.drawdownMonitor
       fst snd] in *.

Lemma get_set (key : string) (value : Stored)
    (profiles : list (string * Stored)) :
  get key (set key value profiles) = Some value.
Proof.
  induction profiles as [|[k v] profiles IH]; cbn [set get].
  - now rewrite String.eqb_refl.
  - destruct (String.eqb k key) eqn:E; cbn [get].
    + now rewrite String.eqb_refl.
    + now rewrite E.
Qed.

Lemma get_delete (key : string) (profiles : list (string * Stored)) :
  get key (delete key profiles) = None.
Proof.
  induction profiles as [|[k v] profiles IH]; [reflexivity|].
  cbn [delete]. destruct (String.eqb k key) eqn:E; [exact IH|].
  cbn [get]. now rewrite E.
Qed.

(** [createProfile] leaves the mode and the rules engine alone. *)
Lemma createProfile_manager (disk : Disk) (now : Z) (random : string)
    (input : Input) (s : t) :
  manager (snd (createProfile disk now random input s)) = manager s /\
  exists stored,
    get (str_or (id input) ("profile_" ++ random))
      (userProfiles (snd (createProfile disk now random input s)))
    = Some stored /\
    forall key, fst (createProfile disk now random input s) = Ok key ->
                key = str_or (id input) ("profile_" ++ random).
Proof.
  unfold createProfile.
  match goal with
  | |- context [disk ?x] => destruct (disk x)
  end; store_fields; (split; [reflexivity|]);
    eexists; (split; [apply get_set|]); intros key H; congruence.
Qed.

(** Switching the mode on, with a profile chosen. *)
Lemma switch_on_outcome (s : t) (active : Profile.t) :
  ModeManager.activeProfile (manager s) = Some active ->
  exists s',
    switch_on s = (true, s') /\
    ModeManager.isActive (manager s') = true /\
    ModeManager.activeProfile (manager s') = Some active /\
    RulesEngine.activeProfile (ModeManager.rulesEngine (manager s'))
    = Some active /\
    monitor s' = monitor s /\
    userProfiles s' = userProfiles s.
Proof.
  intros Hactive. unfold switch_on, monitor. store_fields.
  rewrite Hactive. eexists. split; [reflexivity|]. store_fields.
  repeat split; assumption.
Qed.

(** What [activateFXIFYMode] does: nothing to the mode when it returns
    [false]; when it returns [true], the mode is on with the profile
    named, or else the profile that was active, or else a profile of
    the map. *)
Lemma activateFXIFYMode_outcome (disk : Disk) (now : Z) (random : string)
    (profileId : option string) (s : t) :
  let s' := snd (activateFXIFYMode disk now random profileId s) in
  (fst (activateFXIFYMode disk now random profileId s) = false /\
   manager s' = manager s) \/
  (fst (activateFXIFYMode disk now random profileId s) = true /\
   ModeManager.isActive (manager s') = true /\
   monitor s' = monitor s /\
   exists active,
     ModeManager.activeProfile (manager s') = Some active /\
     RulesEngine.activeProfile (ModeManager.rulesEngine (manager s'))
     = Some active /\
     match profileId with
     | Some (String c rest) =>
         option_map profile (get (String c rest) (userProfiles s))
         = Some active
     | _ =>
         match ModeManager.activeProfile (manager s) with
         | Some before => active = before
         | None => True
         end
     end).
Proof.
  cbv zeta. unfold activateFXIFYMode.
  assert (Hrest :
    (let r :=
       match ModeManager.activeProfile (manager s) with
       | Some _ => switch_on s
       | None =>
           match userProfiles s with
           | (_, first) :: _ =>
               switch_on (set_activeProfile (Some (profile first)) s)
           | [] =>
               match createDefaultProfile disk now random s with
               | (Throw _, s) => (false, s)
               | (Ok defaultProfileId, s) =>
                   switch_on
                     (set_activeProfile
                        (option_map profile
                           (get defaultProfileId (userProfiles s)))
                        s)
               end
           end
       end in
     (fst r = false /\ manager (snd r) = manager s) \/
     (fst r = true /\
      ModeManager.isActive (manager (snd r)) = true /\
      monitor (snd r) = monitor s /\
      exists active,
        ModeManager.activeProfile (manager (snd r)) = Some active /\
        RulesEngine.activeProfile
          (ModeManager.rulesEngine (manager (snd r))) = Some active /\
        match ModeManager.activeProfile (manager s) with
        | Some before => active = before
        | None => True
        end))).
  { cbv zeta.
    destruct (ModeManager.activeProfile (manager s)) as [before|] eqn:Hbefore.
    - destruct (switch_on_outcome s before Hbefore)
        as (s' & -> & H1 & H2 & H3 & H4 & _).
      right. cbn [fst snd]. repeat split; auto. now exists before.
    - destruct (userProfiles s) as [|[k first] rest] eqn:Hprofiles.
      + destruct (createProfile_manager disk now random default_input s)
          as (Hm & stored & Hget & Hkey).
        unfold createDefaultProfile.
        destruct (createProfile disk now random default_input s)
          as [[key|e] s1] eqn:Hcreate; cbn [fst snd] in *.
        * rewrite (Hkey key eq_refl), Hget. cbn [option_map].
          destruct (switch_on_outcome
                      (set_activeProfile (Some (profile stored)) s1)
                      (profile stored) eq_refl)
            as (s' & -> & H1 & H2 & H3 & H4 & _).
          right. cbn [fst snd]. repeat split; auto.
          -- rewrite H4. unfold monitor. store_fields. now rewrite Hm.
          -- now exists (profile stored).
        * left. split; [reflexivity | exact Hm].
      + destruct (switch_on_outcome
                    (set_activeProfile (Some (profile first)) s)
                    (profile first) eq_refl)
          as (s' & -> & H1 & H2 & H3 & H4 & _).
        right. cbn [fst snd]. repeat split; auto.
        now exists (profile first). }
  destruct profileId as [[|c rest]|]; try exact Hrest.
  destruct (get (String c rest) (userProfiles s)) as [stored|] eqn:Hget.
  - destruct (switch_on_outcome
                (set_activeProfile (Some (profile stored)) s)
                (profile stored) eq_refl)
      as (s' & -> & H1 & H2 & H3 & H4 & _).
    right. cbn [fst snd]. repeat split; auto.
    now exists (profile stored).
  - left. split; reflexivity.
Qed.

(** What [updateProfile] does to the mode: nothing, or the profile of
    an active manager goes to the manager and to its rules engine. *)
Lemma updateProfile_manager (disk : Disk) (now : Z) (profileId : string)
    (input : Input) (s : t) :
  let s' := snd (updateProfile disk now profileId input s) in
  ModeManager.isActive (manager s') = ModeManager.isActive (manager s) /\
  monitor s' = monitor s /\
  (manager s' = manager s \/
   ModeManager.isActive (manager s) = true /\
   exists updated,
     option_map profile (get profileId (userProfiles s')) = Some updated /\
     ModeManager.activeProfile (manager s') = Some updated /\
     RulesEngine.activeProfile (ModeManager.rulesEngine (manager s'))
     = Some updated).
Proof.
  cbv zeta. unfold updateProfile, monitor.
  destruct (get profileId (userProfiles s)) as [current|];
    [|cbn [snd]; repeat split; now left].
  store_fields.
  match goal with
  | |- context [set profileId ?u (userProfiles s)] => set (updated := u)
  end.
  destruct (match ModeManager.activeProfile (manager s) with
            | Some active => String.eqb (Profile.id active) profileId
            | None => false
            end && ModeManager.isActive (manager s)) eqn:Hbranch.
  - apply andb_true_iff in Hbranch as [_ Hactive].
    match goal with
    | |- context [disk ?x] => destruct (disk x)
    end; store_fields; rewrite Hactive;
      (split; [reflexivity|]); (split; [reflexivity|]); right;
      (split; [reflexivity|]); exists (profile updated);
      rewrite get_set; repeat split.
  - match goal with
    | |- context [disk ?x] => destruct (disk x)
    end; store_fields; repeat split; now left.
Qed.

(** What [deleteProfile] does to the mode when the profile is there. *)
Lemma deleteProfile_manager (disk : Disk) (now : Z) (profileId : string)
    (s : t) (stored : Stored) :
  get profileId (userProfiles s) = Some stored ->
  let s' := snd (deleteProfile disk now profileId s) in
  get profileId (userProfiles s') = None /\
  fst (deleteProfile disk now profileId s)
  = negb (is_throw (disk (getAllProfiles s'))) /\
  match ModeManager.activeProfile (manager s) with
  | Some active =>
      if String.eqb (Profile.id active) profileId then
        ModeManager.isActive (manager s') = false /\
        ModeManager.activeProfile (manager s') = None /\
        (ModeManager.isActive (manager s) = true ->
         monitor s' = DrawdownMonitor.resetMonitor now (monitor s) /\
         RulesEngine.activeProfile (ModeManager.rulesEngine (manager s'))
         = None)
      else manager s' = manager s
  | None => manager s' = manager s
  end.
Proof.
  intros Hget. cbv zeta.
  unfold deleteProfile, monitor, getAllProfiles. rewrite Hget.
  destruct (ModeManager.activeProfile (manager s)) as [active|] eqn:Hactive.
  2:{ store_fields.
      destruct (disk (map snd (delete profileId (userProfiles s))))
        eqn:Hdisk;
        store_fields; rewrite ?Hdisk; repeat split; apply get_delete. }
  destruct (String.eqb (Profile.id active) profileId) eqn:Hid.
  2:{ store_fields.
      destruct (disk (map snd (delete profileId (userProfiles s))))
        eqn:Hdisk;
        store_fields; rewrite ?Hdisk; repeat split; apply get_delete. }
  unfold deactivateFXIFYMode.
  destruct (ModeManager.isActive (manager s)) eqn:Hon; cbn [negb];
    store_fields;
    destruct (disk (map snd (delete profileId (userProfiles s))))
      eqn:Hdisk;
    store_fields; rewrite ?Hdisk; repeat split; try apply get_delete;
    try assumption; discriminate.
Qed.

(** X28.  The mode and the rules engine stay in step.  If the manager,
    whenever it is in FXIFY mode, has an active profile that its rules
    engine holds too, then this is still so after creating, updating
    or deleting a profile, after switching the mode on or off, and
    after initialising the drawdown monitor, whatever the disk does;
    and in that state [initializeDrawdownMonitor] does not throw. *)
Theorem mode_and_engine_in_step (disk : Disk) (now : Z) (random : string)
    (input : Input) (named : option string) (profileId : string)
    (initialBalance : num) (s : t) :
  in_step s ->
  in_step (snd (createProfile disk now random input s)) /\
  in_step (snd (activateFXIFYMode disk now random named s)) /\
  in_step (snd (deactivateFXIFYMode now s)) /\
  in_step (snd (updateProfile disk now profileId input s)) /\
  in_step (snd (deleteProfile disk now profileId s)) /\
  in_step (snd (initializeDrawdownMonitor now initialBalance s)) /\
  fst (initializeDrawdownMonitor now initialBalance s) = Ok tt.
Proof.
  intros Hstep. unfold in_step in *.
  split; [|split; [|split; [|split; [|split; [|split]]]]].
  - destruct (createProfile_manager disk now random input s) as [-> _].
    exact Hstep.
  - destruct (activateFXIFYMode_outcome disk now random named s)
      as [[_ ->] | (_ & _ & _ & active & H1 & H2 & _)]; [exact Hstep|].
    intros _. now exists active.
  - unfold deactivateFXIFYMode.
    destruct (ModeManager.isActive (manager s)) eqn:Hon; cbn [negb snd];
      store_fields; [discriminate|].
    rewrite Hon. discriminate.
  - destruct (updateProfile_manager disk now profileId input s)
      as (_ & _ & [-> | (_ & updated & _ & H1 & H2)]); [exact Hstep|].
    intros _. now exists updated.
  - destruct (get profileId (userProfiles s)) as [stored|] eqn:Hget.
    + destruct (deleteProfile_manager disk now profileId s stored Hget)
        as (_ & _ & Hmode).
      destruct (ModeManager.activeProfile (manager s)) as [active|] eqn:Ha;
        [destruct (String.eqb (Profile.id active) profileId)|];
        rewrite <- Ha in Hstep; try (rewrite Hmode; exact Hstep).
      destruct Hmode as (Hoff & _). rewrite Hoff. discriminate.
    + unfold deleteProfile. rewrite Hget. exact Hstep.
  - unfold initializeDrawdownMonitor.
    destruct (ModeManager.isActive (manager s)) eqn:Hon;
      [|cbn [snd]; rewrite Hon; discriminate].
    destruct (Hstep eq_refl) as (active & H1 & H2). rewrite H1.
    unfold Account.initializeDrawdownMonitor. store_fields. rewrite H2.
    store_fields. intros _. now exists active.
  - unfold initializeDrawdownMonitor.
    destruct (ModeManager.isActive (manager s)) eqn:Hon; [|reflexivity].
    destruct (Hstep eq_refl) as (active & H1 & H2). rewrite H1.
    unfold Account.initializeDrawdownMonitor. store_fields. now rewrite H2.
Qed.

Lemma mode_and_engine_in_step_witness :
  let s := ProfileStore.create 0 in
  let s' := snd (activateFXIFYMode Examples.disk_full 0 "0a1b2c3d" None s) in
  in_step s /\
  in_step s' /\
  ModeManager.isActive (manager s') = false /\
  in_step Examples.store_on /\
  ModeManager.isActive (manager Examples.store_on) = true.
Proof.
  intros s s'.
  assert (H : in_step s) by (intros H; discriminate H).
  split; [exact H|]. split.
  - exact (proj1 (proj2 (mode_and_engine_in_step Examples.disk_full 0
                           "0a1b2c3d" Examples.wider_limit None "profile_1"
                           (lit 10000) s H))).
  - split; [reflexivity|]. split; [|reflexivity].
    exact (proj1 (proj2 (mode_and_engine_in_step Examples.disk_ok 0
                           "0a1b2c3d" Examples.wider_limit None "profile_1"
                           (lit 10000) s H))).
Defined.

(** X29.  The limits of a profile reach the drawdown monitor through
    [initializeDrawdownMonitor] only: switching the mode on, creating
    a profile and updating a profile, the active one included, leave
    the drawdown monitor, and with it the limits that decide whether a
    drawdown is exceeded, as they were. *)
Theorem profiles_leave_monitor (disk : Disk) (now : Z) (random : string)
    (input : Input) (named : option string) (profileId : string) (s : t) :
  monitor (snd (activateFXIFYMode disk now random named s)) = monitor s /\
  monitor (snd (createProfile disk now random input s)) = monitor s /\
  monitor (snd (updateProfile disk now profileId input s)) = monitor s /\
  DrawdownMonitor.isDailyLimitExceeded now
    (monitor (snd (updateProfile disk now profileId input s)))
  = DrawdownMonitor.isDailyLimitExceeded now (monitor s).
Proof.
  pose proof (updateProfile_manager disk now profileId input s)
    as (_ & Hupdate & _).
  split; [|split; [|split]].
  - destruct (activateFXIFYMode_outcome disk now random named s)
      as [[_ Hm] | (_ & _ & Hm & _)]; [|exact Hm].
    unfold monitor. now rewrite Hm.
  - destruct (createProfile_manager disk now random input s) as [Hm _].
    unfold monitor. now rewrite Hm.
  - exact Hupdate.
  - now rewrite Hupdate.
Qed.

(** What [updateProfile] stores. *)
Lemma updateProfile_stored (disk : Disk) (now : Z) (profileId : string)
    (input : Input) (s : t) (current : Stored) :
  get profileId (userProfiles s) = Some current ->
  exists updated,
    get profileId (userProfiles (snd (updateProfile disk now profileId input s)))
    = Some updated /\
    Profile.maxDailyDrawdown (profile updated)
    = default (Profile.maxDailyDrawdown (profile current))
        (maxDailyDrawdown input) /\
    Profile.maxTotalDrawdown (profile updated)
    = default (Profile.maxTotalDrawdown (profile current))
        (maxTotalDrawdown input) /\
    Profile.tradeSizeLimit (profile updated)
    = default (Profile.tradeSizeLimit (profile current))
        (tradeSizeLimit input) /\
    Profile.allowNewsTrading (profile updated)
    = default (Profile.allowNewsTrading (profile current))
        (allowNewsTrading input).
Proof.
  intros Hget. unfold updateProfile. rewrite Hget. store_fields.
  match goal with
  | |- context [set profileId ?u (userProfiles s)] => set (updated := u)
  end.
  exists updated.
  destruct (match ModeManager.activeProfile (manager s) with
            | Some active => String.eqb (Profile.id active) profileId
            | None => false
            end && ModeManager.isActive (manager s));
    match goal with
    | |- context [disk ?x] => destruct (disk x)
    end; store_fields; rewrite get_set; repeat split.
Qed.

(** X30.  A profile that is updated while FXIFY mode is off is not
    what the mode is switched on with.  With the mode off and a profile
    active, [updateProfile] changes the profile in the map only; when
    [activateFXIFYMode] is then called without a profile id, the mode
    is switched on with the active profile as it was before the
    update, in the manager and in its rules engine, and the map holds
    the updated one. *)
Theorem update_while_off_not_activated (disk : Disk) (now later : Z)
    (random profileId : string) (input : Input) (s : t)
    (before : Profile.t) (current : Stored) :
  ModeManager.isActive (manager s) = false ->
  ModeManager.activeProfile (manager s) = Some before ->
  get profileId (userProfiles s) = Some current ->
  let s1 := snd (updateProfile disk now profileId input s) in
  let s2 := snd (activateFXIFYMode disk later random None s1) in
  fst (activateFXIFYMode disk later random None s1) = true /\
  ModeManager.isActive (manager s2) = true /\
  ModeManager.activeProfile (manager s2) = Some before /\
  RulesEngine.activeProfile (ModeManager.rulesEngine (manager s2))
  = Some before /\
  exists updated,
    get profileId (userProfiles s2) = Some updated /\
    Profile.maxDailyDrawdown (profile updated)
    = default (Profile.maxDailyDrawdown (profile current))
        (maxDailyDrawdown input) /\
    Profile.maxTotalDrawdown (profile updated)
    = default (Profile.maxTotalDrawdown (profile current))
        (maxTotalDrawdown input) /\
    Profile.tradeSizeLimit (profile updated)
    = default (Profile.tradeSizeLimit (profile current))
        (tradeSizeLimit input) /\
    Profile.allowNewsTrading (profile updated)
    = default (Profile.allowNewsTrading (profile current))
        (allowNewsTrading input).
Proof.
  intros Hoff Hbefore Hget s1 s2.
  destruct (updateProfile_manager disk now profileId input s)
    as (_ & _ & Hmanager).
  fold s1 in Hmanager.
  assert (Hm : manager s1 = manager s).
  { destruct Hmanager as [H | [H _]]; [exact H | congruence]. }
  assert (Hactive : ModeManager.activeProfile (manager s1) = Some before)
    by now rewrite Hm.
  destruct (switch_on_outcome s1 before Hactive)
    as (s' & Hswitch & H1 & H2 & H3 & _ & Hprofiles).
  assert (Hcall : activateFXIFYMode disk later random None s1 = (true, s')).
  { unfold activateFXIFYMode. now rewrite Hactive. }
  subst s2. rewrite Hcall. cbn [fst snd].
  repeat (split; [assumption || reflexivity|]).
  rewrite Hprofiles. subst s1.
  exact (updateProfile_stored disk now profileId input s current Hget).
Qed.

Lemma update_while_off_not_activated_witness :
  let s := Examples.store_off in
  let s1 := snd (updateProfile Examples.disk_ok 1 "profile_0a1b2c3d"
                   Examples.wider_limit s) in
  let s2 := snd (activateFXIFYMode Examples.disk_ok 2 "ffffffff" None s1) in
  ModeManager.isActive (manager s) = false /\
  (exists before,
      ModeManager.activeProfile (manager s2) = Some before /\
      Profile.id before = "profile_0a1b2c3d"%string /\
      Profile.maxDailyDrawdown before = lit 0.03) /\
  exists updated,
    get "profile_0a1b2c3d" (userProfiles s2) = Some updated /\
    Profile.maxDailyDrawdown (profile updated) = lit 0.05.
Proof.
  intros s s1 s2.
  assert (Hoff : ModeManager.isActive (manager s) = false) by reflexivity.
  assert (Hbefore : exists before,
             ModeManager.activeProfile (manager s) = Some before /\
             Profile.id before = "profile_0a1b2c3d"%string /\
             Profile.maxDailyDrawdown before = lit 0.03)
    by (eexists; repeat split; reflexivity).
  destruct Hbefore as (before & Hbefore & Hid & Hlimit).
  assert (Hget : exists current,
             get "profile_0a1b2c3d" (userProfiles s) = Some current)
    by (eexists; reflexivity).
  destruct Hget as (current & Hget).
  destruct (update_while_off_not_activated Examples.disk_ok 1 2 "ffffffff"
              "profile_0a1b2c3d" Examples.wider_limit s before current
              Hoff Hbefore Hget)
    as (_ & _ & Hactive & _ & updated & Hupdated & Hdaily & _).
  split; [exact Hoff|]. split; [now exists before|].
  exists updated. split; [exact Hupdated|]. now rewrite Hdaily.
Defined.

End Profiles.
